(** * OnnxifiOp: the operator that hands a subgraph to an ONNXIFI backend

    A shallow embedding of [caffe2/operators/onnxifi_op.h]: the operator's
    constructor, [SetOutputShapeAndType], [BuildPropertyList],
    [BuildBackendAndGraph] with its creator lambda, and the destructor.
    Calls through the [onnxifi_library] function table are state-passing
    functions over the backend's world; every call is logged, with what the
    library answered, in a trace. *)

From Stdlib Require Import ZArith Ascii String List Lia.
From stdpp Require Import gmap strings list fin_maps pretty.

Local Open Scope Z_scope.

(** ** Machine integers and opaque handles *)

(** Conversion of an [int] (or any integer) to [uint64_t] / [size_t].
    [size_t] is taken to be 64 bits wide, as on every LP64 and LLP64 target. *)
Definition to_uint64 (v : Z) : Z := v `mod` 2 ^ 64.

Definition INT_MAX : Z := 2 ^ 31 - 1.

Definition is_int (v : Z) : Prop := - 2 ^ 31 ≤ v ≤ INT_MAX.

(** [onnxBackendID], [onnxBackend], [onnxGraph] and function pointers are
    opaque pointers: an address, with [nullptr] the address 0. *)
Definition onnxBackendID := Z.
Definition onnxBackend := Z.
Definition onnxGraph := Z.
Definition onnxExtensionFunctionPointer := Z.
Definition onnxStatus := Z.
Definition nullptr : Z := 0.

(** What the translation unit takes from outside the header: the four
    constants of the ONNXIFI ABI header that the code names, whether the
    build defines the macro [ONNXIFI_ENABLE_EXT], and what the platform's
    [std::vector<onnxBackendID>] does when it is resized from empty to a
    given number of elements: [None] when the resize goes through, the name
    of the exception it throws otherwise ([std::length_error] for a number
    above [max_size()], [std::bad_alloc] when the memory is not to be had).
    This is the one allocation whose size the library dictates; the
    allocations whose size the program fixes are taken to go through. *)
Class onnxifi_h := {
  ONNXIFI_STATUS_SUCCESS : onnxStatus;
  ONNXIFI_STATUS_FALLBACK : onnxStatus;
  ONNXIFI_DATATYPE_FLOAT32 : Z;
  ONNXIFI_BACKEND_PROPERTY_NONE : Z;
  ONNXIFI_ENABLE_EXT : bool;
  vector_resize_throws : Z → option string
}.

(** ** Operator definition and its arguments *)

(** The [OperatorDef] the executor passes in: the operator's inputs and
    outputs and its named arguments, one map per kind of value read by this
    operator. *)
Record OperatorDef := {
  input : list string;
  output : list string;
  arg_s : gmap string string;
  arg_i : gmap string Z;
  arg_strings : gmap string (list string);
  arg_ints : gmap string (list Z)
}.

Definition input_size (d : OperatorDef) : Z := Z.of_nat (length (input d)).
Definition output_size (d : OperatorDef) : Z := Z.of_nat (length (output d)).

(** Modelled from the spec: [GetSingleArgument] and [GetRepeatedArgument] of
    the operator base class, which is not part of this header. An argument
    that is absent reads as the default (the empty list for a repeated
    argument). *)
Definition GetSingleArgument {A} (args : gmap string A) (name : string) (dflt : A) : A :=
  default dflt (args !! name).

Definition GetRepeatedArgument {A} (args : gmap string (list A)) (name : string) : list A :=
  default [] (args !! name).

(** ** Descriptors and shape hints *)

Record TensorInfo := {
  dims : list Z;
  onnxifi_type : Z
}.

(** The two name vectors of an operator, [input_names_] and [output_names_]. *)
Inductive names_vec := input_names_vec | output_names_vec.

(** A [const char*]: null, the buffer of one element of a name vector of the
    operator (what [c_str()] of that element returns), or a string owned by
    somebody else. *)
Inductive c_str :=
| c_null
| c_str_of (v : names_vec) (i : nat)
| c_extern (s : string).

(** Modelled from the spec: [onnxTensorDescriptorV1], declared by the ONNXIFI
    ABI header. A name, an element-type tag, the dimension sizes, a
    memory-type tag and the raw buffer pointer. *)
Record onnxTensorDescriptorV1 := {
  name : c_str;
  dataType : Z;
  shape : list Z;
  memoryType : Z;
  buffer : Z
}.

(** [onnxTensorDescriptorV1()]: value initialization zeroes every field. *)
Definition onnxTensorDescriptorV1_zero : onnxTensorDescriptorV1 :=
  {| name := c_null; dataType := 0; shape := []; memoryType := 0; buffer := nullptr |}.

Definition set_name (d : onnxTensorDescriptorV1) (p : c_str) : onnxTensorDescriptorV1 :=
  {| name := p; dataType := dataType d; shape := shape d;
     memoryType := memoryType d; buffer := buffer d |}.

(** [m.emplace(k, v)] of [std::unordered_map]: nothing happens when [k] is
    already a key. *)
Definition emplace `{Countable K} {V} (k : K) (v : V) (m : gmap K V) : gmap K V :=
  match m !! k with
  | Some _ => m
  | None => <[k := v]> m
  end.

(** [c10::str("output_shape_hint_", output_idx)] *)
Definition output_shape_hint_key (output_idx : Z) : string :=
  "output_shape_hint_" +:+ pretty output_idx.

(** Lines 56-63: the [TensorInfo] built from a non-empty hint list. The front
    and every later element are [int]s stored into [uint64_t]s. *)
Definition hint_info (output_shape_hint : list Z) : option TensorInfo :=
  match output_shape_hint with
  | [] => None
  | front :: rest =>
      Some {| dims := to_uint64 <$> rest; onnxifi_type := to_uint64 front |}
  end.

(** Lines 48-65: the loop over [output_names_]. [pos] is the position of the
    range-for in the vector and [output_idx] the [int] counted next to it. *)
Fixpoint output_loop (ints : gmap string (list Z)) (names : list string)
    (pos : nat) (output_idx : Z)
    (output_desc : list onnxTensorDescriptorV1) (hints : gmap Z TensorInfo)
    : list onnxTensorDescriptorV1 * gmap Z TensorInfo :=
  match names with
  | [] => (output_desc, hints)
  | _ :: rest =>
      let output_desc :=
        output_desc ++ [set_name onnxTensorDescriptorV1_zero (c_str_of output_names_vec pos)] in
      let output_shape_hint := GetRepeatedArgument ints (output_shape_hint_key output_idx) in
      let hints :=
        match hint_info output_shape_hint with
        | Some info => emplace output_idx info hints
        | None => hints
        end in
      output_loop ints rest (S pos) (output_idx + 1) output_desc hints
  end.

(** Lines 44-47: the loop over [input_names_]. *)
Fixpoint input_loop (names : list string) (pos : nat)
    (input_desc : list onnxTensorDescriptorV1) : list onnxTensorDescriptorV1 :=
  match names with
  | [] => input_desc
  | _ :: rest =>
      input_loop rest (S pos)
        (input_desc ++ [set_name onnxTensorDescriptorV1_zero (c_str_of input_names_vec pos)])
  end.

(** The [output_shape_hints_] an operator ends up with. *)
Definition output_shape_hints_of (d : OperatorDef) (output_names : list string)
    : gmap Z TensorInfo :=
  (output_loop (arg_ints d) output_names 0%nat 0 [] ∅).2.

Section with_header.
Context `{!onnxifi_h}.

(** Lines 104-115. The vector behind [dims] is passed in and returned. *)
Definition SetOutputShapeAndType (output_shape_hints : gmap Z TensorInfo)
    (output_idx : Z) (dims0 : list Z) : Z * list Z :=
  let type := ONNXIFI_DATATYPE_FLOAT32 in
  match output_shape_hints !! output_idx with
  | Some info => (onnxifi_type info, dims0 ++ dims info)
  | None => (type, dims0)
  end.

(** Lines 117-123. *)
Definition BuildPropertyList (property_list : list Z) : list Z :=
  property_list ++ [ONNXIFI_BACKEND_PROPERTY_NONE].

End with_header.

(** ** The backend library and the trace of its calls *)

(** One call through the function table, with what the library answered. A
    buffer argument shows as its capacity ([None] for a null buffer); an out
    parameter shows as the value it holds after the call. *)
Inductive event :=
| EvGetBackendIDs (backendIDs : option nat) (numBackends_in : Z)
    (st : onnxStatus) (written : list onnxBackendID) (numBackends : Z)
| EvInitBackend (backendID : onnxBackendID) (auxPropertiesList : list Z)
    (st : onnxStatus) (backend : onnxBackend)
| EvReleaseBackendID (backendID : onnxBackendID) (st : onnxStatus)
| EvInitGraph (backend : onnxBackend) (onnxModel : string)
    (weightDescriptors : list onnxTensorDescriptorV1)
    (st : onnxStatus) (graph : onnxGraph)
| EvGetExtensionFunctionAddress (backendID : onnxBackendID) (fname : string)
    (st : onnxStatus) (function : onnxExtensionFunctionPointer)
| EvReleaseGraph (graph : onnxGraph) (st : onnxStatus)
| EvReleaseBackend (backend : onnxBackend) (st : onnxStatus).

(** The [onnxifi_library] function table over the backend's world [W]: each
    entry point takes its arguments and the world and answers with a status,
    the values of its out parameters, and the next world. *)
Record onnxifi_library (W : Type) := {
  onnxGetBackendIDs :
    option nat → Z → W → (onnxStatus * list onnxBackendID * Z) * W;
  onnxInitBackend :
    onnxBackendID → list Z → W → (onnxStatus * onnxBackend) * W;
  onnxReleaseBackendID : onnxBackendID → W → onnxStatus * W;
  onnxInitGraph :
    onnxBackend → string → list onnxTensorDescriptorV1 → W →
    (onnxStatus * onnxGraph) * W;
  onnxGetExtensionFunctionAddress :
    onnxBackendID → string → W → (onnxStatus * onnxExtensionFunctionPointer) * W;
  onnxReleaseGraph : onnxGraph → W → onnxStatus * W;
  onnxReleaseBackend : onnxBackend → W → onnxStatus * W
}.
Arguments onnxGetBackendIDs {W}.
Arguments onnxInitBackend {W}.
Arguments onnxReleaseBackendID {W}.
Arguments onnxInitGraph {W}.
Arguments onnxGetExtensionFunctionAddress {W}.
Arguments onnxReleaseGraph {W}.
Arguments onnxReleaseBackend {W}.

(** [onnx::BackendGraphInfo], as the creator makes it (line 186) and
    [BuildBackendAndGraph] reads it (lines 192-194). *)
Record BackendGraphInfo (W : Type) := {
  backend_id : onnxBackendID;
  backend : onnxBackend;
  graph : onnxGraph;
  lib : onnxifi_library W
}.
Arguments backend_id {W}.
Arguments backend {W}.
Arguments graph {W}.
Arguments lib {W}.

(** A [SharedPtrBackendGraphInfo] is the address of an object on the heap. *)
Definition SharedPtrBackendGraphInfo := nat.

(** The process: the backend's world, the calls made so far (oldest first),
    the objects made by [make_shared], and the process-wide map behind
    [getOnnxBackendGraphMap()], from key to shared object and the number of
    operators that reference it. *)
Record State (W : Type) := {
  world : W;
  trace : list event;
  heap : gmap nat (BackendGraphInfo W);
  next_object : nat;
  backend_graph_map : gmap string (SharedPtrBackendGraphInfo * nat)
}.
Arguments world {W}.
Arguments trace {W}.
Arguments heap {W}.
Arguments next_object {W}.
Arguments backend_graph_map {W}.

(** How a call ends: with a value, with the exception a failed
    [CAFFE_ENFORCE] throws, in undefined behaviour, or with an exception of
    the standard library, named by [what]. *)
Inductive result (A : Type) :=
| Ok (a : A)
| EnforceNotMet (msg : string)
| Undefined
| StdException (what : string).
Arguments Ok {A}.
Arguments EnforceNotMet {A}.
Arguments Undefined {A}.
Arguments StdException {A}.

Definition M (W A : Type) : Type := State W → result A * State W.

Global Instance M_ret {W} : MRet (M W) := λ A a s, (Ok a, s).

Global Instance M_bind {W} : MBind (M W) := λ A B k m s,
  match m s with
  | (Ok a, s') => k a s'
  | (EnforceNotMet msg, s') => (EnforceNotMet msg, s')
  | (Undefined, s') => (Undefined, s')
  | (StdException what, s') => (StdException what, s')
  end.

Definition throw {W A} (msg : string) : M W A := λ s, (EnforceNotMet msg, s).
Definition undefined {W A} : M W A := λ s, (Undefined, s).
Definition throw_std {W A} (what : string) : M W A := λ s, (StdException what, s).

Definition CAFFE_ENFORCE {W} (c : bool) (msg : string) : M W unit :=
  if c then mret () else throw msg.
Definition CAFFE_ENFORCE_EQ {W} (x y : Z) (msg : string) : M W unit :=
  CAFFE_ENFORCE (bool_decide (x = y)) msg.
Definition CAFFE_ENFORCE_GT {W} (x y : Z) (msg : string) : M W unit :=
  CAFFE_ENFORCE (bool_decide (x > y)) msg.
Definition CAFFE_ENFORCE_LT {W} (x y : Z) (msg : string) : M W unit :=
  CAFFE_ENFORCE (bool_decide (x < y)) msg.

(** The state after a call that was answered with the world [w] and is
    logged as [e]. *)
Definition with_call {W} (w : W) (e : event) (s : State W) : State W :=
  {| world := w; trace := trace s ++ [e]; heap := heap s;
     next_object := next_object s; backend_graph_map := backend_graph_map s |}.

(** A call through the table: run the entry point on the world and log it. *)
Definition abi {W R} (f : W → R * W) (ev : R → event) : M W R := λ s,
  let '(r, w) := f (world s) in (Ok r, with_call w (ev r) s).

(** [std::make_shared<onnx::BackendGraphInfo>(...)]: a fresh object. *)
Definition make_shared {W} (o : BackendGraphInfo W) : M W SharedPtrBackendGraphInfo := λ s,
  (Ok (next_object s),
   {| world := world s; trace := trace s;
      heap := <[next_object s := o]> (heap s);
      next_object := S (next_object s); backend_graph_map := backend_graph_map s |}).

(** [v[i]] with [i] converted to [size_t]; reading past the end is undefined. *)
Definition vector_at {W A} (v : list A) (i : Z) : M W A :=
  match v !! Z.to_nat (to_uint64 i) with
  | Some x => mret x
  | None => undefined
  end.

(** What the buffer of [cap] null handles holds after the library stored
    [written] from its start. *)
Definition stored (written : list onnxBackendID) (buf : list onnxBackendID)
    : list onnxBackendID :=
  take (length buf) written ++ drop (length written) buf.

(** ** The operator *)

(** The data members of [OnnxifiOp] that this header reads or writes
    ([input_shapes_] and [output_shapes_] are declared and never touched
    here). [lib_] is the library behind the pointer, which the constructor
    checks to be non-null; [onnxSetIOAndRunGraphPointer_] is [None] until it
    is assigned. *)
Record OnnxifiOp (W : Type) := {
  lib_ : onnxifi_library W;
  op_id_string_ : string;
  backend_id_ : onnxBackendID;
  backend_ : onnxBackend;
  graph_ : onnxGraph;
  backend_graph_shared_ptr_ : option SharedPtrBackendGraphInfo;
  input_desc_ : list onnxTensorDescriptorV1;
  output_desc_ : list onnxTensorDescriptorV1;
  onnxSetIOAndRunGraphPointer_ : option onnxExtensionFunctionPointer;
  input_names_ : list string;
  output_names_ : list string;
  output_shape_hints_ : gmap Z TensorInfo
}.
Arguments lib_ {W}.
Arguments op_id_string_ {W}.
Arguments backend_id_ {W}.
Arguments backend_ {W}.
Arguments graph_ {W}.
Arguments backend_graph_shared_ptr_ {W}.
Arguments input_desc_ {W}.
Arguments output_desc_ {W}.
Arguments onnxSetIOAndRunGraphPointer_ {W}.
Arguments input_names_ {W}.
Arguments output_names_ {W}.
Arguments output_shape_hints_ {W}.

(** The string a [const char*] points to, read through the operator that
    owns the name vectors; and the string a descriptor's [name] points to. *)
Definition c_str_deref {W} (op : OnnxifiOp W) (p : c_str) : option string :=
  match p with
  | c_null => None
  | c_str_of input_names_vec i => input_names_ op !! i
  | c_str_of output_names_vec i => output_names_ op !! i
  | c_extern s => Some s
  end.

Definition name_of {W} (op : OnnxifiOp W) (d : onnxTensorDescriptorV1) : option string :=
  c_str_deref op (name d).

(** Lines 82-86: the loop over [initializers], two elements a round. With an
    odd number of elements the second read of a round is past the end. *)
Fixpoint initializers_loop (initializers : list string)
    (input_mapping : gmap string string) (initializer_set : gset string)
    : option (gmap string string * gset string) :=
  match initializers with
  | [] => Some (input_mapping, initializer_set)
  | key :: after_key =>
      match after_key with
      | [] => None
      | value :: rest =>
          initializers_loop rest (emplace key value input_mapping)
            ({[key]} ∪ initializer_set)
      end
  end.

Section with_library.
Context `{!onnxifi_h} {W : Type}.

(** Lines 129-131. *)
Definition op_id_string_of (operator_def : OperatorDef) : string :=
  GetSingleArgument (arg_s operator_def) "model_id" "" +:+ ":" +:+
  GetSingleArgument (arg_s operator_def) "net_pos" "".

(** Lines 168-173: the rounds of the loop that releases the backend ids that
    are not used, for the values [rounds] of [i]. *)
Fixpoint release_unused (lib : onnxifi_library W) (backend_ids : list onnxBackendID)
    (backend_index : Z) (rounds : list Z) : M W unit :=
  match rounds with
  | [] => mret ()
  | i :: rest =>
      (if bool_decide (i = backend_index) then mret ()
       else
         id ← vector_at backend_ids i;
         abi (onnxReleaseBackendID lib id) (EvReleaseBackendID id);;
         mret ());;
      release_unused lib backend_ids backend_index rest
  end.

(** [v.resize(n)] (line 155) for the vector [v] of backend ids: the first
    [n] elements of [v], then null handles up to [n] elements; or the
    exception the platform's vector throws for [n]. *)
Definition resize (v : list onnxBackendID) (n : Z) : M W (list onnxBackendID) :=
  match vector_resize_throws n with
  | Some what => throw_std what
  | None => mret (take (Z.to_nat n) v ++ replicate (Z.to_nat n - length v) nullptr)
  end.

(** Lines 136-188: the creator lambda. [backend_index] is an [int] and
    [num_backends] a [size_t]: where the two meet, the [int] is converted.
    The loop counter [i] is an [int] too, so more than [INT_MAX] rounds
    overflow it. *)
Definition creator (lib : onnxifi_library W) (property_pointers : list Z)
    (backend_index : Z) (onnx_model_str : string)
    (weight_descs : list onnxTensorDescriptorV1) : M W SharedPtrBackendGraphInfo :=
  let backend_ids : list onnxBackendID := [] in
  let num_backends := 0 in
  '(st, _, num_backends) ←
    abi (onnxGetBackendIDs lib None num_backends)
        (λ r, EvGetBackendIDs None num_backends r.1.1 r.1.2 r.2);
  CAFFE_ENFORCE_EQ st ONNXIFI_STATUS_FALLBACK "";;
  CAFFE_ENFORCE_GT num_backends 0 "At least 1 onnxifi backend should be available";;
  CAFFE_ENFORCE_LT (to_uint64 backend_index) num_backends
    ("Backend idx out of bound: " +:+ pretty backend_index +:+
     ", #backends: " +:+ pretty num_backends);;
  backend_ids ← resize backend_ids num_backends;
  '(st, written, num_backends) ←
    abi (onnxGetBackendIDs lib (Some (length backend_ids)) num_backends)
        (λ r, EvGetBackendIDs (Some (length backend_ids)) num_backends r.1.1 r.1.2 r.2);
  let backend_ids := stored written backend_ids in
  CAFFE_ENFORCE_EQ st ONNXIFI_STATUS_SUCCESS "";;
  backend_id ← vector_at backend_ids backend_index;
  '(st, backend) ←
    abi (onnxInitBackend lib backend_id property_pointers)
        (λ r, EvInitBackend backend_id property_pointers r.1 r.2);
  CAFFE_ENFORCE_EQ st ONNXIFI_STATUS_SUCCESS "";;
  (if bool_decide (INT_MAX < num_backends) then undefined
   else release_unused lib backend_ids backend_index (seqZ 0 num_backends));;
  '(st, graph) ←
    abi (onnxInitGraph lib backend onnx_model_str weight_descs)
        (λ r, EvInitGraph backend onnx_model_str weight_descs r.1 r.2);
  CAFFE_ENFORCE_EQ st ONNXIFI_STATUS_SUCCESS "";;
  make_shared
    {| backend_id := backend_id; backend := backend; graph := graph; lib := lib |}.

(** ** The backend/graph map *)

Definition set_backend_graph_map (m : gmap string (SharedPtrBackendGraphInfo * nat))
    (s : State W) : State W :=
  {| world := world s; trace := trace s; heap := heap s;
     next_object := next_object s; backend_graph_map := m |}.

(** [*p] for a shared pointer. *)
Definition deref (p : SharedPtrBackendGraphInfo) : M W (BackendGraphInfo W) := λ s,
  match heap s !! p with
  | Some info => (Ok info, s)
  | None => (Undefined, s)
  end.

(** The end of the object behind [p]. *)
Definition free (p : SharedPtrBackendGraphInfo) : M W unit := λ s,
  (Ok (),
   {| world := world s; trace := trace s; heap := delete p (heap s);
      next_object := next_object s; backend_graph_map := backend_graph_map s |}).

Definition modify (f : State W → State W) : M W unit := λ s, (Ok (), f s).

(** Modelled from the spec: [OnnxBackendGraphMap::insert], declared in
    [caffe2/onnx/onnxifi_graph_info.h], which is not part of this header (the
    spec's [get_or_create]). A key that has an entry gets one more reference
    to the entry's object and the creator is not run; otherwise the creator
    runs and, when it returns, its object is entered with one reference. *)
Definition backend_graph_map_insert (key : string)
    (creator : M W SharedPtrBackendGraphInfo) : M W SharedPtrBackendGraphInfo := λ s,
  match backend_graph_map s !! key with
  | Some (p, refs) =>
      (Ok p, set_backend_graph_map (<[key := (p, S refs)]> (backend_graph_map s)) s)
  | None =>
      match creator s with
      | (Ok p, s') =>
          (Ok p, set_backend_graph_map (<[key := (p, 1%nat)]> (backend_graph_map s')) s')
      | failed => failed
      end
  end.

(** Modelled from the spec: the native teardown of a [BackendGraphInfo], in
    the order graph, backend instance, backend identity, each through the
    library the object refers to; then the object is gone. *)
Definition teardown (p : SharedPtrBackendGraphInfo) : M W unit :=
  info ← deref p;
  st ← abi (onnxReleaseGraph (lib info) (graph info)) (EvReleaseGraph (graph info));
  CAFFE_ENFORCE_EQ st ONNXIFI_STATUS_SUCCESS "onnxReleaseGraph";;
  st ← abi (onnxReleaseBackend (lib info) (backend info)) (EvReleaseBackend (backend info));
  CAFFE_ENFORCE_EQ st ONNXIFI_STATUS_SUCCESS "onnxReleaseBackend";;
  st ← abi (onnxReleaseBackendID (lib info) (backend_id info))
           (EvReleaseBackendID (backend_id info));
  CAFFE_ENFORCE_EQ st ONNXIFI_STATUS_SUCCESS "onnxReleaseBackendID";;
  free p.

(** Modelled from the spec: [OnnxBackendGraphMap::remove] (the spec's
    [release]). One reference less; the last one tears the object down and
    removes the entry; a key with no entry is reported. *)
Definition backend_graph_map_remove (key : string) : M W unit := λ s,
  match backend_graph_map s !! key with
  | None => (EnforceNotMet "release of a key that has no entry", s)
  | Some (p, refs) =>
      if bool_decide (refs ≤ 1)%nat then
        (teardown p;; modify (λ s', set_backend_graph_map (delete key (backend_graph_map s')) s')) s
      else
        (Ok (), set_backend_graph_map (<[key := (p, pred refs)]> (backend_graph_map s)) s)
  end.

(** ** Building the backend and the graph *)

Definition set_graph_members (this : OnnxifiOp W) (id : string)
    (p : SharedPtrBackendGraphInfo) (info : BackendGraphInfo W) : OnnxifiOp W :=
  {| lib_ := lib_ this; op_id_string_ := id;
     backend_id_ := backend_id info; backend_ := backend info; graph_ := graph info;
     backend_graph_shared_ptr_ := Some p;
     input_desc_ := input_desc_ this; output_desc_ := output_desc_ this;
     onnxSetIOAndRunGraphPointer_ := onnxSetIOAndRunGraphPointer_ this;
     input_names_ := input_names_ this; output_names_ := output_names_ this;
     output_shape_hints_ := output_shape_hints_ this |}.

Definition set_onnxSetIOAndRunGraphPointer (this : OnnxifiOp W)
    (fp : onnxExtensionFunctionPointer) : OnnxifiOp W :=
  {| lib_ := lib_ this; op_id_string_ := op_id_string_ this;
     backend_id_ := backend_id_ this; backend_ := backend_ this; graph_ := graph_ this;
     backend_graph_shared_ptr_ := backend_graph_shared_ptr_ this;
     input_desc_ := input_desc_ this; output_desc_ := output_desc_ this;
     onnxSetIOAndRunGraphPointer_ := Some fp;
     input_names_ := input_names_ this; output_names_ := output_names_ this;
     output_shape_hints_ := output_shape_hints_ this |}.

(** Lines 125-208. *)
Definition BuildBackendAndGraph (this : OnnxifiOp W) (operator_def : OperatorDef)
    (property_pointers : list Z) (onnx_model_str : string)
    (weight_descs : list onnxTensorDescriptorV1) : M W (OnnxifiOp W) :=
  let op_id_string := op_id_string_of operator_def in
  let backend_index := GetSingleArgument (arg_i operator_def) "backend_id" 0 in
  let lib := lib_ this in
  p ← backend_graph_map_insert op_id_string
         (creator lib property_pointers backend_index onnx_model_str weight_descs);
  info ← deref p;
  let this := set_graph_members this op_id_string p info in
  if ONNXIFI_ENABLE_EXT then
    '(st, fp) ←
      abi (onnxGetExtensionFunctionAddress (lib_ this) (backend_id_ this)
             "onnxSetIOAndRunGraphFunction")
          (λ r, EvGetExtensionFunctionAddress (backend_id_ this)
                  "onnxSetIOAndRunGraphFunction" r.1 r.2);
    if bool_decide (st ≠ ONNXIFI_STATUS_SUCCESS) then
      mret (set_onnxSetIOAndRunGraphPointer this nullptr)
    else mret (set_onnxSetIOAndRunGraphPointer this fp)
  else mret this.

(** ** Constructor and destructor *)

Section with_workspace.
(** The workspace and [buildInitializationList], which is declared here and
    defined elsewhere: from the workspace seen through the rename mapping and
    the set of initializer names it makes the weight descriptors, or throws. *)
Context {Workspace : Type}.
Context (buildInitializationList :
  Workspace → gmap string string → gset string → option (list onnxTensorDescriptorV1)).

(** Lines 28-94. [initOnnxifiLibrary] is what [onnx::initOnnxifiLibrary()]
    returns: the library, or [None] for a null pointer. *)
Definition OnnxifiOp_new (initOnnxifiLibrary : option (onnxifi_library W))
    (operator_def : OperatorDef) (ws : Workspace) : M W (OnnxifiOp W) :=
  match initOnnxifiLibrary with
  | None => throw "Cannot initialize ONNXIFI library"
  | Some lib =>
      let onnx_model_str := GetSingleArgument (arg_s operator_def) "onnx_model" "" in
      CAFFE_ENFORCE (negb (bool_decide (onnx_model_str = ""%string)))
        "onnx_model cannot be empty";;
      let input_names := GetRepeatedArgument (arg_strings operator_def) "input_names" in
      let output_names := GetRepeatedArgument (arg_strings operator_def) "output_names" in
      CAFFE_ENFORCE_EQ (Z.of_nat (length input_names)) (input_size operator_def) "";;
      CAFFE_ENFORCE_EQ (Z.of_nat (length output_names)) (output_size operator_def) "";;
      let input_desc := input_loop input_names 0%nat [] in
      let '(output_desc, output_shape_hints) :=
        output_loop (arg_ints operator_def) output_names 0%nat 0 [] ∅ in
      let property_pointers := BuildPropertyList [] in
      let initializers := GetRepeatedArgument (arg_strings operator_def) "initializers" in
      CAFFE_ENFORCE_EQ (Z.of_nat (length initializers) `mod` 2) 0
        "initializers should come in pairs";;
      match initializers_loop initializers ∅ ∅ with
      | None => undefined
      | Some (input_mapping, initializer_set) =>
          match buildInitializationList ws input_mapping initializer_set with
          | None => throw "buildInitializationList"
          | Some weight_descs =>
              BuildBackendAndGraph
                {| lib_ := lib; op_id_string_ := "";
                   backend_id_ := nullptr; backend_ := nullptr; graph_ := nullptr;
                   backend_graph_shared_ptr_ := None;
                   input_desc_ := input_desc; output_desc_ := output_desc;
                   onnxSetIOAndRunGraphPointer_ := None;
                   input_names_ := input_names; output_names_ := output_names;
                   output_shape_hints_ := output_shape_hints |}
                operator_def property_pointers onnx_model_str weight_descs
          end
      end
  end.

End with_workspace.

(** Lines 96-99. The reset of the operator's own pointer changes nothing in
    the process state; the map is told that one reference is gone. *)
Definition OnnxifiOp_delete (this : OnnxifiOp W) : M W unit :=
  backend_graph_map_remove (op_id_string_ this).

End with_library.

(** ** A concrete header, library and operator definition *)

(** [max_size()] of a vector of 8-byte handles where [ptrdiff_t] has 64
    bits: [PTRDIFF_MAX / 8]. *)
Definition vector_max_size : Z := 2 ^ 60 - 1.

(** The values the ONNXIFI header gives the four constants, and a vector that
    can be resized up to [max_size()]. *)
Definition onnxifi_v1 (ext : bool) : onnxifi_h :=
  {| ONNXIFI_STATUS_SUCCESS := 0; ONNXIFI_STATUS_FALLBACK := 1;
     ONNXIFI_DATATYPE_FLOAT32 := 1; ONNXIFI_BACKEND_PROPERTY_NONE := 0;
     ONNXIFI_ENABLE_EXT := ext;
     vector_resize_throws := λ n,
       if bool_decide (vector_max_size < n) then Some "std::length_error"%string
       else None |}.

(** A library for tests: it has the backends [ids], answers each entry point
    with a fixed status, and numbers the backends and graphs it makes with
    its world, a counter. *)
Record test_backend := {
  ids : list onnxBackendID;
  count_status : onnxStatus;
  fill_status : onnxStatus;
  init_backend_status : onnxStatus;
  release_status : onnxStatus;
  init_graph_status : onnxStatus;
  extension_status : onnxStatus
}.

Definition test_library (b : test_backend) : onnxifi_library nat :=
  {| onnxGetBackendIDs := λ buf _ w,
       match buf with
       | None => ((count_status b, [], Z.of_nat (length (ids b))), w)
       | Some cap => ((fill_status b, take cap (ids b), Z.of_nat (length (ids b))), w)
       end;
     onnxInitBackend := λ _ _ w, ((init_backend_status b, 1000 + Z.of_nat w), S w);
     onnxReleaseBackendID := λ _ w, (release_status b, w);
     onnxInitGraph := λ _ _ _ w, ((init_graph_status b, 2000 + Z.of_nat w), S w);
     onnxGetExtensionFunctionAddress := λ _ _ w, ((extension_status b, 77), w);
     onnxReleaseGraph := λ _ w, (0, w);
     onnxReleaseBackend := λ _ w, (0, w) |}.

(** Three backends, every call answered as the ABI documents it. *)
Definition three_backends : test_backend :=
  {| ids := [11; 12; 13]; count_status := 1; fill_status := 0;
     init_backend_status := 0; release_status := 0; init_graph_status := 0;
     extension_status := 0 |}.

Definition fresh_process : State nat :=
  {| world := 0%nat; trace := []; heap := ∅; next_object := 0%nat;
     backend_graph_map := ∅ |}.

(** Two inputs [x] and [y], one output [z]. *)
Definition xyz_def (model_id net_pos : string) (backend_id : Z)
    (hint : list Z) (initializers : list string) : OperatorDef :=
  {| input := ["X"; "Y"]; output := ["Z"];
     arg_s := {["onnx_model" := "model bytes"; "model_id" := model_id;
                "net_pos" := net_pos]};
     arg_i := {["backend_id" := backend_id]};
     arg_strings := {["input_names" := ["x"; "y"]; "output_names" := ["z"];
                      "initializers" := initializers]};
     arg_ints := {["output_shape_hint_0" := hint]} |}%string.

Definition no_weights : unit → gmap string string → gset string →
    option (list onnxTensorDescriptorV1) := λ _ _ _, Some [].

(** ** Definitions the statements use *)


(** The model identifier and the net position an operator definition gives. *)
Definition model_id_of (d : OperatorDef) : string := GetSingleArgument (arg_s d) "model_id" "".
Definition net_pos_of (d : OperatorDef) : string := GetSingleArgument (arg_s d) "net_pos" "".

(** Whether a string has a colon in it. *)
Fixpoint has_colon (s : string) : bool :=
  match s with
  | EmptyString => false
  | String c rest => bool_decide (c = ":"%char) || has_colon rest
  end.

(** The initializers list read the way the spec words it: consecutive
    (original name, workspace name) pairs. *)
Fixpoint pairs_of (initializers : list string) : list (string * string) :=
  match initializers with
  | key :: value :: rest => (key, value) :: pairs_of rest
  | _ => []
  end.

(** Modelled from the spec: the refresh step of [RunOnDevice], which this
    header declares and [onnxifi_op.cc] defines. A tensor of the current call
    is its dimension sizes and the address of its data. Each input descriptor
    gets the sizes and the address of the input at its position; each output
    descriptor gets the type and the sizes [SetOutputShapeAndType] gives for
    its position and the address of the output at its position. *)
Record Tensor := {
  sizes : list Z;
  raw_data : Z
}.

Definition refreshed (d : onnxTensorDescriptorV1) (type : Z) (dims : list Z) (data : Z)
    : onnxTensorDescriptorV1 :=
  {| name := name d; dataType := type; shape := dims;
     memoryType := memoryType d; buffer := data |}.

Definition RunOnDevice_refresh `{!onnxifi_h} {W} (this : OnnxifiOp W)
    (Input Output : nat → Tensor) : OnnxifiOp W :=
  {| lib_ := lib_ this; op_id_string_ := op_id_string_ this;
     backend_id_ := backend_id_ this; backend_ := backend_ this; graph_ := graph_ this;
     backend_graph_shared_ptr_ := backend_graph_shared_ptr_ this;
     input_desc_ :=
       imap (λ i d, refreshed d (dataType d) (sizes (Input i)) (raw_data (Input i)))
            (input_desc_ this);
     output_desc_ :=
       imap (λ i d,
               let '(type, dims) :=
                 SetOutputShapeAndType (output_shape_hints_ this) (Z.of_nat i) [] in
               refreshed d type dims (raw_data (Output i)))
            (output_desc_ this);
     onnxSetIOAndRunGraphPointer_ := onnxSetIOAndRunGraphPointer_ this;
     input_names_ := input_names_ this; output_names_ := output_names_ this;
     output_shape_hints_ := output_shape_hints_ this |}.

(** The operator after a series of calls, each with its inputs and outputs. *)
Definition after_calls `{!onnxifi_h} {W} (this : OnnxifiOp W)
    (calls : list ((nat → Tensor) * (nat → Tensor))) : OnnxifiOp W :=
  foldl (λ op call, RunOnDevice_refresh op call.1 call.2) this calls.




(** The backend ids at the positions below [num_backends] other than
    [backend_index], in the order of their positions. *)
Definition unused_ids (backend_ids : list onnxBackendID) (backend_index num_backends : Z)
    : list onnxBackendID :=
  omap (λ i, if bool_decide (i = backend_index) then None else backend_ids !! Z.to_nat i)
       (seqZ 0 num_backends).

(** The runs of the creator, by the calls it makes and how it ends, for the
    property list, backend index, model and weights it is given: it stops at
    the count query, at the resize of the vector of ids, at the fill query,
    at [onnxInitBackend] or at [onnxInitGraph], or it returns the three
    handles. A run that ends in undefined behaviour is not described. *)
Inductive creator_run `{!onnxifi_h} (property_pointers : list Z) (backend_index : Z)
    (onnx_model_str : string) (weight_descs : list onnxTensorDescriptorV1)
    : list event → result (onnxBackendID * onnxBackend * onnxGraph) → Prop :=
| run_count_refused st wr n msg :
    st ≠ ONNXIFI_STATUS_FALLBACK ∨ ¬ n > 0 ∨ ¬ to_uint64 backend_index < n →
    creator_run property_pointers backend_index onnx_model_str weight_descs
      [EvGetBackendIDs None 0 st wr n] (EnforceNotMet msg)
| run_resize_threw wr n what :
    n > 0 → to_uint64 backend_index < n → vector_resize_throws n = Some what →
    creator_run property_pointers backend_index onnx_model_str weight_descs
      [EvGetBackendIDs None 0 ONNXIFI_STATUS_FALLBACK wr n] (StdException what)
| run_fill_refused wr n st written n' msg :
    n > 0 → to_uint64 backend_index < n → vector_resize_throws n = None →
    st ≠ ONNXIFI_STATUS_SUCCESS →
    creator_run property_pointers backend_index onnx_model_str weight_descs
      [EvGetBackendIDs None 0 ONNXIFI_STATUS_FALLBACK wr n;
       EvGetBackendIDs (Some (Z.to_nat n)) n st written n'] (EnforceNotMet msg)
| run_init_backend_refused wr n written n' id st be msg :
    n > 0 → to_uint64 backend_index < n → vector_resize_throws n = None →
    stored written (replicate (Z.to_nat n) nullptr) !! Z.to_nat (to_uint64 backend_index)
      = Some id →
    st ≠ ONNXIFI_STATUS_SUCCESS →
    creator_run property_pointers backend_index onnx_model_str weight_descs
      [EvGetBackendIDs None 0 ONNXIFI_STATUS_FALLBACK wr n;
       EvGetBackendIDs (Some (Z.to_nat n)) n ONNXIFI_STATUS_SUCCESS written n';
       EvInitBackend id property_pointers st be] (EnforceNotMet msg)
| run_init_graph_refused wr n written n' id be sts st g msg :
    n > 0 → to_uint64 backend_index < n → vector_resize_throws n = None → n' ≤ n →
    stored written (replicate (Z.to_nat n) nullptr) !! Z.to_nat (to_uint64 backend_index)
      = Some id →
    length sts =
      length (unused_ids (stored written (replicate (Z.to_nat n) nullptr)) backend_index n') →
    st ≠ ONNXIFI_STATUS_SUCCESS →
    creator_run property_pointers backend_index onnx_model_str weight_descs
      ([EvGetBackendIDs None 0 ONNXIFI_STATUS_FALLBACK wr n;
        EvGetBackendIDs (Some (Z.to_nat n)) n ONNXIFI_STATUS_SUCCESS written n';
        EvInitBackend id property_pointers ONNXIFI_STATUS_SUCCESS be] ++
       zip_with EvReleaseBackendID
         (unused_ids (stored written (replicate (Z.to_nat n) nullptr)) backend_index n') sts ++
       [EvInitGraph be onnx_model_str weight_descs st g]) (EnforceNotMet msg)
| run_returned wr n written n' id be sts g :
    n > 0 → to_uint64 backend_index < n → vector_resize_throws n = None → n' ≤ n →
    stored written (replicate (Z.to_nat n) nullptr) !! Z.to_nat (to_uint64 backend_index)
      = Some id →
    length sts =
      length (unused_ids (stored written (replicate (Z.to_nat n) nullptr)) backend_index n') →
    creator_run property_pointers backend_index onnx_model_str weight_descs
      ([EvGetBackendIDs None 0 ONNXIFI_STATUS_FALLBACK wr n;
        EvGetBackendIDs (Some (Z.to_nat n)) n ONNXIFI_STATUS_SUCCESS written n';
        EvInitBackend id property_pointers ONNXIFI_STATUS_SUCCESS be] ++
       zip_with EvReleaseBackendID
         (unused_ids (stored written (replicate (Z.to_nat n) nullptr)) backend_index n') sts ++
       [EvInitGraph be onnx_model_str weight_descs ONNXIFI_STATUS_SUCCESS g])
      (Ok (id, be, g))
| run_undefined evs :
    creator_run property_pointers backend_index onnx_model_str weight_descs evs Undefined.

(** The creator with its steps in the order the spec words them: both
    queries of the enumeration first, the check of the backend index after
    them. *)
Definition creator_as_worded `{!onnxifi_h} {W} (lib : onnxifi_library W)
    (property_pointers : list Z) (backend_index : Z) (onnx_model_str : string)
    (weight_descs : list onnxTensorDescriptorV1) : M W SharedPtrBackendGraphInfo :=
  '(st, _, num_backends) ←
    abi (onnxGetBackendIDs lib None 0) (λ r, EvGetBackendIDs None 0 r.1.1 r.1.2 r.2);
  CAFFE_ENFORCE_EQ st ONNXIFI_STATUS_FALLBACK "";;
  backend_ids ← resize [] num_backends;
  '(st, written, num_backends) ←
    abi (onnxGetBackendIDs lib (Some (length backend_ids)) num_backends)
        (λ r, EvGetBackendIDs (Some (length backend_ids)) num_backends r.1.1 r.1.2 r.2);
  let backend_ids := stored written backend_ids in
  CAFFE_ENFORCE_EQ st ONNXIFI_STATUS_SUCCESS "";;
  CAFFE_ENFORCE_GT num_backends 0 "At least 1 onnxifi backend should be available";;
  CAFFE_ENFORCE_LT (to_uint64 backend_index) num_backends
    ("Backend idx out of bound: " +:+ pretty backend_index +:+
     ", #backends: " +:+ pretty num_backends);;
  backend_id ← vector_at backend_ids backend_index;
  '(st, backend) ←
    abi (onnxInitBackend lib backend_id property_pointers)
        (λ r, EvInitBackend backend_id property_pointers r.1 r.2);
  CAFFE_ENFORCE_EQ st ONNXIFI_STATUS_SUCCESS "";;
  (if bool_decide (INT_MAX < num_backends) then undefined
   else release_unused lib backend_ids backend_index (seqZ 0 num_backends));;
  '(st, graph) ←
    abi (onnxInitGraph lib backend onnx_model_str weight_descs)
        (λ r, EvInitGraph backend onnx_model_str weight_descs r.1 r.2);
  CAFFE_ENFORCE_EQ st ONNXIFI_STATUS_SUCCESS "";;
  make_shared
    {| backend_id := backend_id; backend := backend; graph := graph; lib := lib |}.



(** Three backends and a library without the extension. *)
Definition no_extension : test_backend :=
  {| ids := [11; 12; 13]; count_status := 1; fill_status := 0;
     init_backend_status := 0; release_status := 0; init_graph_status := 0;
     extension_status := 257 |}.

(** An operator of the test library before [BuildBackendAndGraph]: no names,
    no descriptors, the data members at their initial values. *)
Definition unbuilt (b : test_backend) : OnnxifiOp nat :=
  {| lib_ := test_library b; op_id_string_ := "";
     backend_id_ := nullptr; backend_ := nullptr; graph_ := nullptr;
     backend_graph_shared_ptr_ := None;
     input_desc_ := []; output_desc_ := [];
     onnxSetIOAndRunGraphPointer_ := None;
     input_names_ := []; output_names_ := [];
     output_shape_hints_ := ∅ |}.

(** The calls of the extension probe. *)
Definition is_probe (e : event) : Prop :=
  ∃ id fname st fp, e = EvGetExtensionFunctionAddress id fname st fp.

(** ** Histories of a process *)

(** The operators of [live] that hold the key [key]. *)
Definition holders {W} (key : string) (live : list (OnnxifiOp W)) : nat :=
  length (filter (λ op, op_id_string_ op = key) live).

(** The states a process reaches, with the operators that are alive in
    them: it starts with an empty map and no operator; a constructor that
    returns adds its operator; a constructor that throws, whichever
    exception, adds none; a destructor that returns takes its operator
    away. *)
Inductive reachable `{!onnxifi_h} {W Workspace : Type}
    (buildInitializationList :
       Workspace → gmap string string → gset string → option (list onnxTensorDescriptorV1))
    : State W → list (OnnxifiOp W) → Prop :=
| reach_start s0 :
    backend_graph_map s0 = ∅ →
    reachable buildInitializationList s0 []
| reach_new s live initOnnxifiLibrary d ws op s' :
    reachable buildInitializationList s live →
    OnnxifiOp_new buildInitializationList initOnnxifiLibrary d ws s = (Ok op, s') →
    reachable buildInitializationList s' (op :: live)
| reach_new_throws s live initOnnxifiLibrary d ws msg s' :
    reachable buildInitializationList s live →
    OnnxifiOp_new buildInitializationList initOnnxifiLibrary d ws s = (EnforceNotMet msg, s') →
    reachable buildInitializationList s' live
| reach_new_throws_std s live initOnnxifiLibrary d ws what s' :
    reachable buildInitializationList s live →
    OnnxifiOp_new buildInitializationList initOnnxifiLibrary d ws s = (StdException what, s') →
    reachable buildInitializationList s' live
| reach_delete s live1 op live2 s' :
    reachable buildInitializationList s (live1 ++ op :: live2) →
    OnnxifiOp_delete op s = (Ok (), s') →
    reachable buildInitializationList s' (live1 ++ live2).

(** What holds of the map, the heap and the operators alive in every state
    a process reaches: an entry counts the operators that hold its key, of
    which there is at least one, and points to an object on the heap, made
    before now; two keys never point to one object; and an operator that is
    alive points to the object of its key's entry and holds that object's
    handles. *)
Definition shares {W} (s : State W) (live : list (OnnxifiOp W)) : Prop :=
  (∀ key p refs, backend_graph_map s !! key = Some (p, refs) →
     refs = holders key live ∧ (0 < refs)%nat ∧ (p < next_object s)%nat ∧
     is_Some (heap s !! p)) ∧
  (∀ key1 key2 p refs1 refs2,
     backend_graph_map s !! key1 = Some (p, refs1) →
     backend_graph_map s !! key2 = Some (p, refs2) → key1 = key2) ∧
  (∀ op, op ∈ live →
     ∃ p info refs,
       backend_graph_map s !! op_id_string_ op = Some (p, refs) ∧
       backend_graph_shared_ptr_ op = Some p ∧ heap s !! p = Some info ∧
       (backend_id_ op, backend_ op, graph_ op)
         = (backend_id info, backend info, graph info)).

(** ** Definitions for further properties *)

(** The backend ids released by the calls [evs], in the order of the calls. *)
Definition released_ids (evs : list event) : list onnxBackendID :=
  omap (λ e, match e with EvReleaseBackendID id _ => Some id | _ => None end) evs.

(** A computation that only adds to the trace. *)
Definition grows {W A} (m : M W A) : Prop :=
  ∀ s, trace s `prefix_of` trace (m s).2.

(** A library for tests whose fill query stores the ids [filled] and reports
    [fill_count] of them, after a count query that reported [count]. *)
Definition two_counts (count : Z) (filled : list onnxBackendID) (fill_count : Z)
    : onnxifi_library nat :=
  {| onnxGetBackendIDs := λ buf _ w,
       match buf with
       | None => ((1, [], count), w)
       | Some cap => ((0, take cap filled, fill_count), w)
       end;
     onnxInitBackend := λ _ _ w, ((0, 1000 + Z.of_nat w), S w);
     onnxReleaseBackendID := λ _ w, (0, w);
     onnxInitGraph := λ _ _ _ w, ((0, 2000 + Z.of_nat w), S w);
     onnxGetExtensionFunctionAddress := λ _ _ w, ((0, 77), w);
     onnxReleaseGraph := λ _ w, (0, w);
     onnxReleaseBackend := λ _ w, (0, w) |}.

(** The data members of the operator when the constructor reaches the call
    of [BuildBackendAndGraph] (line 93), for the library it loaded. *)
Definition members_before_build {W} (lib : onnxifi_library W) (operator_def : OperatorDef)
    : OnnxifiOp W :=
  let input_names := GetRepeatedArgument (arg_strings operator_def) "input_names" in
  let output_names := GetRepeatedArgument (arg_strings operator_def) "output_names" in
  {| lib_ := lib; op_id_string_ := "";
     backend_id_ := nullptr; backend_ := nullptr; graph_ := nullptr;
     backend_graph_shared_ptr_ := None;
     input_desc_ := input_loop input_names 0%nat [];
     output_desc_ := (output_loop (arg_ints operator_def) output_names 0%nat 0 [] ∅).1;
     onnxSetIOAndRunGraphPointer_ := None;
     input_names_ := input_names; output_names_ := output_names;
     output_shape_hints_ := output_shape_hints_of operator_def output_names |}.

(** A [buildInitializationList] for tests: it finds the weights, none, when
    it is given the rename map from [w] to [w_ws] and the set of [w], and
    throws for any other map or set. *)
Definition weights_of_w : unit → gmap string string → gset string →
    option (list onnxTensorDescriptorV1) := λ _ input_mapping initializer_set,
  if bool_decide (input_mapping = {["w" := "w_ws"]} ∧ initializer_set = {["w"]})%string
  then Some [] else None.

(** * Properties *)

Example pretty_ex : output_shape_hint_key 12 = "output_shape_hint_12"%string.
Proof. vm_compute. reflexivity. Qed.

(** ** Shape hints *)





(** C2: when a shape hint is registered for output position [output_idx],
    [SetOutputShapeAndType] returns the hint's element-type tag and appends
    exactly the hint's dimensions to the vector it is given; when none is
    registered it returns the 32-bit floating point tag and leaves the vector
    as it was (empty when it was passed in empty). Nothing a backend reports
    is an input of the function. *)
Theorem SetOutputShapeAndType_hint_wins `{!onnxifi_h}
    (output_shape_hints : gmap Z TensorInfo) (output_idx : Z) (dims0 : list Z) :
  (∀ info, output_shape_hints !! output_idx = Some info →
     SetOutputShapeAndType output_shape_hints output_idx dims0 =
       (onnxifi_type info, dims0 ++ dims info)) ∧
  (output_shape_hints !! output_idx = None →
     SetOutputShapeAndType output_shape_hints output_idx dims0 =
       (ONNXIFI_DATATYPE_FLOAT32, dims0)).
Proof.
  unfold SetOutputShapeAndType. split.
  - intros info ->. reflexivity.
  - intros ->. reflexivity.
Qed.

Lemma SetOutputShapeAndType_hint_wins_witness :
  let hints : gmap Z TensorInfo := {[0 := {| dims := [1; 10]; onnxifi_type := 7 |}]} in
  @SetOutputShapeAndType (onnxifi_v1 true) hints 0 [] = (7, [1; 10]) ∧
  @SetOutputShapeAndType (onnxifi_v1 true) hints 1 [] = (1, []).
Proof.
  split.
  - apply (proj1 (@SetOutputShapeAndType_hint_wins (onnxifi_v1 true) _ 0 [])
             {| dims := [1; 10]; onnxifi_type := 7 |}).
    vm_compute. reflexivity.
  - apply (proj2 (@SetOutputShapeAndType_hint_wins (onnxifi_v1 true) _ 1 [])).
    vm_compute. reflexivity.
Defined.

(** ** The cache key *)

Lemma has_colon_app (a b : string) : has_colon (a +:+ String ":" b) = true.
Proof.
  induction a as [|c a IH]; simpl.
  - reflexivity.
  - rewrite IH. apply orb_true_r.
Qed.

Lemma has_colon_head c s : has_colon (String c s) = false → c ≠ ":"%char.
Proof. simpl. intros Hc ->. rewrite bool_decide_eq_true_2 in Hc; done. Qed.

Lemma has_colon_tail c s : has_colon (String c s) = false → has_colon s = false.
Proof. simpl. intros Hc. apply orb_false_elim in Hc. tauto. Qed.

(** With no colon in the parts before the separator, the first colon of the
    key is the separator. *)
Lemma key_split_first (m1 m2 n1 n2 : string) :
  has_colon m1 = false → has_colon m2 = false →
  m1 +:+ ":" +:+ n1 = m2 +:+ ":" +:+ n2 → m1 = m2 ∧ n1 = n2.
Proof.
  revert m2. induction m1 as [|a m1 IH]; intros [|c m2] H1 H2 Heq; simpl in Heq.
  - by injection Heq.
  - injection Heq as Hc _. by apply has_colon_head in H2.
  - injection Heq as Ha _. by apply has_colon_head in H1.
  - injection Heq as -> Heq.
    destruct (IH m2) as [-> ->]; eauto using has_colon_tail.
Qed.

(** With no colon in the parts after the separator, the last colon of the
    key is the separator. *)
Lemma key_split_last (m1 m2 n1 n2 : string) :
  has_colon n1 = false → has_colon n2 = false →
  m1 +:+ ":" +:+ n1 = m2 +:+ ":" +:+ n2 → m1 = m2 ∧ n1 = n2.
Proof.
  revert m2. induction m1 as [|a m1 IH]; intros [|c m2] H1 H2 Heq; simpl in Heq.
  - by injection Heq.
  - injection Heq as _ Hn. change (n1 = m2 +:+ String ":" n2) in Hn.
    rewrite Hn, has_colon_app in H1. done.
  - injection Heq as _ Hn. change (m1 +:+ String ":" n1 = n2) in Hn.
    rewrite <- Hn, has_colon_app in H2. done.
  - injection Heq as -> Heq. destruct (IH m2) as [-> ->]; eauto.
Qed.

(** C9, as amended: two operator definitions whose (model identifier, net
    position) pairs differ get different keys, provided neither model
    identifier has a colon in it, or neither net position has. *)
Theorem op_id_string_injective (d1 d2 : OperatorDef) :
  (has_colon (model_id_of d1) = false ∧ has_colon (model_id_of d2) = false) ∨
  (has_colon (net_pos_of d1) = false ∧ has_colon (net_pos_of d2) = false) →
  (model_id_of d1, net_pos_of d1) ≠ (model_id_of d2, net_pos_of d2) →
  op_id_string_of d1 ≠ op_id_string_of d2.
Proof.
  intros Hcolon Hne Heq. apply Hne. unfold op_id_string_of in Heq.
  fold (model_id_of d1) (net_pos_of d1) (model_id_of d2) (net_pos_of d2) in Heq.
  destruct Hcolon as [[H1 H2]|[H1 H2]].
  - destruct (key_split_first _ _ _ _ H1 H2 Heq) as [-> ->]. reflexivity.
  - destruct (key_split_last _ _ _ _ H1 H2 Heq) as [-> ->]. reflexivity.
Qed.

Lemma op_id_string_injective_witness :
  let d1 := xyz_def "m" "1" 0 [] [] in
  let d2 := xyz_def "m" "2" 0 [] [] in
  (has_colon (net_pos_of d1) = false ∧ has_colon (net_pos_of d2) = false) ∧
  (model_id_of d1, net_pos_of d1) ≠ (model_id_of d2, net_pos_of d2) ∧
  op_id_string_of d1 ≠ op_id_string_of d2.
Proof.
  assert (Hc : has_colon (net_pos_of (xyz_def "m" "1" 0 [] [])) = false ∧
               has_colon (net_pos_of (xyz_def "m" "2" 0 [] [])) = false)
    by (vm_compute; split; reflexivity).
  assert (Hne : (model_id_of (xyz_def "m" "1" 0 [] []), net_pos_of (xyz_def "m" "1" 0 [] []))
                ≠ (model_id_of (xyz_def "m" "2" 0 [] []), net_pos_of (xyz_def "m" "2" 0 [] [])))
    by (vm_compute; discriminate).
  exact (conj Hc (conj Hne
    (op_id_string_injective (xyz_def "m" "1" 0 [] []) (xyz_def "m" "2" 0 [] [])
       (or_intror Hc) Hne))).
Defined.

(** C9, as stated, fails: the model identifier [a:b] at net position [c] and
    the model identifier [a] at net position [b:c] are different pairs with
    the one key [a:b:c]. *)
Lemma op_id_string_collision :
  let d1 := xyz_def "a:b" "c" 0 [] [] in
  let d2 := xyz_def "a" "b:c" 0 [] [] in
  (model_id_of d1, net_pos_of d1) ≠ (model_id_of d2, net_pos_of d2) ∧
  op_id_string_of d1 = op_id_string_of d2 ∧
  op_id_string_of d1 = "a:b:c"%string.
Proof. vm_compute. split; [discriminate|split; reflexivity]. Qed.

(** ** The initializers list *)

Lemma emplace_union `{Countable K} {V} (k : K) (v : V) (m : gmap K V) :
  emplace k v m = m ∪ {[k := v]}.
Proof.
  unfold emplace. destruct (m !! k) as [x|] eqn:E.
  - apply map_eq. intros j. rewrite lookup_union.
    destruct (decide (k = j)) as [<-|Hne].
    + rewrite E, lookup_singleton_eq. done.
    + rewrite lookup_singleton_ne by done. by destruct (m !! j).
  - by rewrite insert_union_singleton_r.
Qed.

(** On a list of even length the loop ends, with the map and the set of the
    list's consecutive pairs added to what it started from; for a name that
    comes twice the first pair stands. *)
Lemma initializers_loop_pairs (n : nat) : ∀ (initializers : list string) m s,
  length initializers = (2 * n)%nat →
  initializers_loop initializers m s =
    Some (m ∪ list_to_map (pairs_of initializers),
          s ∪ list_to_set (pairs_of initializers).*1).
Proof.
  induction n as [|n IH]; intros [|key [|value rest]] m s Hlen; simpl in Hlen; try lia.
  - simpl. f_equal. f_equal; by rewrite (right_id_L ∅ (∪)).
  - cbn [initializers_loop pairs_of]. rewrite IH by lia. f_equal. f_equal.
    + rewrite emplace_union, list_to_map_cons, <- (assoc_L (∪)).
      by rewrite <- insert_union_singleton_l.
    + cbn [fmap list_fmap list_to_set fst].
      by rewrite (comm_L (∪) {[key]} s), <- (assoc_L (∪)).
Qed.

Lemma pairs_of_flatten (n : nat) : ∀ initializers : list string,
  length initializers = (2 * n)%nat →
  flat_map (λ p, [p.1; p.2]) (pairs_of initializers) = initializers.
Proof.
  induction n as [|n IH]; intros [|key [|value rest]] Hlen; simpl in Hlen; try lia.
  - reflexivity.
  - cbn [pairs_of flat_map fst snd app]. rewrite IH by lia. reflexivity.
Qed.

Lemma even_length_half (l : list string) :
  Z.of_nat (length l) `mod` 2 = 0 → ∃ n, length l = (2 * n)%nat.
Proof.
  intros Hmod. exists (length l / 2)%nat.
  pose proof (Nat.div_mod_eq (length l) 2) as Hdiv.
  assert ((length l) `mod` 2 = 0)%nat; [|lia].
  apply Nat2Z.inj. rewrite Nat2Z.inj_mod. exact Hmod.
Qed.

(** Monadic steps, as equations. *)
Lemma bind_enforce {W B} (c : bool) (msg : string) (k : unit → M W B) (s : State W) :
  (CAFFE_ENFORCE c msg ≫= k) s = if c then k () s else (EnforceNotMet msg, s).
Proof. by destruct c. Qed.

Lemma bind_enforce_eq {W B} (x y : Z) (msg : string) (k : unit → M W B) (s : State W) :
  (CAFFE_ENFORCE_EQ x y msg ≫= k) s =
    if bool_decide (x = y) then k () s else (EnforceNotMet msg, s).
Proof. apply bind_enforce. Qed.

(** C6: with an odd number of initializers the constructor throws and leaves
    the process as it was, so no call through the function table was made;
    with an even number the loop reads the list as consecutive (original
    name, workspace name) pairs (the pairs, flattened, are the list) and ends
    with the rename map and the set of original names of those pairs, and
    the constructor, once the checks before the list have passed, hands that
    map and that set to [buildInitializationList]: it throws when
    [buildInitializationList] does, and goes on to [BuildBackendAndGraph]
    with the weights [buildInitializationList] made of them. *)
Theorem initializers_in_pairs `{!onnxifi_h} {W Workspace : Type}
    (buildInitializationList :
       Workspace → gmap string string → gset string → option (list onnxTensorDescriptorV1))
    (initOnnxifiLibrary : option (onnxifi_library W))
    (operator_def : OperatorDef) (ws : Workspace) (s : State W) :
  let initializers := GetRepeatedArgument (arg_strings operator_def) "initializers" in
  let input_mapping : gmap string string := list_to_map (pairs_of initializers) in
  let initializer_set : gset string := list_to_set (pairs_of initializers).*1 in
  (Z.of_nat (length initializers) `mod` 2 ≠ 0 →
     ∃ msg, OnnxifiOp_new buildInitializationList initOnnxifiLibrary operator_def ws s
            = (EnforceNotMet msg, s)) ∧
  (Z.of_nat (length initializers) `mod` 2 = 0 →
     flat_map (λ p, [p.1; p.2]) (pairs_of initializers) = initializers ∧
     initializers_loop initializers ∅ ∅ = Some (input_mapping, initializer_set) ∧
     ∀ lib,
       initOnnxifiLibrary = Some lib →
       GetSingleArgument (arg_s operator_def) "onnx_model" "" ≠ ""%string →
       Z.of_nat (length (GetRepeatedArgument (arg_strings operator_def) "input_names"))
         = input_size operator_def →
       Z.of_nat (length (GetRepeatedArgument (arg_strings operator_def) "output_names"))
         = output_size operator_def →
       OnnxifiOp_new buildInitializationList initOnnxifiLibrary operator_def ws s =
         match buildInitializationList ws input_mapping initializer_set with
         | None => (EnforceNotMet "buildInitializationList", s)
         | Some weight_descs =>
             BuildBackendAndGraph (members_before_build lib operator_def) operator_def
               (BuildPropertyList [])
               (GetSingleArgument (arg_s operator_def) "onnx_model" "") weight_descs s
         end).
Proof.
  intros initializers input_mapping initializer_set. split.
  - intros Hodd. unfold OnnxifiOp_new. fold initializers.
    destruct initOnnxifiLibrary as [lib|]; [|by eexists].
    rewrite bind_enforce. destruct (negb _); [|by eexists].
    rewrite bind_enforce_eq. case_bool_decide; [|by eexists].
    rewrite bind_enforce_eq. case_bool_decide; [|by eexists].
    destruct (output_loop _ _ _ _ _ _) as [output_desc output_shape_hints].
    rewrite bind_enforce_eq, bool_decide_eq_false_2 by done. by eexists.
  - intros Heven. destruct (even_length_half _ Heven) as [n Hn].
    assert (Hloop : initializers_loop initializers ∅ ∅
                    = Some (input_mapping, initializer_set)).
    { rewrite (initializers_loop_pairs n) by done. by rewrite !(left_id_L ∅ (∪)). }
    split; [by apply (pairs_of_flatten n)|]. split; [done|].
    intros lib -> Hmodel Hin Hout. unfold OnnxifiOp_new. fold initializers.
    rewrite bind_enforce, bool_decide_eq_false_2 by done. cbn [negb].
    rewrite bind_enforce_eq, bool_decide_eq_true_2 by done.
    rewrite bind_enforce_eq, bool_decide_eq_true_2 by done.
    unfold members_before_build, output_shape_hints_of.
    destruct (output_loop _ _ _ _ _ _) as [output_desc output_shape_hints].
    rewrite bind_enforce_eq, bool_decide_eq_true_2 by done.
    rewrite Hloop. by destruct (buildInitializationList _ _ _).
Qed.

Lemma initializers_in_pairs_witness :
  (∃ msg, @OnnxifiOp_new (onnxifi_v1 true) nat unit no_weights
            (Some (test_library three_backends))
            (xyz_def "m" "0" 0 [] ["w"; "w_ws"; "odd"]) () fresh_process
          = (EnforceNotMet msg, fresh_process)) ∧
  initializers_loop ["w"; "w_ws"; "b"; "b_ws"]%string ∅ ∅ =
    Some (list_to_map (pairs_of ["w"; "w_ws"; "b"; "b_ws"]%string),
          list_to_set (pairs_of ["w"; "w_ws"; "b"; "b_ws"]%string).*1) ∧
  (∃ op s', @OnnxifiOp_new (onnxifi_v1 true) nat unit weights_of_w
              (Some (test_library three_backends))
              (xyz_def "m" "0" 0 [] ["w"; "w_ws"]) () fresh_process = (Ok op, s')) ∧
  (∃ msg, @OnnxifiOp_new (onnxifi_v1 true) nat unit weights_of_w
            (Some (test_library three_backends))
            (xyz_def "m" "0" 0 [] ["w"; "w_ws"; "b"; "b_ws"]) () fresh_process
          = (EnforceNotMet msg, fresh_process)).
Proof.
  split; [|split; [|split]].
  - apply (proj1 (@initializers_in_pairs (onnxifi_v1 true) nat unit no_weights
                    (Some (test_library three_backends))
                    (xyz_def "m" "0" 0 [] ["w"; "w_ws"; "odd"]) () fresh_process)).
    vm_compute. discriminate.
  - apply (proj1 (proj2 (proj2 (@initializers_in_pairs (onnxifi_v1 true) nat unit no_weights
                    (Some (test_library three_backends))
                    (xyz_def "m" "0" 0 [] ["w"; "w_ws"; "b"; "b_ws"]) () fresh_process)
                    eq_refl))).
  - eexists _, _.
    refine (eq_trans
              (proj2 (proj2 (proj2 (@initializers_in_pairs (onnxifi_v1 true) nat unit
                 weights_of_w (Some (test_library three_backends))
                 (xyz_def "m" "0" 0 [] ["w"; "w_ws"]) () fresh_process) eq_refl))
                 (test_library three_backends) eq_refl _ eq_refl eq_refl) _).
    + vm_compute. discriminate.
    + vm_compute. reflexivity.
  - eexists.
    refine (eq_trans
              (proj2 (proj2 (proj2 (@initializers_in_pairs (onnxifi_v1 true) nat unit
                 weights_of_w (Some (test_library three_backends))
                 (xyz_def "m" "0" 0 [] ["w"; "w_ws"; "b"; "b_ws"]) () fresh_process)
                 eq_refl))
                 (test_library three_backends) eq_refl _ eq_refl eq_refl) _).
    + vm_compute. discriminate.
    + vm_compute. reflexivity.
Defined.

(** ** Shape hints and the constructor *)



(** ** Descriptor names *)

Lemma bind_Ok {W A B} (m : M W A) (k : A → M W B) (s s' : State W) (b : B) :
  (m ≫= k) s = (Ok b, s') → ∃ a s1, m s = (Ok a, s1) ∧ k a s1 = (Ok b, s').
Proof.
  unfold mbind, M_bind. destruct (m s) as [[a|msg| |what] s1]; intros Hk; try done.
  by exists a, s1.
Qed.

Lemma input_loop_descs names pos descs :
  input_loop names pos descs =
    descs ++ ((λ i, set_name onnxTensorDescriptorV1_zero (c_str_of input_names_vec i))
                <$> seq pos (length names)).
Proof.
  revert pos descs. induction names as [|nm names IH]; intros pos descs; simpl.
  - by rewrite app_nil_r.
  - rewrite IH, <- app_assoc. reflexivity.
Qed.

Lemma output_loop_descs ints names pos output_idx descs hints :
  (output_loop ints names pos output_idx descs hints).1 =
    descs ++ ((λ i, set_name onnxTensorDescriptorV1_zero (c_str_of output_names_vec i))
                <$> seq pos (length names)).
Proof.
  revert pos output_idx descs hints.
  induction names as [|nm names IH]; intros pos output_idx descs hints; simpl.
  - by rewrite app_nil_r.
  - rewrite IH, <- app_assoc. reflexivity.
Qed.

Lemma lookups_in_order {A} (l : list A) : (λ i, l !! i) <$> seq 0 (length l) = Some <$> l.
Proof.
  apply list_eq. intros i. rewrite !list_lookup_fmap.
  destruct (decide (i < length l)%nat) as [Hlt|Hge].
  - rewrite lookup_seq_lt by done. simpl.
    destruct (lookup_lt_is_Some_2 l i Hlt) as [x Hx]. by rewrite Hx.
  - rewrite lookup_seq_ge by lia. rewrite lookup_ge_None_2 by lia. done.
Qed.

(** What [BuildBackendAndGraph] leaves as it found it. *)
Lemma BuildBackendAndGraph_members `{!onnxifi_h} {W} (this op : OnnxifiOp W)
    (d : OperatorDef) props model weights (s s' : State W) :
  BuildBackendAndGraph this d props model weights s = (Ok op, s') →
  input_desc_ op = input_desc_ this ∧ output_desc_ op = output_desc_ this ∧
  input_names_ op = input_names_ this ∧ output_names_ op = output_names_ this ∧
  output_shape_hints_ op = output_shape_hints_ this ∧
  op_id_string_ op = op_id_string_of d.
Proof.
  unfold BuildBackendAndGraph. intros Hrun.
  apply bind_Ok in Hrun as (p & s1 & _ & Hrun).
  apply bind_Ok in Hrun as (info & s2 & _ & Hrun).
  destruct ONNXIFI_ENABLE_EXT.
  - apply bind_Ok in Hrun as ([st fp] & s3 & _ & Hrun).
    case_bool_decide; injection Hrun as <- _; done.
  - injection Hrun as <- _. done.
Qed.

(** What the constructor gives an operator it returns. *)
Lemma OnnxifiOp_new_members `{!onnxifi_h} {W Workspace : Type}
    (buildInitializationList :
       Workspace → gmap string string → gset string → option (list onnxTensorDescriptorV1))
    (initOnnxifiLibrary : option (onnxifi_library W))
    (d : OperatorDef) (ws : Workspace) (s s' : State W) (op : OnnxifiOp W) :
  OnnxifiOp_new buildInitializationList initOnnxifiLibrary d ws s = (Ok op, s') →
  let input_names := GetRepeatedArgument (arg_strings d) "input_names" in
  let output_names := GetRepeatedArgument (arg_strings d) "output_names" in
  Z.of_nat (length input_names) = input_size d ∧
  Z.of_nat (length output_names) = output_size d ∧
  input_names_ op = input_names ∧ output_names_ op = output_names ∧
  input_desc_ op = input_loop input_names 0%nat [] ∧
  output_desc_ op = (output_loop (arg_ints d) output_names 0%nat 0 [] ∅).1 ∧
  output_shape_hints_ op = output_shape_hints_of d output_names ∧
  op_id_string_ op = op_id_string_of d.
Proof.
  intros Hrun input_names output_names.
  unfold OnnxifiOp_new in Hrun. unfold output_shape_hints_of.
  fold input_names output_names in Hrun.
  destruct initOnnxifiLibrary as [lib|]; [|done].
  rewrite bind_enforce in Hrun. destruct (negb _); [|done].
  rewrite bind_enforce_eq in Hrun. case_bool_decide as Hin; [|done].
  rewrite bind_enforce_eq in Hrun. case_bool_decide as Hout; [|done].
  destruct (output_loop _ _ _ _ _ _) as [output_desc output_shape_hints].
  rewrite bind_enforce_eq in Hrun. case_bool_decide; [|done].
  destruct (initializers_loop _ _ _) as [[input_mapping initializer_set]|]; [|done].
  destruct (buildInitializationList _ _ _) as [weight_descs|]; [|done].
  apply BuildBackendAndGraph_members in Hrun as (? & ? & ? & ? & ? & ?). done.
Qed.



Lemma RunOnDevice_refresh_names `{!onnxifi_h} {W} (op : OnnxifiOp W) Input Output :
  let op' := RunOnDevice_refresh op Input Output in
  input_names_ op' = input_names_ op ∧ output_names_ op' = output_names_ op ∧
  name <$> input_desc_ op' = name <$> input_desc_ op ∧
  name <$> output_desc_ op' = name <$> output_desc_ op.
Proof.
  repeat split; cbn [RunOnDevice_refresh input_desc_ output_desc_].
  - apply list_eq. intros i. rewrite !list_lookup_fmap, list_lookup_imap.
    by destruct (input_desc_ op !! i).
  - apply list_eq. intros i. rewrite !list_lookup_fmap, list_lookup_imap.
    destruct (output_desc_ op !! i); [|done]. simpl.
    by destruct (SetOutputShapeAndType _ _ _).
Qed.

Lemma after_calls_names `{!onnxifi_h} {W} (op : OnnxifiOp W) calls :
  input_names_ (after_calls op calls) = input_names_ op ∧
  output_names_ (after_calls op calls) = output_names_ op ∧
  name <$> input_desc_ (after_calls op calls) = name <$> input_desc_ op ∧
  name <$> output_desc_ (after_calls op calls) = name <$> output_desc_ op.
Proof.
  revert op. induction calls as [|call calls IH]; intros op; [done|].
  change (after_calls op (call :: calls))
    with (after_calls (RunOnDevice_refresh op call.1 call.2) calls).
  destruct (IH (RunOnDevice_refresh op call.1 call.2)) as (-> & -> & -> & ->).
  apply RunOnDevice_refresh_names.
Qed.

Lemma name_of_names {W} (op op' : OnnxifiOp W) (descs descs' : list onnxTensorDescriptorV1) :
  input_names_ op' = input_names_ op → output_names_ op' = output_names_ op →
  name <$> descs' = name <$> descs →
  name_of op' <$> descs' = name_of op <$> descs.
Proof.
  intros Hin Hout Hnames.
  change (name_of op') with (c_str_deref op' ∘ name).
  change (name_of op) with (c_str_deref op ∘ name).
  rewrite !list_fmap_compose, Hnames. apply list_fmap_ext. intros _ p _.
  unfold c_str_deref. by rewrite Hin, Hout.
Qed.

(** C7: the constructor throws, leaving the process as it was, unless the
    input names are as many as the operator's inputs and the output names as
    many as its outputs; the operator it returns has one input descriptor per
    input name and one output descriptor per output name, each pointing to
    its name, in the order declared; and after any series of calls the
    descriptor lists have the same sizes and point to the same names. *)
Theorem descriptor_names_fixed `{!onnxifi_h} {W Workspace : Type}
    (buildInitializationList :
       Workspace → gmap string string → gset string → option (list onnxTensorDescriptorV1))
    (initOnnxifiLibrary : option (onnxifi_library W))
    (d : OperatorDef) (ws : Workspace) (s : State W) :
  let input_names := GetRepeatedArgument (arg_strings d) "input_names" in
  let output_names := GetRepeatedArgument (arg_strings d) "output_names" in
  (Z.of_nat (length input_names) ≠ input_size d ∨
   Z.of_nat (length output_names) ≠ output_size d →
   ∃ msg, OnnxifiOp_new buildInitializationList initOnnxifiLibrary d ws s
          = (EnforceNotMet msg, s)) ∧
  (∀ op s',
     OnnxifiOp_new buildInitializationList initOnnxifiLibrary d ws s = (Ok op, s') →
     ∀ calls, let op' := after_calls op calls in
       name_of op' <$> input_desc_ op' = Some <$> input_names ∧
       name_of op' <$> output_desc_ op' = Some <$> output_names ∧
       length (input_desc_ op') = length (input d) ∧
       length (output_desc_ op') = length (output d)).
Proof.
  intros input_names output_names. split.
  - intros Hne. unfold OnnxifiOp_new. fold input_names output_names.
    destruct initOnnxifiLibrary as [lib|]; [|by eexists].
    rewrite bind_enforce. destruct (negb _); [|by eexists].
    rewrite bind_enforce_eq. case_bool_decide as Hin; [|by eexists].
    rewrite bind_enforce_eq. case_bool_decide as Hout; [|by eexists].
    tauto.
  - intros op s' Hnew calls op'.
    apply OnnxifiOp_new_members in Hnew
      as (Hin & Hout & Hnin & Hnout & Hdin & Hdout & _ & _).
    fold input_names output_names in Hin, Hout, Hnin, Hnout, Hdin, Hdout.
    destruct (after_calls_names op calls) as (Hcin & Hcout & Hcdin & Hcdout).
    fold op' in Hcin, Hcout, Hcdin, Hcdout.
    assert (Hi : name_of op' <$> input_desc_ op' = Some <$> input_names).
    { rewrite (name_of_names op op' (input_desc_ op) (input_desc_ op')) by done.
      rewrite Hdin, input_loop_descs, app_nil_l, <- list_fmap_compose.
      rewrite <- lookups_in_order. apply list_fmap_ext. intros _ i _.
      unfold name_of. simpl. by rewrite Hnin. }
    assert (Ho : name_of op' <$> output_desc_ op' = Some <$> output_names).
    { rewrite (name_of_names op op' (output_desc_ op) (output_desc_ op')) by done.
      rewrite Hdout, output_loop_descs, app_nil_l, <- list_fmap_compose.
      rewrite <- lookups_in_order. apply list_fmap_ext. intros _ i _.
      unfold name_of. simpl. by rewrite Hnout. }
    repeat split; [done|done| |].
    + apply (f_equal length) in Hi. rewrite !length_fmap in Hi.
      unfold input_size in Hin. lia.
    + apply (f_equal length) in Ho. rewrite !length_fmap in Ho.
      unfold output_size in Hout. lia.
Qed.

Lemma descriptor_names_fixed_witness :
  let d := xyz_def "m" "0" 1 [] [] in
  let call : (nat → Tensor) * (nat → Tensor) :=
    (λ _, {| sizes := [2; 3]; raw_data := 4096 |}, λ _, {| sizes := []; raw_data := 8192 |}) in
  ∃ op s',
    @OnnxifiOp_new (onnxifi_v1 true) nat unit no_weights
      (Some (test_library three_backends)) d () fresh_process = (Ok op, s') ∧
    let op' := @after_calls (onnxifi_v1 true) nat op [call] in
    name_of op' <$> input_desc_ op' =
      Some <$> GetRepeatedArgument (arg_strings d) "input_names" ∧
    name_of op' <$> output_desc_ op' =
      Some <$> GetRepeatedArgument (arg_strings d) "output_names" ∧
    length (input_desc_ op') = length (input d) ∧
    length (output_desc_ op') = length (output d).
Proof.
  intros d call. eexists _, _. split.
  - vm_compute. reflexivity.
  - refine (proj2 (@descriptor_names_fixed (onnxifi_v1 true) nat unit no_weights
                     (Some (test_library three_backends)) d () fresh_process)
              _ _ _ [call]).
    vm_compute. reflexivity.
Defined.

(** ** The creator *)

Lemma bind_abi {W R B} (f : W → R * W) (ev : R → event) (k : R → M W B) (s : State W) :
  (abi f ev ≫= k) s = k (f (world s)).1 (with_call (f (world s)).2 (ev (f (world s)).1) s).
Proof. unfold mbind, M_bind, abi. by destruct (f (world s)). Qed.

Lemma bind_enforce_gt {W B} (x y : Z) (msg : string) (k : unit → M W B) (s : State W) :
  (CAFFE_ENFORCE_GT x y msg ≫= k) s =
    if bool_decide (x > y) then k () s else (EnforceNotMet msg, s).
Proof. apply bind_enforce. Qed.

Lemma bind_enforce_lt {W B} (x y : Z) (msg : string) (k : unit → M W B) (s : State W) :
  (CAFFE_ENFORCE_LT x y msg ≫= k) s =
    if bool_decide (x < y) then k () s else (EnforceNotMet msg, s).
Proof. apply bind_enforce. Qed.

Lemma bind_mret {W A B} (a : A) (k : A → M W B) (s : State W) : (mret a ≫= k) s = k a s.
Proof. reflexivity. Qed.

Lemma bind_undefined {W A B} (k : A → M W B) (s : State W) :
  (undefined ≫= k) s = (Undefined, s).
Proof. reflexivity. Qed.

Lemma bind_assoc_at {W A B C} (m : M W A) (k : A → M W B) (h : B → M W C) (s : State W) :
  ((m ≫= k) ≫= h) s = (m ≫= (λ a, k a ≫= h)) s.
Proof. unfold mbind, M_bind. by destruct (m s) as [[a|msg| |what] s1]. Qed.

Lemma to_uint64_small (v : Z) : 0 ≤ v < 2 ^ 64 → to_uint64 v = v.
Proof. intros. unfold to_uint64. by apply Z.mod_small. Qed.

Lemma length_stored written buf : length (stored written buf) = length buf.
Proof. unfold stored. rewrite length_app, length_take, length_drop. lia. Qed.

(** The loop that releases the unused backend ids never throws, whatever the
    library answers; when it ends it has released, in the order of the
    rounds, the id at every round's position but [backend_index], and it has
    read inside the vector. *)
Lemma release_unused_run {W} (lib : onnxifi_library W) (backend_ids : list onnxBackendID)
    (backend_index : Z) (rounds : list Z) : ∀ s : State W,
  Forall (λ i, 0 ≤ i < 2 ^ 64) rounds →
  match release_unused lib backend_ids backend_index rounds s with
  | (Ok _, s') =>
      let others :=
        omap (λ i, if bool_decide (i = backend_index) then None
                   else backend_ids !! Z.to_nat i) rounds in
      (∃ sts, length sts = length others ∧
              trace s' = trace s ++ zip_with EvReleaseBackendID others sts) ∧
      Forall (λ i, i ≠ backend_index → is_Some (backend_ids !! Z.to_nat i)) rounds ∧
      heap s' = heap s ∧ next_object s' = next_object s ∧
      backend_graph_map s' = backend_graph_map s
  | (EnforceNotMet _, _) => False
  | (Undefined, _) => True
  | (StdException _, _) => False
  end.
Proof.
  induction rounds as [|i rounds IH]; intros s Hrange.
  - simpl. repeat split; [|done]. exists []. by rewrite app_nil_r.
  - apply Forall_cons in Hrange as [Hi Hrange]. cbn [release_unused omap list_omap].
    case_bool_decide as Hidx.
    + rewrite bind_mret. specialize (IH s Hrange).
      destruct (release_unused _ _ _ rounds s) as [[[]|msg| |what] s']; [|done..].
      destruct IH as (Hsts & Hin & Hrest). repeat split; try done; try apply Hrest.
      apply Forall_cons. split; [done|done].
    + rewrite bind_assoc_at. unfold vector_at. rewrite to_uint64_small by done.
      destruct (backend_ids !! Z.to_nat i) as [id|] eqn:Hid; [|done].
      rewrite bind_mret, bind_assoc_at, bind_abi, bind_mret.
      set (st := (onnxReleaseBackendID lib id (world s)).1).
      set (s1 := with_call _ _ s). specialize (IH s1 Hrange).
      destruct (release_unused _ _ _ rounds s1) as [[[]|msg| |what] s']; [|done..].
      destruct IH as ((sts & Hlen & Htrace) & Hin & Hheap & Hnext & Hmap).
      repeat split; try done.
      * exists (st :: sts). split; [simpl; by rewrite Hlen|].
        rewrite Htrace. unfold s1. cbn [with_call trace zip_with].
        by rewrite <- app_assoc.
      * apply Forall_cons. split; [|done]. intros _. by rewrite Hid.
Qed.

(** The resize of the empty vector of ids: so many null handles, or the
    exception of the platform's vector. *)
Lemma bind_resize_nil `{!onnxifi_h} {W B} (n : Z) (k : list onnxBackendID → M W B)
    (s : State W) :
  (resize [] n ≫= k) s =
    match vector_resize_throws n with
    | Some what => (StdException what, s)
    | None => k (replicate (Z.to_nat n) nullptr) s
    end.
Proof.
  unfold resize. destruct (vector_resize_throws n); [done|].
  rewrite bind_mret, take_nil, app_nil_l. simpl. by rewrite Nat.sub_0_r.
Qed.

Lemma seqZ_range (n : Z) : n ≤ 2 ^ 64 → Forall (λ i, 0 ≤ i < 2 ^ 64) (seqZ 0 n).
Proof.
  intros Hn. apply Forall_forall. intros i Hi.
  apply elem_of_seqZ in Hi. lia.
Qed.

(** Every run of the creator is one of the runs of [creator_run]; the map is
    not touched, and the heap gets the new object when the creator returns
    and is not touched when it throws. *)
Lemma creator_runs `{!onnxifi_h} {W} (lib : onnxifi_library W) (property_pointers : list Z)
    (backend_index : Z) (onnx_model_str : string)
    (weight_descs : list onnxTensorDescriptorV1) (s : State W) :
  ∃ evs r s',
    creator lib property_pointers backend_index onnx_model_str weight_descs s = (r, s') ∧
    (r ≠ Undefined →
       trace s' = trace s ++ evs ∧ backend_graph_map s' = backend_graph_map s) ∧
    match r with
    | Ok p =>
        ∃ id be g,
          creator_run property_pointers backend_index onnx_model_str weight_descs evs
            (Ok (id, be, g)) ∧
          p = next_object s ∧ next_object s' = S p ∧
          heap s' =
            <[p := {| backend_id := id; backend := be; graph := g; lib := lib |}]> (heap s)
    | EnforceNotMet msg =>
        creator_run property_pointers backend_index onnx_model_str weight_descs evs
          (EnforceNotMet msg) ∧
        heap s' = heap s ∧ next_object s' = next_object s
    | Undefined => True
    | StdException what =>
        creator_run property_pointers backend_index onnx_model_str weight_descs evs
          (StdException what) ∧
        heap s' = heap s ∧ next_object s' = next_object s
    end.
Proof.
  unfold creator. rewrite bind_abi.
  destruct (onnxGetBackendIDs lib None 0 (world s)) as [[[st1 wr] n] w1].
  cbn [fst snd]. set (s1 := with_call w1 _ s).
  rewrite bind_enforce_eq. case_bool_decide as Hst1; cycle 1.
  { eexists [_], _, _. split; [done|]. split; [done|]. split; [|done].
    apply run_count_refused. by left. }
  rewrite bind_enforce_gt. case_bool_decide as Hgt; cycle 1.
  { eexists [_], _, _. split; [done|]. split; [done|]. split; [|done].
    apply run_count_refused. right. by left. }
  rewrite bind_enforce_lt. case_bool_decide as Hlt; cycle 1.
  { eexists [_], _, _. split; [done|]. split; [done|]. split; [|done].
    apply run_count_refused. right. by right. }
  rewrite bind_resize_nil. destruct (vector_resize_throws n) as [what|] eqn:Hresize.
  { eexists [_], _, _. split; [done|]. split; [done|]. split; [|done].
    rewrite Hst1. by apply run_resize_threw. }
  rewrite bind_abi, length_replicate.
  destruct (onnxGetBackendIDs lib (Some (Z.to_nat n)) n (world s1)) as [[[st2 written] n'] w2].
  cbn [fst snd]. set (s2 := with_call w2 _ s1).
  set (backend_ids := stored written (replicate (Z.to_nat n) nullptr)).
  assert (Hlen : length backend_ids = Z.to_nat n).
  { unfold backend_ids. by rewrite length_stored, length_replicate. }
  rewrite bind_enforce_eq. case_bool_decide as Hst2; cycle 1.
  { eexists [_; _], _, _. split; [done|]. split.
    { intros _. unfold s2, s1. cbn. by rewrite <- app_assoc. }
    split; [|done]. rewrite Hst1. by apply run_fill_refused. }
  unfold vector_at at 1.
  assert (Hidx_pos : 0 ≤ to_uint64 backend_index).
  { unfold to_uint64. apply Z.mod_pos_bound. lia. }
  destruct (backend_ids !! Z.to_nat (to_uint64 backend_index)) as [id|] eqn:Hid; cycle 1.
  { apply lookup_ge_None_1 in Hid. lia. }
  rewrite bind_mret, bind_abi.
  destruct (onnxInitBackend lib id property_pointers (world s2)) as [[st3 be] w3].
  cbn [fst snd]. set (s3 := with_call w3 _ s2).
  rewrite bind_enforce_eq. case_bool_decide as Hst3; cycle 1.
  { eexists [_; _; _], _, _. split; [done|]. split.
    { intros _. unfold s3, s2, s1. cbn. by rewrite <- !app_assoc. }
    split; [|done]. rewrite Hst1, Hst2. by apply run_init_backend_refused. }
  case_bool_decide as Hmax.
  { rewrite bind_undefined. by eexists [], _, _. }
  pose proof (release_unused_run lib backend_ids backend_index (seqZ 0 n') s3) as Hrel.
  unfold mbind at 1, M_bind at 1.
  destruct (release_unused lib backend_ids backend_index (seqZ 0 n') s3)
    as [[[]|msg| |what] s4]; cycle 1.
  { exfalso. apply Hrel, seqZ_range. unfold INT_MAX in Hmax. lia. }
  { by eexists [], _, _. }
  { exfalso. apply Hrel, seqZ_range. unfold INT_MAX in Hmax. lia. }
  destruct Hrel as ((sts & Hsts & Htrace) & Hin & Hheap & Hnext & Hmap).
  { apply seqZ_range. unfold INT_MAX in Hmax. lia. }
  fold (unused_ids backend_ids backend_index n') in Hsts, Htrace.
  assert (Hn' : n' ≤ n).
  { destruct (decide (n' ≤ n)) as [|Hbig]; [done|exfalso].
    rewrite Forall_forall in Hin.
    destruct (Hin n) as [x Hx].
    - apply elem_of_seqZ. lia.
    - intros ->. rewrite to_uint64_small in Hlt; unfold INT_MAX in Hmax; lia.
    - apply lookup_lt_Some in Hx. lia. }
  rewrite bind_abi.
  destruct (onnxInitGraph lib be onnx_model_str weight_descs (world s4)) as [[st5 g] w5].
  cbn [fst snd]. set (s5 := with_call w5 _ s4).
  rewrite bind_enforce_eq. case_bool_decide as Hst5; cycle 1.
  { eexists _, _, _. split; [done|]. split.
    { intros _. unfold s5. cbn [with_call trace backend_graph_map].
      rewrite Htrace, Hmap. unfold s3, s2, s1. cbn [with_call trace backend_graph_map].
      split; [|done]. rewrite <- !app_assoc. reflexivity. }
    split; [|unfold s5; cbn [with_call heap next_object]; by rewrite Hheap, Hnext].
    rewrite Hst1, Hst2, Hst3. by apply run_init_graph_refused. }
  unfold make_shared. eexists _, _, _. split; [done|]. split.
  { intros _. cbn [with_call trace backend_graph_map]. unfold s5.
    cbn [with_call trace backend_graph_map].
    rewrite Htrace, Hmap. unfold s3, s2, s1. cbn [with_call trace backend_graph_map].
    split; [|done]. rewrite <- !app_assoc. reflexivity. }
  exists id, be, g. cbn [next_object heap with_call]. unfold s5.
  cbn [next_object heap with_call]. rewrite Hnext, Hheap.
  split; [|done]. rewrite Hst1, Hst2, Hst3, Hst5. by apply run_returned.
Qed.

(** When the count the library reports is not above zero, or not above the
    backend index, the creator throws right after the count query. *)
Lemma creator_count_refused `{!onnxifi_h} {W} (lib : onnxifi_library W)
    (property_pointers : list Z) (backend_index : Z) (onnx_model_str : string)
    (weight_descs : list onnxTensorDescriptorV1) (s : State W) st wr n w1 :
  onnxGetBackendIDs lib None 0 (world s) = (st, wr, n, w1) →
  ¬ (n > 0 ∧ to_uint64 backend_index < n) →
  ∃ msg, creator lib property_pointers backend_index onnx_model_str weight_descs s =
           (EnforceNotMet msg, with_call w1 (EvGetBackendIDs None 0 st wr n) s).
Proof.
  intros Hcount Hbad. unfold creator. rewrite bind_abi, Hcount. cbn [fst snd].
  rewrite bind_enforce_eq. case_bool_decide; [|by eexists].
  rewrite bind_enforce_gt. case_bool_decide; [|by eexists].
  rewrite bind_enforce_lt. case_bool_decide; [|by eexists].
  tauto.
Qed.

Lemma backend_graph_map_insert_failed {W} (key : string)
    (creator : M W SharedPtrBackendGraphInfo) (s s' : State W) (msg : string) :
  backend_graph_map s !! key = None →
  creator s = (EnforceNotMet msg, s') →
  backend_graph_map_insert key creator s = (EnforceNotMet msg, s').
Proof. intros Hkey Hrun. unfold backend_graph_map_insert. by rewrite Hkey, Hrun. Qed.

(** C5, as amended: take a key with no entry in the backend/graph map, so
    that the creator runs, and a library that reports [n] backends. When [n]
    is zero, or the backend index asked for is [n] or more, the constructor
    throws; the only call that can have been made by then is the count query,
    so [onnxInitBackend] was not called. *)
Theorem backend_index_out_of_range `{!onnxifi_h} {W Workspace : Type}
    (buildInitializationList :
       Workspace → gmap string string → gset string → option (list onnxTensorDescriptorV1))
    (lib : onnxifi_library W) (d : OperatorDef) (ws : Workspace) (s : State W)
    (st : onnxStatus) (wr : list onnxBackendID) (n : Z) (w1 : W) :
  backend_graph_map s !! op_id_string_of d = None →
  onnxGetBackendIDs lib None 0 (world s) = (st, wr, n, w1) →
  is_int (GetSingleArgument (arg_i d) "backend_id" 0) →
  n = 0 ∨ n ≤ GetSingleArgument (arg_i d) "backend_id" 0 →
  ∃ msg s',
    OnnxifiOp_new buildInitializationList (Some lib) d ws s = (EnforceNotMet msg, s') ∧
    (s' = s ∨ s' = with_call w1 (EvGetBackendIDs None 0 st wr n) s).
Proof.
  intros Hkey Hcount [Hlo Hhi] Hbad. unfold OnnxifiOp_new.
  rewrite bind_enforce. destruct (negb _); [|by eauto].
  rewrite bind_enforce_eq. case_bool_decide as Hin; [|by eauto].
  rewrite bind_enforce_eq. case_bool_decide as Hout; [|by eauto].
  destruct (output_loop _ _ _ _ _ _) as [output_desc output_shape_hints].
  rewrite bind_enforce_eq. case_bool_decide as Heven; [|by eauto].
  destruct (even_length_half _ Heven) as [k Hk].
  rewrite (initializers_loop_pairs k) by done.
  destruct (buildInitializationList _ _ _) as [weight_descs|]; [|by eauto].
  unfold BuildBackendAndGraph. cbn [lib_].
  set (backend_index := GetSingleArgument (arg_i d) "backend_id" 0) in *.
  destruct (creator_count_refused lib (BuildPropertyList []) backend_index
              (GetSingleArgument (arg_s d) "onnx_model" "") weight_descs s st wr n w1 Hcount)
    as [msg Hrun].
  { intros [Hn Hidx]. unfold INT_MAX in Hhi.
    destruct Hbad as [->|Hbad]; [lia|].
    rewrite to_uint64_small in Hidx; lia. }
  unfold mbind at 1, M_bind at 1.
  rewrite (backend_graph_map_insert_failed _ _ _ _ _ Hkey Hrun). eauto.
Qed.

Lemma backend_index_out_of_range_witness :
  let d := xyz_def "m" "0" 3 [] [] in
  ∃ msg s',
    @OnnxifiOp_new (onnxifi_v1 true) nat unit no_weights
      (Some (test_library three_backends)) d () fresh_process = (EnforceNotMet msg, s') ∧
    (s' = fresh_process ∨
     s' = with_call 0%nat (EvGetBackendIDs None 0 1 [] 3) fresh_process).
Proof.
  refine (@backend_index_out_of_range (onnxifi_v1 true) nat unit no_weights
            (test_library three_backends) (xyz_def "m" "0" 3 [] []) () fresh_process
            1 [] 3 0%nat _ _ _ _).
  - vm_compute. reflexivity.
  - vm_compute. reflexivity.
  - vm_compute. split; discriminate.
  - right. vm_compute. discriminate.
Defined.

(** C5, as stated, fails: with a library of three backends, an operator that
    asks for the backend index 5 under the key of an operator that is alive
    is constructed. The map hands it the object of that key; the creator is
    not run, so no backend is enumerated, the index is not looked at, and no
    call is made; the operator holds the handles of the backend at index 1,
    which the first operator asked for. *)
Lemma held_key_skips_backend_index_check :
  let lib := test_library three_backends in
  let first := @OnnxifiOp_new (onnxifi_v1 false) nat unit no_weights (Some lib)
                 (xyz_def "m" "0" 1 [] []) () fresh_process in
  let d := xyz_def "m" "0" 5 [] [] in
  let second := @OnnxifiOp_new (onnxifi_v1 false) nat unit no_weights (Some lib)
                  d () first.2 in
  (∃ op1, first.1 = Ok op1 ∧ op_id_string_ op1 = op_id_string_of d) ∧
  (onnxGetBackendIDs lib None 0 (world first.2)).1 = (1, [], 3) ∧
  GetSingleArgument (arg_i d) "backend_id" 0 = 5 ∧
  (∃ op2, second.1 = Ok op2 ∧
     (backend_id_ op2, backend_ op2, graph_ op2) = (12, 1000, 2001)) ∧
  trace second.2 = trace first.2.
Proof.
  vm_compute. split; [by eexists|]. split; [done|]. split; [done|].
  split; [by eexists|done].
Qed.

(** C3, as amended: the creator makes the count query with a null buffer,
    then checks that the count is above zero and above the backend index (a
    count that fails the check ends the creator right after the count query),
    then makes the fill query with a buffer of that many handles, then
    initializes the backend from the id at the backend index with the
    property list, then releases the id at every other position below the
    count the fill query reported, in the order of the positions, then
    initializes the graph from the backend, the model and the weights, and
    returns a new object that holds the id, the backend, the graph and the
    library. *)
Theorem creator_steps_in_order `{!onnxifi_h} {W} (lib : onnxifi_library W)
    (property_pointers : list Z) (backend_index : Z) (onnx_model_str : string)
    (weight_descs : list onnxTensorDescriptorV1) (s : State W) :
  (∀ p s',
     creator lib property_pointers backend_index onnx_model_str weight_descs s = (Ok p, s') →
     ∃ wr n written n' id be sts g,
       let backend_ids := stored written (replicate (Z.to_nat n) nullptr) in
       trace s' = trace s ++
         [EvGetBackendIDs None 0 ONNXIFI_STATUS_FALLBACK wr n;
          EvGetBackendIDs (Some (Z.to_nat n)) n ONNXIFI_STATUS_SUCCESS written n';
          EvInitBackend id property_pointers ONNXIFI_STATUS_SUCCESS be] ++
         zip_with EvReleaseBackendID (unused_ids backend_ids backend_index n') sts ++
         [EvInitGraph be onnx_model_str weight_descs ONNXIFI_STATUS_SUCCESS g] ∧
       n > 0 ∧ to_uint64 backend_index < n ∧ n' ≤ n ∧
       backend_ids !! Z.to_nat (to_uint64 backend_index) = Some id ∧
       length sts = length (unused_ids backend_ids backend_index n') ∧
       p = next_object s ∧
       heap s' !! p =
         Some {| backend_id := id; backend := be; graph := g; lib := lib |}) ∧
  (∀ st wr n w1,
     onnxGetBackendIDs lib None 0 (world s) = (st, wr, n, w1) →
     ¬ (n > 0 ∧ to_uint64 backend_index < n) →
     ∃ msg,
       creator lib property_pointers backend_index onnx_model_str weight_descs s =
         (EnforceNotMet msg, with_call w1 (EvGetBackendIDs None 0 st wr n) s)).
Proof.
  split.
  - intros p s' Hrun.
    destruct (creator_runs lib property_pointers backend_index onnx_model_str weight_descs s)
      as (evs & r & s1 & Hrun' & Htrace & Hshape).
    rewrite Hrun in Hrun'. injection Hrun' as <- <-.
    destruct Htrace as [Htrace _]; [done|].
    destruct Hshape as (id & be & g & Hshape & -> & _ & Hheap).
    inversion Hshape; subst.
    eexists wr, n, written, n', id, be, sts, g. cbv zeta.
    rewrite Htrace, Hheap, lookup_insert_eq. done.
  - intros st wr n w1. apply creator_count_refused.
Qed.

Lemma creator_steps_in_order_witness :
  let run := @creator (onnxifi_v1 true) nat (test_library three_backends) [0] 1
               "model bytes" [] fresh_process in
  run.1 = Ok 0%nat ∧
  ∃ wr n written n' id be sts g,
    let backend_ids := stored written (replicate (Z.to_nat n) nullptr) in
    trace run.2 = trace fresh_process ++
      [EvGetBackendIDs None 0 1 wr n;
       EvGetBackendIDs (Some (Z.to_nat n)) n 0 written n';
       EvInitBackend id [0] 0 be] ++
      zip_with EvReleaseBackendID (unused_ids backend_ids 1 n') sts ++
      [EvInitGraph be "model bytes" [] 0 g] ∧
    n > 0 ∧ to_uint64 1 < n ∧ n' ≤ n ∧
    backend_ids !! Z.to_nat (to_uint64 1) = Some id ∧
    length sts = length (unused_ids backend_ids 1 n') ∧
    0%nat = next_object fresh_process ∧
    heap run.2 !! 0%nat =
      Some {| backend_id := id; backend := be; graph := g;
              lib := test_library three_backends |}.
Proof.
  split; [vm_compute; reflexivity|].
  refine (proj1 (@creator_steps_in_order (onnxifi_v1 true) nat
                   (test_library three_backends) [0] 1 "model bytes" [] fresh_process)
            0%nat _ _).
  vm_compute. reflexivity.
Defined.

(** C3, as stated, fails: with three backends and the backend index 5 the
    creator throws on the index right after the count query, and the fill
    query is never made; with the steps in the order the claim gives them,
    the fill query would have been made before the index was looked at. *)
Lemma index_checked_before_fill_query :
  let code := @creator (onnxifi_v1 true) nat (test_library three_backends) [0] 5
                "model bytes" [] fresh_process in
  let worded := @creator_as_worded (onnxifi_v1 true) nat (test_library three_backends) [0] 5
                  "model bytes" [] fresh_process in
  code.1 = EnforceNotMet "Backend idx out of bound: 5, #backends: 3" ∧
  trace code.2 = [EvGetBackendIDs None 0 1 [] 3] ∧
  worded.1 = EnforceNotMet "Backend idx out of bound: 5, #backends: 3" ∧
  trace worded.2 =
    [EvGetBackendIDs None 0 1 [] 3; EvGetBackendIDs (Some 3%nat) 3 0 [11; 12; 13] 3].
Proof. vm_compute. repeat split; reflexivity. Qed.

(** ** Status codes in the creator *)


Lemma Forall_releases (P : event → Prop) (ids : list onnxBackendID) (sts : list onnxStatus) :
  (∀ id st, P (EvReleaseBackendID id st)) → Forall P (zip_with EvReleaseBackendID ids sts).
Proof.
  intros HP. revert sts. induction ids as [|id ids IH]; intros [|st sts]; simpl; auto.
Qed.





(** ** The extension probe *)

(** C8, as amended: once the map has handed out the object, a build with
    [ONNXIFI_ENABLE_EXT] probes the library, by the name
    [onnxSetIOAndRunGraphFunction] and with the object's backend id, as its
    next and last call; the operator records the address the probe gave when
    the probe answered with the success code and the null pointer when it did
    not, and [BuildBackendAndGraph] returns the operator either way. A build
    without [ONNXIFI_ENABLE_EXT] makes no probe and assigns no pointer, and
    [BuildBackendAndGraph] returns the operator as well. *)
Theorem extension_probe `{!onnxifi_h} {W} (this : OnnxifiOp W) (d : OperatorDef)
    (property_pointers : list Z) (onnx_model_str : string)
    (weight_descs : list onnxTensorDescriptorV1) (s s1 : State W)
    (p : SharedPtrBackendGraphInfo) (info : BackendGraphInfo W) :
  backend_graph_map_insert (op_id_string_of d)
    (creator (lib_ this) property_pointers (GetSingleArgument (arg_i d) "backend_id" 0)
       onnx_model_str weight_descs) s = (Ok p, s1) →
  heap s1 !! p = Some info →
  ∃ op s',
    BuildBackendAndGraph this d property_pointers onnx_model_str weight_descs s
      = (Ok op, s') ∧
    if ONNXIFI_ENABLE_EXT then
      ∃ st fp w,
        onnxGetExtensionFunctionAddress (lib_ this) (backend_id info)
          "onnxSetIOAndRunGraphFunction" (world s1) = (st, fp, w) ∧
        s' = with_call w
               (EvGetExtensionFunctionAddress (backend_id info)
                  "onnxSetIOAndRunGraphFunction" st fp) s1 ∧
        onnxSetIOAndRunGraphPointer_ op =
          Some (if bool_decide (st = ONNXIFI_STATUS_SUCCESS) then fp else nullptr)
    else
      s' = s1 ∧ onnxSetIOAndRunGraphPointer_ op = onnxSetIOAndRunGraphPointer_ this.
Proof.
  intros Hinsert Hinfo. unfold BuildBackendAndGraph.
  unfold mbind at 1, M_bind at 1. rewrite Hinsert.
  unfold mbind at 1, M_bind at 1, deref. rewrite Hinfo.
  destruct ONNXIFI_ENABLE_EXT.
  - rewrite bind_abi. cbn [set_graph_members lib_ backend_id_].
    destruct (onnxGetExtensionFunctionAddress (lib_ this) (backend_id info)
                "onnxSetIOAndRunGraphFunction" (world s1)) as [[st fp] w] eqn:Hprobe.
    cbn [fst snd]. case_bool_decide as Hst.
    + eexists _, _. split; [done|]. exists st, fp, w.
      rewrite bool_decide_eq_false_2 by done. done.
    + eexists _, _. split; [done|]. exists st, fp, w.
      rewrite bool_decide_eq_true_2; [done|]. by destruct (decide (st = ONNXIFI_STATUS_SUCCESS)).
  - eexists _, _. split; done.
Qed.

Lemma extension_probe_witness :
  let this := unbuilt no_extension in
  let d := xyz_def "m" "0" 1 [] [] in
  let inserted :=
    backend_graph_map_insert (op_id_string_of d)
      (@creator (onnxifi_v1 true) nat (lib_ this) [0]
         (GetSingleArgument (arg_i d) "backend_id" 0) "model bytes" []) fresh_process in
  inserted.1 = Ok 0%nat ∧
  ∃ op s',
    @BuildBackendAndGraph (onnxifi_v1 true) nat this d [0] "model bytes" [] fresh_process
      = (Ok op, s') ∧
    ∃ st fp w,
      onnxGetExtensionFunctionAddress (lib_ this) 12
        "onnxSetIOAndRunGraphFunction" (world inserted.2) = (st, fp, w) ∧
      s' = with_call w
             (EvGetExtensionFunctionAddress 12 "onnxSetIOAndRunGraphFunction" st fp)
             inserted.2 ∧
      onnxSetIOAndRunGraphPointer_ op =
        Some (if bool_decide (st = @ONNXIFI_STATUS_SUCCESS (onnxifi_v1 true))
              then fp else nullptr).
Proof.
  split; [vm_compute; reflexivity|].
  refine (@extension_probe (onnxifi_v1 true) nat (unbuilt no_extension)
            (xyz_def "m" "0" 1 [] []) [0] "model bytes" [] fresh_process _ 0%nat
            {| backend_id := 12; backend := 1000; graph := 2001;
               lib := test_library no_extension |} _ _).
  - apply surjective_pairing.
  - vm_compute. reflexivity.
Defined.

(** C8, as stated, fails: in a build without [ONNXIFI_ENABLE_EXT] the
    constructor returns an operator, the library was never probed for the
    extension, and no pointer was assigned. *)
Lemma no_probe_without_extension_build :
  let run := @OnnxifiOp_new (onnxifi_v1 false) nat unit no_weights
               (Some (test_library three_backends)) (xyz_def "m" "0" 1 [] []) ()
               fresh_process in
  trace run.2 =
    [EvGetBackendIDs None 0 1 [] 3; EvGetBackendIDs (Some 3%nat) 3 0 [11; 12; 13] 3;
     EvInitBackend 12 [0] 0 1000; EvReleaseBackendID 11 0; EvReleaseBackendID 13 0;
     EvInitGraph 1000 "model bytes" [] 0 2001] ∧
  (onnxSetIOAndRunGraphPointer_ <$> (match run.1 with Ok op => Some op | _ => None end))
    = Some None.
Proof. vm_compute. split; reflexivity. Qed.

(** ** Sharing through the backend/graph map *)

(** A constructor that returns got its operator from [BuildBackendAndGraph]. *)
Lemma OnnxifiOp_new_built `{!onnxifi_h} {W Workspace : Type}
    (buildInitializationList :
       Workspace → gmap string string → gset string → option (list onnxTensorDescriptorV1))
    (initOnnxifiLibrary : option (onnxifi_library W))
    (d : OperatorDef) (ws : Workspace) (s s' : State W) (op : OnnxifiOp W) :
  OnnxifiOp_new buildInitializationList initOnnxifiLibrary d ws s = (Ok op, s') →
  ∃ this property_pointers onnx_model_str weight_descs,
    BuildBackendAndGraph this d property_pointers onnx_model_str weight_descs s = (Ok op, s').
Proof.
  unfold OnnxifiOp_new. intros Hrun.
  destruct initOnnxifiLibrary as [lib|]; [|done].
  rewrite bind_enforce in Hrun. destruct (negb _); [|done].
  rewrite bind_enforce_eq in Hrun. case_bool_decide; [|done].
  rewrite bind_enforce_eq in Hrun. case_bool_decide; [|done].
  destruct (output_loop _ _ _ _ _ _) as [output_desc output_shape_hints].
  rewrite bind_enforce_eq in Hrun. case_bool_decide; [|done].
  destruct (initializers_loop _ _ _) as [[input_mapping initializer_set]|]; [|done].
  destruct (buildInitializationList _ _ _) as [weight_descs|]; [|done].
  eauto.
Qed.

(** The part of [BuildBackendAndGraph] after the map: it reads the object
    and makes at most the probe. *)
Lemma BuildBackendAndGraph_after_insert `{!onnxifi_h} {W} (this op : OnnxifiOp W)
    (d : OperatorDef) props model weights (s s' : State W) :
  BuildBackendAndGraph this d props model weights s = (Ok op, s') →
  ∃ p s1 info,
    backend_graph_map_insert (op_id_string_of d)
      (creator (lib_ this) props (GetSingleArgument (arg_i d) "backend_id" 0) model weights) s
      = (Ok p, s1) ∧
    heap s1 !! p = Some info ∧
    backend_graph_shared_ptr_ op = Some p ∧
    (backend_id_ op, backend_ op, graph_ op) = (backend_id info, backend info, graph info) ∧
    heap s' = heap s1 ∧ next_object s' = next_object s1 ∧
    backend_graph_map s' = backend_graph_map s1 ∧
    ∃ evs, trace s' = trace s1 ++ evs ∧ Forall is_probe evs.
Proof.
  unfold BuildBackendAndGraph. intros Hrun.
  apply bind_Ok in Hrun as (p & s1 & Hinsert & Hrun).
  apply bind_Ok in Hrun as (info & s2 & Hderef & Hrun).
  unfold deref in Hderef. destruct (heap s1 !! p) as [info'|] eqn:Hinfo; [|done].
  injection Hderef as -> <-. exists p, s1, info. split; [done|]. split; [done|].
  destruct ONNXIFI_ENABLE_EXT.
  - rewrite bind_abi in Hrun.
    destruct (onnxGetExtensionFunctionAddress _ _ _ _) as [[st fp] w].
    cbn [fst snd] in Hrun.
    assert (Hs' : s' = with_call w
              (EvGetExtensionFunctionAddress (backend_id info)
                 "onnxSetIOAndRunGraphFunction" st fp) s1 ∧
            backend_graph_shared_ptr_ op = Some p ∧
            (backend_id_ op, backend_ op, graph_ op)
              = (backend_id info, backend info, graph info)).
    { case_bool_decide; injection Hrun as <- <-; done. }
    destruct Hs' as (-> & ? & ?). repeat split; try done.
    eexists [_]. split; [done|]. repeat constructor. by eexists _, _, _, _.
  - injection Hrun as <- <-. repeat split; try done.
    exists []. split; [by rewrite app_nil_r|done].
Qed.

(** What the map holds for a key after it handed out an object for it. *)
Lemma backend_graph_map_insert_Ok `{!onnxifi_h} {W} (key : string)
    (c : M W SharedPtrBackendGraphInfo) (s s1 : State W) (p : SharedPtrBackendGraphInfo) :
  backend_graph_map_insert key c s = (Ok p, s1) →
  ∃ refs, backend_graph_map s1 !! key = Some (p, S refs) ∧
    (backend_graph_map s !! key = Some (p, refs) →
     s1 = set_backend_graph_map (<[key := (p, S refs)]> (backend_graph_map s)) s).
Proof.
  unfold backend_graph_map_insert. intros Hrun.
  destruct (backend_graph_map s !! key) as [[p' refs]|] eqn:Hkey.
  - injection Hrun as <- <-. exists refs. split; [|done].
    cbn [set_backend_graph_map backend_graph_map]. by rewrite lookup_insert_eq.
  - destruct (c s) as [[p'|msg| |what] s0]; [|done..]. injection Hrun as <- <-.
    exists 0%nat. split; [|done].
    cbn [set_backend_graph_map backend_graph_map]. by rewrite lookup_insert_eq.
Qed.

Lemma backend_graph_map_insert_cached {W} (key : string)
    (c : M W SharedPtrBackendGraphInfo) (s : State W) (p : SharedPtrBackendGraphInfo)
    (refs : nat) :
  backend_graph_map s !! key = Some (p, refs) →
  backend_graph_map_insert key c s =
    (Ok p, set_backend_graph_map (<[key := (p, S refs)]> (backend_graph_map s)) s).
Proof. intros Hkey. unfold backend_graph_map_insert. by rewrite Hkey. Qed.

(** Giving up one of several references only counts down. *)
Lemma backend_graph_map_remove_shared `{!onnxifi_h} {W} (key : string) (s : State W)
    (p : SharedPtrBackendGraphInfo) (refs : nat) :
  backend_graph_map s !! key = Some (p, S (S refs)) →
  backend_graph_map_remove key s =
    (Ok (), set_backend_graph_map (<[key := (p, S refs)]> (backend_graph_map s)) s).
Proof.
  intros Hkey. unfold backend_graph_map_remove. rewrite Hkey.
  rewrite bool_decide_eq_false_2 by lia. done.
Qed.

(** How [BuildBackendAndGraph] returns: with one more reference to the
    object the key had, and no call but the probe; or, for a key that had no
    entry, with the object the creator made at the next free address. *)
Lemma BuildBackendAndGraph_Ok `{!onnxifi_h} {W} (this op : OnnxifiOp W)
    (d : OperatorDef) props model weights (s s' : State W) :
  BuildBackendAndGraph this d props model weights s = (Ok op, s') →
  ∃ p info,
    op_id_string_ op = op_id_string_of d ∧
    backend_graph_shared_ptr_ op = Some p ∧ heap s' !! p = Some info ∧
    (backend_id_ op, backend_ op, graph_ op) = (backend_id info, backend info, graph info) ∧
    ((∃ refs,
        backend_graph_map s !! op_id_string_of d = Some (p, refs) ∧
        backend_graph_map s' = <[op_id_string_of d := (p, S refs)]> (backend_graph_map s) ∧
        heap s' = heap s ∧ next_object s' = next_object s ∧
        ∃ evs, trace s' = trace s ++ evs ∧ Forall is_probe evs) ∨
     (backend_graph_map s !! op_id_string_of d = None ∧
      backend_graph_map s' = <[op_id_string_of d := (p, 1%nat)]> (backend_graph_map s) ∧
      p = next_object s ∧ next_object s' = S p ∧ heap s' = <[p := info]> (heap s))).
Proof.
  intros Hbuild.
  pose proof (BuildBackendAndGraph_members _ _ _ _ _ _ _ _ Hbuild) as (_&_&_&_&_& Hid).
  apply BuildBackendAndGraph_after_insert in Hbuild
    as (p & s1 & info & Hins & Hinfo & Hptr & Hhandles & Hheap & Hnext & Hmap & Htrace).
  exists p, info. rewrite Hheap, Hmap, Hnext. do 4 (split; [done|]).
  unfold backend_graph_map_insert in Hins.
  destruct (backend_graph_map s !! op_id_string_of d) as [[p' refs]|] eqn:Hkey.
  - injection Hins as -> <-. left. exists refs. repeat split; done.
  - right.
    destruct (creator_runs (lib_ this) props (GetSingleArgument (arg_i d) "backend_id" 0)
                model weights s) as (evs & r & s0 & Hrun & Hsame & Hshape).
    rewrite Hrun in Hins. destruct r as [p'|msg| |what]; [|done..].
    injection Hins as -> <-.
    destruct Hshape as (id & be & g & _ & -> & Hnext' & Hheap').
    destruct Hsame as [_ Hmap']; [done|].
    cbn [set_backend_graph_map heap next_object backend_graph_map] in *.
    rewrite Hmap'. repeat split; try done.
    rewrite Hheap', lookup_insert_eq in Hinfo. injection Hinfo as <-. done.
Qed.

(** A constructor that throws leaves the map and the heap as they were. *)
Lemma OnnxifiOp_new_throws `{!onnxifi_h} {W Workspace : Type}
    (buildInitializationList :
       Workspace → gmap string string → gset string → option (list onnxTensorDescriptorV1))
    (initOnnxifiLibrary : option (onnxifi_library W))
    (d : OperatorDef) (ws : Workspace) (s s' : State W) (msg : string) :
  OnnxifiOp_new buildInitializationList initOnnxifiLibrary d ws s = (EnforceNotMet msg, s') →
  heap s' = heap s ∧ next_object s' = next_object s ∧
  backend_graph_map s' = backend_graph_map s.
Proof.
  unfold OnnxifiOp_new. intros Hrun.
  destruct initOnnxifiLibrary as [lib|]; [|by injection Hrun as _ <-].
  rewrite bind_enforce in Hrun. destruct (negb _); [|by injection Hrun as _ <-].
  rewrite bind_enforce_eq in Hrun. case_bool_decide; [|by injection Hrun as _ <-].
  rewrite bind_enforce_eq in Hrun. case_bool_decide; [|by injection Hrun as _ <-].
  destruct (output_loop _ _ _ _ _ _) as [output_desc output_shape_hints].
  rewrite bind_enforce_eq in Hrun. case_bool_decide; [|by injection Hrun as _ <-].
  destruct (initializers_loop _ _ _) as [[input_mapping initializer_set]|]; [|done].
  destruct (buildInitializationList _ _ _) as [weight_descs|]; [|by injection Hrun as _ <-].
  unfold BuildBackendAndGraph in Hrun. cbn [lib_] in Hrun.
  unfold mbind at 1, M_bind at 1, backend_graph_map_insert in Hrun.
  destruct (backend_graph_map s !! op_id_string_of d) as [[p refs]|] eqn:Hkey.
  - unfold mbind at 1, M_bind at 1, deref in Hrun.
    cbn [set_backend_graph_map heap] in Hrun.
    destruct (heap s !! p); [|done].
    destruct ONNXIFI_ENABLE_EXT; [|done].
    rewrite bind_abi in Hrun. destruct (onnxGetExtensionFunctionAddress _ _ _ _) as [[st fp] w].
    cbn [fst snd] in Hrun. by case_bool_decide.
  - match type of Hrun with context [creator ?l ?pp ?bi ?m ?wd s] =>
      destruct (creator_runs l pp bi m wd s) as (evs & r & s0 & Hcr & Hsame & Hshape)
    end.
    rewrite Hcr in Hrun. destruct r as [p|msg'| |what]; [| |done|done].
    + unfold mbind at 1, M_bind at 1, deref in Hrun.
      destruct (heap _ !! p); [|done].
      destruct ONNXIFI_ENABLE_EXT; [|done].
      rewrite bind_abi in Hrun.
      destruct (onnxGetExtensionFunctionAddress _ _ _ _) as [[st fp] w].
      cbn [fst snd] in Hrun. by case_bool_decide.
    + injection Hrun as _ <-. destruct Hshape as (_ & ? & ?).
      destruct Hsame as [_ ?]; done.
Qed.

(** So does a constructor that ends with an exception of the standard
    library. *)
Lemma OnnxifiOp_new_throws_std `{!onnxifi_h} {W Workspace : Type}
    (buildInitializationList :
       Workspace → gmap string string → gset string → option (list onnxTensorDescriptorV1))
    (initOnnxifiLibrary : option (onnxifi_library W))
    (d : OperatorDef) (ws : Workspace) (s s' : State W) (what : string) :
  OnnxifiOp_new buildInitializationList initOnnxifiLibrary d ws s = (StdException what, s') →
  heap s' = heap s ∧ next_object s' = next_object s ∧
  backend_graph_map s' = backend_graph_map s.
Proof.
  unfold OnnxifiOp_new. intros Hrun.
  destruct initOnnxifiLibrary as [lib|]; [|done].
  rewrite bind_enforce in Hrun. destruct (negb _); [|done].
  rewrite bind_enforce_eq in Hrun. case_bool_decide; [|done].
  rewrite bind_enforce_eq in Hrun. case_bool_decide; [|done].
  destruct (output_loop _ _ _ _ _ _) as [output_desc output_shape_hints].
  rewrite bind_enforce_eq in Hrun. case_bool_decide; [|done].
  destruct (initializers_loop _ _ _) as [[input_mapping initializer_set]|]; [|done].
  destruct (buildInitializationList _ _ _) as [weight_descs|]; [|done].
  unfold BuildBackendAndGraph in Hrun. cbn [lib_] in Hrun.
  unfold mbind at 1, M_bind at 1, backend_graph_map_insert in Hrun.
  destruct (backend_graph_map s !! op_id_string_of d) as [[p refs]|] eqn:Hkey.
  - unfold mbind at 1, M_bind at 1, deref in Hrun.
    cbn [set_backend_graph_map heap] in Hrun.
    destruct (heap s !! p); [|done].
    destruct ONNXIFI_ENABLE_EXT; [|done].
    rewrite bind_abi in Hrun. destruct (onnxGetExtensionFunctionAddress _ _ _ _) as [[st fp] w].
    cbn [fst snd] in Hrun. by case_bool_decide.
  - match type of Hrun with context [creator ?l ?pp ?bi ?m ?wd s] =>
      destruct (creator_runs l pp bi m wd s) as (evs & r & s0 & Hcr & Hsame & Hshape)
    end.
    rewrite Hcr in Hrun. destruct r as [p|msg| |what']; [|done|done|].
    + unfold mbind at 1, M_bind at 1, deref in Hrun.
      destruct (heap _ !! p); [|done].
      destruct ONNXIFI_ENABLE_EXT; [|done].
      rewrite bind_abi in Hrun.
      destruct (onnxGetExtensionFunctionAddress _ _ _ _) as [[st fp] w].
      cbn [fst snd] in Hrun. by case_bool_decide.
    + injection Hrun as _ <-. destruct Hshape as (_ & ? & ?).
      destruct Hsame as [_ ?]; done.
Qed.

(** A teardown that returns has taken the object off the heap. *)
Lemma teardown_Ok `{!onnxifi_h} {W} (p : SharedPtrBackendGraphInfo) (s s' : State W) :
  teardown p s = (Ok (), s') →
  heap s' = delete p (heap s) ∧ next_object s' = next_object s ∧
  backend_graph_map s' = backend_graph_map s.
Proof.
  unfold teardown. intros Hrun.
  apply bind_Ok in Hrun as (info & s1 & Hderef & Hrun).
  unfold deref in Hderef. destruct (heap s !! p); [|done]. injection Hderef as _ <-.
  rewrite bind_abi, bind_enforce_eq in Hrun. case_bool_decide; [|done].
  rewrite bind_abi, bind_enforce_eq in Hrun. case_bool_decide; [|done].
  rewrite bind_abi, bind_enforce_eq in Hrun. case_bool_decide; [|done].
  unfold free in Hrun. injection Hrun as <-. done.
Qed.

(** A release that returns: it counted down, or it was the last one and the
    object and the entry are gone. *)
Lemma backend_graph_map_remove_Ok `{!onnxifi_h} {W} (key : string) (s s' : State W) :
  backend_graph_map_remove key s = (Ok (), s') →
  ∃ p refs, backend_graph_map s !! key = Some (p, refs) ∧
    ((1 < refs)%nat ∧
     s' = set_backend_graph_map (<[key := (p, pred refs)]> (backend_graph_map s)) s ∨
     (refs ≤ 1)%nat ∧ heap s' = delete p (heap s) ∧ next_object s' = next_object s ∧
     backend_graph_map s' = delete key (backend_graph_map s)).
Proof.
  unfold backend_graph_map_remove. intros Hrun.
  destruct (backend_graph_map s !! key) as [[p refs]|]; [|done].
  exists p, refs. split; [done|]. case_bool_decide as Hrefs.
  - right. apply bind_Ok in Hrun as ([] & s1 & Htear & Hrun).
    apply teardown_Ok in Htear as (Hheap & Hnext & Hmap).
    unfold modify in Hrun. injection Hrun as <-.
    cbn [set_backend_graph_map heap next_object backend_graph_map].
    by rewrite Hheap, Hnext, Hmap.
  - left. injection Hrun as <-. split; [lia|done].
Qed.

Lemma holders_cons {W} (key : string) (op : OnnxifiOp W) (live : list (OnnxifiOp W)) :
  holders key (op :: live) =
    if decide (op_id_string_ op = key) then S (holders key live) else holders key live.
Proof. unfold holders. rewrite filter_cons. by case_decide. Qed.

Lemma holders_app {W} (key : string) (live1 live2 : list (OnnxifiOp W)) :
  holders key (live1 ++ live2) = (holders key live1 + holders key live2)%nat.
Proof. unfold holders. by rewrite filter_app, length_app. Qed.

Lemma holders_none {W} (key : string) (live : list (OnnxifiOp W)) :
  holders key live = 0%nat ↔ ∀ op, op ∈ live → op_id_string_ op ≠ key.
Proof.
  unfold holders. rewrite length_zero_iff_nil. split.
  - intros Hnil op Hop Hkey.
    assert (op ∈ filter (λ op, op_id_string_ op = key) live) as Hin
      by (by apply list_elem_of_filter).
    rewrite Hnil in Hin. by apply elem_of_nil in Hin.
  - intros Hnone. apply elem_of_nil_inv. intros op Hin.
    apply list_elem_of_filter in Hin as [Hkey Hop]. by apply (Hnone op).
Qed.

Lemma holders_without {W} (key : string) (op : OnnxifiOp W) (live1 live2 : list (OnnxifiOp W)) :
  holders key (live1 ++ op :: live2) =
    if decide (op_id_string_ op = key) then S (holders key (live1 ++ live2))
    else holders key (live1 ++ live2).
Proof. rewrite !holders_app, holders_cons. case_decide; lia. Qed.

Lemma shares_same {W} (s s' : State W) (live : list (OnnxifiOp W)) :
  heap s' = heap s → next_object s' = next_object s →
  backend_graph_map s' = backend_graph_map s →
  shares s live → shares s' live.
Proof. unfold shares. by intros -> -> ->. Qed.

(** One more holder of a key that has an entry. *)
Lemma shares_cached {W} (s s' : State W) (live : list (OnnxifiOp W)) (op : OnnxifiOp W)
    (p : SharedPtrBackendGraphInfo) (info : BackendGraphInfo W) (refs : nat) :
  shares s live →
  backend_graph_map s !! op_id_string_ op = Some (p, refs) →
  backend_graph_map s' = <[op_id_string_ op := (p, S refs)]> (backend_graph_map s) →
  heap s' = heap s → next_object s' = next_object s →
  backend_graph_shared_ptr_ op = Some p → heap s' !! p = Some info →
  (backend_id_ op, backend_ op, graph_ op) = (backend_id info, backend info, graph info) →
  shares s' (op :: live).
Proof.
  intros (Hcount & Hinj & Hlive) Hentry Hmap Hheap Hnext Hptr Hinfo Hhandles.
  unfold shares. rewrite Hmap, Hheap, Hnext. rewrite Hheap in Hinfo. split; [|split].
  - intros key p0 refs0 Hlook. rewrite holders_cons.
    destruct (decide (op_id_string_ op = key)) as [<-|Hne].
    + rewrite lookup_insert_eq in Hlook. injection Hlook as <- <-.
      destruct (Hcount _ _ _ Hentry) as (-> & _ & ? & ?). repeat split; [lia|done..].
    + rewrite lookup_insert_ne in Hlook by done. by apply Hcount.
  - intros key1 key2 p0 refs1 refs2 Hlook1 Hlook2.
    destruct (decide (op_id_string_ op = key1)) as [<-|Hne1];
      destruct (decide (op_id_string_ op = key2)) as [<-|Hne2]; [done| | |].
    + rewrite lookup_insert_eq in Hlook1. rewrite lookup_insert_ne in Hlook2 by done.
      injection Hlook1 as <- _. eauto.
    + rewrite lookup_insert_eq in Hlook2. rewrite lookup_insert_ne in Hlook1 by done.
      injection Hlook2 as <- _. eauto.
    + rewrite lookup_insert_ne in Hlook1, Hlook2 by done. eauto.
  - intros op0 Hop0. apply elem_of_cons in Hop0 as [->|Hop0].
    + exists p, info, (S refs). by rewrite lookup_insert_eq.
    + destruct (Hlive op0 Hop0) as (p0 & info0 & refs0 & Hlook0 & ? & ? & ?).
      destruct (decide (op_id_string_ op = op_id_string_ op0)) as [Heq|Hne].
      * rewrite <- Heq in Hlook0. rewrite Hentry in Hlook0. injection Hlook0 as <- <-.
        exists p, info0, (S refs). by rewrite <- Heq, lookup_insert_eq.
      * exists p0, info0, refs0. by rewrite lookup_insert_ne.
Qed.

(** The first holder of a key, with the object the creator made. *)
Lemma shares_created {W} (s s' : State W) (live : list (OnnxifiOp W)) (op : OnnxifiOp W)
    (p : SharedPtrBackendGraphInfo) (info : BackendGraphInfo W) :
  shares s live →
  backend_graph_map s !! op_id_string_ op = None →
  backend_graph_map s' = <[op_id_string_ op := (p, 1%nat)]> (backend_graph_map s) →
  p = next_object s → next_object s' = S p → heap s' = <[p := info]> (heap s) →
  backend_graph_shared_ptr_ op = Some p →
  (backend_id_ op, backend_ op, graph_ op) = (backend_id info, backend info, graph info) →
  shares s' (op :: live).
Proof.
  intros (Hcount & Hinj & Hlive) Hentry Hmap -> Hnext Hheap Hptr Hhandles.
  assert (Hnone : holders (op_id_string_ op) live = 0%nat).
  { apply holders_none. intros op0 Hop0 Heq.
    destruct (Hlive op0 Hop0) as (? & ? & ? & Hlook0 & _). congruence. }
  assert (Hold : ∀ key p0 refs0, backend_graph_map s !! key = Some (p0, refs0) →
            p0 ≠ next_object s).
  { intros key p0 refs0 Hlook. destruct (Hcount _ _ _ Hlook) as (_ & _ & ? & _). lia. }
  unfold shares. rewrite Hmap, Hheap, Hnext. split; [|split].
  - intros key p0 refs0 Hlook. rewrite holders_cons.
    destruct (decide (op_id_string_ op = key)) as [<-|Hne].
    + rewrite lookup_insert_eq in Hlook. injection Hlook as <- <-.
      rewrite Hnone, lookup_insert_eq. repeat split; [lia..|done].
    + rewrite lookup_insert_ne in Hlook by done.
      destruct (Hcount _ _ _ Hlook) as (? & ? & ? & ?).
      rewrite lookup_insert_ne by (by eapply not_eq_sym, Hold). repeat split; [done..|lia|done].
  - intros key1 key2 p0 refs1 refs2 Hlook1 Hlook2.
    destruct (decide (op_id_string_ op = key1)) as [<-|Hne1];
      destruct (decide (op_id_string_ op = key2)) as [<-|Hne2]; [done| | |].
    + rewrite lookup_insert_eq in Hlook1. rewrite lookup_insert_ne in Hlook2 by done.
      injection Hlook1 as <- _. by apply Hold in Hlook2.
    + rewrite lookup_insert_eq in Hlook2. rewrite lookup_insert_ne in Hlook1 by done.
      injection Hlook2 as <- _. by apply Hold in Hlook1.
    + rewrite lookup_insert_ne in Hlook1, Hlook2 by done. eauto.
  - intros op0 Hop0. apply elem_of_cons in Hop0 as [->|Hop0].
    + exists (next_object s), info, 1%nat. by rewrite !lookup_insert_eq.
    + destruct (Hlive op0 Hop0) as (p0 & info0 & refs0 & Hlook0 & ? & ? & ?).
      exists p0, info0, refs0.
      rewrite lookup_insert_ne by congruence.
      rewrite lookup_insert_ne by (by eapply not_eq_sym, Hold). done.
Qed.

(** One holder less of a key that keeps its entry. *)
Lemma shares_counted_down {W} (s : State W) (live1 live2 : list (OnnxifiOp W))
    (op : OnnxifiOp W) (p : SharedPtrBackendGraphInfo) (refs : nat) :
  shares s (live1 ++ op :: live2) →
  backend_graph_map s !! op_id_string_ op = Some (p, refs) → (1 < refs)%nat →
  shares
    (set_backend_graph_map (<[op_id_string_ op := (p, pred refs)]> (backend_graph_map s)) s)
    (live1 ++ live2).
Proof.
  intros (Hcount & Hinj & Hlive) Hentry Hrefs. unfold shares.
  cbn [set_backend_graph_map heap next_object backend_graph_map]. split; [|split].
  - intros key p0 refs0 Hlook.
    destruct (decide (op_id_string_ op = key)) as [<-|Hne].
    + rewrite lookup_insert_eq in Hlook. injection Hlook as <- <-.
      destruct (Hcount _ _ _ Hentry) as (Hholders & _ & ? & ?).
      rewrite holders_without, decide_True in Hholders by done.
      repeat split; [lia..|done|done].
    + rewrite lookup_insert_ne in Hlook by done.
      destruct (Hcount _ _ _ Hlook) as (Hholders & ? & ? & ?).
      rewrite holders_without, decide_False in Hholders by done. done.
  - intros key1 key2 p0 refs1 refs2 Hlook1 Hlook2.
    destruct (decide (op_id_string_ op = key1)) as [<-|Hne1];
      destruct (decide (op_id_string_ op = key2)) as [<-|Hne2]; [done| | |].
    + rewrite lookup_insert_eq in Hlook1. rewrite lookup_insert_ne in Hlook2 by done.
      injection Hlook1 as <- _. eauto.
    + rewrite lookup_insert_eq in Hlook2. rewrite lookup_insert_ne in Hlook1 by done.
      injection Hlook2 as <- _. eauto.
    + rewrite lookup_insert_ne in Hlook1, Hlook2 by done. eauto.
  - intros op0 Hop0.
    assert (op0 ∈ live1 ++ op :: live2) as Hin.
    { apply elem_of_app in Hop0 as [?|?]; apply elem_of_app; [by left|].
      right. by apply elem_of_cons; right. }
    destruct (Hlive op0 Hin) as (p0 & info0 & refs0 & Hlook0 & ? & ? & ?).
    destruct (decide (op_id_string_ op = op_id_string_ op0)) as [Heq|Hne].
    + rewrite <- Heq in Hlook0. rewrite Hentry in Hlook0. injection Hlook0 as <- <-.
      exists p, info0, (pred refs). by rewrite <- Heq, lookup_insert_eq.
    + exists p0, info0, refs0. by rewrite lookup_insert_ne.
Qed.

(** The last holder of a key gone, and with it the entry and the object. *)
Lemma shares_last {W} (s s' : State W) (live1 live2 : list (OnnxifiOp W))
    (op : OnnxifiOp W) (p : SharedPtrBackendGraphInfo) (refs : nat) :
  shares s (live1 ++ op :: live2) →
  backend_graph_map s !! op_id_string_ op = Some (p, refs) → (refs ≤ 1)%nat →
  heap s' = delete p (heap s) → next_object s' = next_object s →
  backend_graph_map s' = delete (op_id_string_ op) (backend_graph_map s) →
  shares s' (live1 ++ live2).
Proof.
  intros (Hcount & Hinj & Hlive) Hentry Hrefs Hheap Hnext Hmap.
  assert (Hnone : holders (op_id_string_ op) (live1 ++ live2) = 0%nat).
  { destruct (Hcount _ _ _ Hentry) as (Hholders & _).
    rewrite holders_without, decide_True in Hholders by done. lia. }
  assert (Hother : ∀ key p0 refs0, key ≠ op_id_string_ op →
            backend_graph_map s !! key = Some (p0, refs0) → p0 ≠ p).
  { intros key p0 refs0 Hne Hlook ->. apply Hne. eauto. }
  unfold shares. rewrite Hmap, Hheap, Hnext. split; [|split].
  - intros key p0 refs0 Hlook.
    apply lookup_delete_Some in Hlook as [Hne Hlook].
    destruct (Hcount _ _ _ Hlook) as (Hholders & ? & ? & ?).
    rewrite holders_without, decide_False in Hholders by done.
    rewrite lookup_delete_ne by (by eapply not_eq_sym, Hother). done.
  - intros key1 key2 p0 refs1 refs2 Hlook1 Hlook2.
    apply lookup_delete_Some in Hlook1 as [_ Hlook1].
    apply lookup_delete_Some in Hlook2 as [_ Hlook2]. eauto.
  - intros op0 Hop0.
    assert (op_id_string_ op0 ≠ op_id_string_ op) as Hne.
    { by apply (proj1 (holders_none _ _) Hnone). }
    assert (op0 ∈ live1 ++ op :: live2) as Hin.
    { apply elem_of_app in Hop0 as [?|?]; apply elem_of_app; [by left|].
      right. by apply elem_of_cons; right. }
    destruct (Hlive op0 Hin) as (p0 & info0 & refs0 & Hlook0 & ? & ? & ?).
    exists p0, info0, refs0. rewrite lookup_delete_ne by done.
    rewrite lookup_delete_ne by (by eapply not_eq_sym, Hother). done.
Qed.

(** Every state a process reaches has the sharing property. *)
Lemma reachable_shares `{!onnxifi_h} {W Workspace : Type}
    (buildInitializationList :
       Workspace → gmap string string → gset string → option (list onnxTensorDescriptorV1))
    (s : State W) (live : list (OnnxifiOp W)) :
  reachable buildInitializationList s live → shares s live.
Proof.
  induction 1 as [s0 Hempty
                 |s live lib d ws op s' _ IH Hnew
                 |s live lib d ws msg s' _ IH Hnew
                 |s live lib d ws what s' _ IH Hnew
                 |s live1 op live2 s' _ IH Hdelete].
  - unfold shares. rewrite Hempty. repeat split.
    + by rewrite lookup_empty in *.
    + by rewrite lookup_empty in *.
    + by rewrite lookup_empty in *.
    + by rewrite lookup_empty in *.
    + intros ? ? ? ? ? Hlook. by rewrite lookup_empty in Hlook.
    + intros op Hop. by apply elem_of_nil in Hop.
  - apply OnnxifiOp_new_built in Hnew as (this & props & model & weights & Hbuild).
    apply BuildBackendAndGraph_Ok in Hbuild
      as (p & info & Hid & Hptr & Hinfo & Hhandles & Hcase).
    rewrite <- Hid in Hcase.
    destruct Hcase as [(refs & Hentry & Hmap & Hheap & Hnext & _)
                      |(Hentry & Hmap & Hp & Hnext & Hheap)].
    + by eapply shares_cached.
    + by eapply shares_created.
  - apply OnnxifiOp_new_throws in Hnew as (Hheap & Hnext & Hmap).
    by eapply shares_same.
  - apply OnnxifiOp_new_throws_std in Hnew as (Hheap & Hnext & Hmap).
    by eapply shares_same.
  - unfold OnnxifiOp_delete in Hdelete.
    apply backend_graph_map_remove_Ok in Hdelete
      as (p & refs & Hentry & [[Hrefs ->]|(Hrefs & Hheap & Hnext & Hmap)]).
    + by apply shares_counted_down.
    + by eapply shares_last.
Qed.

(** C1: in every state a process reaches by constructing and destroying
    operators, two operators that are alive and have the same key point to
    the same object, which is on the heap, and hold its three handles; a
    further operator constructed with the key of an operator that is alive
    gets that operator's pointer, and its construction does not run the
    creator (it makes no call but the probe, and the heap has no new
    object); and destroying an operator while another with its key is alive
    makes no call and leaves the heap as it is, the other's object
    included. *)
Theorem same_key_same_bundle `{!onnxifi_h} {W Workspace : Type}
    (buildInitializationList :
       Workspace → gmap string string → gset string → option (list onnxTensorDescriptorV1))
    (s : State W) (live : list (OnnxifiOp W)) :
  reachable buildInitializationList s live →
  (∀ op1 op2, op1 ∈ live → op2 ∈ live → op_id_string_ op1 = op_id_string_ op2 →
     ∃ p info,
       backend_graph_shared_ptr_ op1 = Some p ∧ backend_graph_shared_ptr_ op2 = Some p ∧
       heap s !! p = Some info ∧
       (backend_id_ op1, backend_ op1, graph_ op1)
         = (backend_id info, backend info, graph info) ∧
       (backend_id_ op2, backend_ op2, graph_ op2)
         = (backend_id info, backend info, graph info)) ∧
  (∀ op1 initOnnxifiLibrary d ws op2 s',
     op1 ∈ live → op_id_string_of d = op_id_string_ op1 →
     OnnxifiOp_new buildInitializationList initOnnxifiLibrary d ws s = (Ok op2, s') →
     backend_graph_shared_ptr_ op2 = backend_graph_shared_ptr_ op1 ∧
     heap s' = heap s ∧ next_object s' = next_object s ∧
     ∃ evs, trace s' = trace s ++ evs ∧ Forall is_probe evs) ∧
  (∀ live1 op1 live2 op2,
     live = live1 ++ op1 :: live2 → op2 ∈ live1 ++ live2 →
     op_id_string_ op1 = op_id_string_ op2 →
     ∃ s' p info,
       OnnxifiOp_delete op1 s = (Ok (), s') ∧ trace s' = trace s ∧ heap s' = heap s ∧
       backend_graph_shared_ptr_ op2 = Some p ∧ heap s' !! p = Some info).
Proof.
  intros Hreach. pose proof (reachable_shares _ _ _ Hreach) as (Hcount & Hinj & Hlive).
  split; [|split].
  - intros op1 op2 Hop1 Hop2 Hkey.
    destruct (Hlive op1 Hop1) as (p1 & info1 & refs1 & Hlook1 & Hptr1 & Hinfo1 & Hh1).
    destruct (Hlive op2 Hop2) as (p2 & info2 & refs2 & Hlook2 & Hptr2 & Hinfo2 & Hh2).
    rewrite Hkey, Hlook2 in Hlook1. injection Hlook1 as <- <-.
    rewrite Hinfo2 in Hinfo1. injection Hinfo1 as <-. by exists p2, info2.
  - intros op1 lib d ws op2 s' Hop1 Hkey Hnew.
    destruct (Hlive op1 Hop1) as (p1 & info1 & refs1 & Hlook1 & Hptr1 & _).
    apply OnnxifiOp_new_built in Hnew as (this & props & model & weights & Hbuild).
    apply BuildBackendAndGraph_Ok in Hbuild as (p & info & _ & Hptr & _ & _ & Hcase).
    rewrite Hkey in Hcase.
    destruct Hcase as [(refs & Hentry & _ & Hheap & Hnext & Htrace)|(Hentry & _)];
      [|congruence].
    rewrite Hlook1 in Hentry. injection Hentry as <- <-. by rewrite Hptr, Hptr1.
  - intros live1 op1 live2 op2 -> Hop2 Hkey.
    assert (op1 ∈ live1 ++ op1 :: live2) as Hin1.
    { apply elem_of_app. right. by apply elem_of_cons; left. }
    destruct (Hlive op1 Hin1) as (p & info & refs & Hlook & _ & Hinfo & _).
    destruct (Hcount _ _ _ Hlook) as (Hholders & _).
    rewrite holders_without, decide_True in Hholders by done.
    assert (holders (op_id_string_ op1) (live1 ++ live2) ≠ 0%nat) as Hsome.
    { intros Hnone. by apply (proj1 (holders_none _ _) Hnone op2). }
    destruct refs as [|[|refs]]; [lia..|].
    assert (op2 ∈ live1 ++ op1 :: live2) as Hin2.
    { apply elem_of_app in Hop2 as [?|?]; apply elem_of_app; [by left|].
      right. by apply elem_of_cons; right. }
    destruct (Hlive op2 Hin2) as (p2 & info2 & refs2 & Hlook2 & Hptr2 & Hinfo2 & _).
    eexists _, p2, info2. unfold OnnxifiOp_delete.
    rewrite (backend_graph_map_remove_shared _ _ _ _ Hlook). done.
Qed.

Lemma same_key_same_bundle_witness :
  let d1 := xyz_def "m" "0" 1 [] [] in
  let d2 := xyz_def "m" "0" 2 [] [] in
  ∃ op1 s1 op2 s2,
    @OnnxifiOp_new (onnxifi_v1 true) nat unit no_weights
      (Some (test_library three_backends)) d1 () fresh_process = (Ok op1, s1) ∧
    @OnnxifiOp_new (onnxifi_v1 true) nat unit no_weights
      (Some (test_library three_backends)) d2 () s1 = (Ok op2, s2) ∧
    @reachable (onnxifi_v1 true) nat unit no_weights s2 [op2; op1] ∧
    ∃ p info,
      backend_graph_shared_ptr_ op1 = Some p ∧ backend_graph_shared_ptr_ op2 = Some p ∧
      heap s2 !! p = Some info ∧
      (backend_id_ op1, backend_ op1, graph_ op1)
        = (backend_id info, backend info, graph info) ∧
      (backend_id_ op2, backend_ op2, graph_ op2)
        = (backend_id info, backend info, graph info).
Proof.
  intros d1 d2. eexists _, _, _, _.
  split; [vm_compute; reflexivity|]. split; [vm_compute; reflexivity|].
  match goal with |- reachable _ ?s2 [?op2; ?op1] ∧ _ =>
    assert (Hreach : @reachable (onnxifi_v1 true) nat unit no_weights s2 [op2; op1])
  end.
  { eapply (reach_new no_weights _ _ (Some (test_library three_backends)) d2 ()).
    - eapply (reach_new no_weights fresh_process [] (Some (test_library three_backends)) d1 ()).
      + by apply reach_start.
      + vm_compute. reflexivity.
    - vm_compute. reflexivity. }
  split; [exact Hreach|].
  refine (proj1 (@same_key_same_bundle (onnxifi_v1 true) nat unit no_weights _ _ Hreach)
            _ _ _ _ _).
  - apply elem_of_cons. right. apply elem_of_cons. by left.
  - apply elem_of_cons. by left.
  - vm_compute. reflexivity.
Defined.

(** * Further properties *)

(** ** The initializers loop *)

Lemma initializers_loop_odd (n : nat) : ∀ (initializers : list string) m s,
  length initializers = S (2 * n) → initializers_loop initializers m s = None.
Proof.
  induction n as [|n IH]; intros [|key [|value rest]] m s Hlen; simpl in Hlen; try lia.
  - reflexivity.
  - cbn [initializers_loop]. apply IH. lia.
Qed.

(** X1: the loop over the initializers reads past the end of the list
    exactly when the list has an odd number of elements, whatever map and set
    it starts from; on every list of even length it ends. The check of line
    78 is the condition under which the loop of lines 82-86 is defined. *)
Theorem initializers_loop_defined_iff_even (initializers : list string)
    (input_mapping : gmap string string) (initializer_set : gset string) :
  initializers_loop initializers input_mapping initializer_set = None ↔
  Z.of_nat (length initializers) `mod` 2 ≠ 0.
Proof.
  destruct (Nat.Even_or_Odd (length initializers)) as [[n Hn]|[n Hn]].
  - rewrite (initializers_loop_pairs n) by done. split; [done|].
    intros Hodd. exfalso. apply Hodd.
    rewrite Hn, Nat2Z.inj_mul, Z.mul_comm. apply Z_mod_mult.
  - rewrite (initializers_loop_odd n) by lia. split; [|done]. intros _.
    rewrite Hn. replace (Z.of_nat (2 * n + 1)) with (1 + Z.of_nat n * 2) by lia.
    rewrite Z_mod_plus_full. done.
Qed.

Lemma pairs_of_lookup (i : nat) : ∀ initializers : list string,
  pairs_of initializers !! i =
    match initializers !! (2 * i)%nat, initializers !! (2 * i + 1)%nat with
    | Some key, Some value => Some (key, value)
    | _, _ => None
    end.
Proof.
  induction i as [|i IH]; intros [|key [|value rest]]; try reflexivity.
  replace (2 * S i)%nat with (S (S (2 * i))) by lia.
  replace (S (S (2 * i)) + 1)%nat with (S (S (2 * i + 1))) by lia.
  cbn [pairs_of lookup list_lookup]. apply IH.
Qed.

Lemma list_to_map_first_wins {V} (ps : list (string * V)) : ∀ (i : nat) (k : string) (v : V),
  ps !! i = Some (k, v) →
  (∀ j v', (j < i)%nat → ps !! j ≠ Some (k, v')) →
  (list_to_map ps : gmap string V) !! k = Some v.
Proof.
  induction ps as [|[k0 v0] ps IH]; intros [|i] k v Hi Hfirst; try done.
  - injection Hi as -> ->. rewrite list_to_map_cons. apply lookup_insert_eq.
  - rewrite list_to_map_cons.
    destruct (decide (k0 = k)) as [->|Hne].
    + exfalso. apply (Hfirst 0%nat v0); [lia|done].
    + rewrite lookup_insert_ne by done. apply (IH i); [done|].
      intros j v' Hj. apply (Hfirst (S j) v'). lia.
Qed.

(** X2: when the loop over the initializers ends, an original name maps to
    the workspace name that follows its first occurrence at an even position
    (a later pair with the same original name changes nothing), the name is in
    the initializer set, and the names the map renames are exactly the names
    of the set. *)
Theorem input_mapping_first_pair_wins (initializers : list string)
    (input_mapping : gmap string string) (initializer_set : gset string)
    (i : nat) (key value : string) :
  initializers_loop initializers ∅ ∅ = Some (input_mapping, initializer_set) →
  initializers !! (2 * i)%nat = Some key →
  initializers !! (2 * i + 1)%nat = Some value →
  (∀ j, (j < i)%nat → initializers !! (2 * j)%nat ≠ Some key) →
  input_mapping !! key = Some value ∧ key ∈ initializer_set ∧
  dom input_mapping = initializer_set.
Proof.
  intros Hloop Hkey Hvalue Hfirst.
  destruct (Nat.Even_or_Odd (length initializers)) as [[n Hn]|[n Hn]]; cycle 1.
  { rewrite (initializers_loop_odd n) in Hloop by lia. done. }
  rewrite (initializers_loop_pairs n) in Hloop by done.
  injection Hloop as <- <-. rewrite !(left_id_L ∅ (∪)).
  assert (Hpair : pairs_of initializers !! i = Some (key, value)).
  { by rewrite pairs_of_lookup, Hkey, Hvalue. }
  assert (Hmap : (list_to_map (pairs_of initializers) : gmap string string) !! key
                 = Some value).
  { apply (list_to_map_first_wins _ i); [done|].
    intros j v' Hj. rewrite pairs_of_lookup.
    destruct (initializers !! (2 * j)%nat) as [k'|] eqn:Hk'; [|done].
    destruct (initializers !! (2 * j + 1)%nat); [|done].
    intros [= -> _]. by apply (Hfirst j). }
  assert (Hdom : dom (list_to_map (pairs_of initializers) : gmap string string)
                 = list_to_set (pairs_of initializers).*1).
  { apply dom_list_to_map_L. }
  split; [done|]. split; [|done].
  rewrite <- Hdom. apply elem_of_dom. by eexists.
Qed.

Lemma input_mapping_first_pair_wins_witness :
  ∃ input_mapping initializer_set,
    initializers_loop ["w"; "a"; "b"; "c"; "w"; "d"]%string ∅ ∅
      = Some (input_mapping, initializer_set) ∧
    input_mapping !! "w"%string = Some "a"%string ∧ "w"%string ∈ initializer_set ∧
    dom input_mapping = initializer_set.
Proof.
  eexists _, _. split; [vm_compute; reflexivity|].
  refine (input_mapping_first_pair_wins ["w"; "a"; "b"; "c"; "w"; "d"]%string _ _ 0
            "w" "a" _ _ _ _).
  - vm_compute. reflexivity.
  - reflexivity.
  - reflexivity.
  - intros j Hj. lia.
Defined.

(** ** What the constructor checks before it touches anything *)

(** X3: without a library, or with the [onnx_model] argument absent or
    empty, the constructor throws and leaves the process as it was; and a
    constructor that returns an operator, or changes the process in any way,
    was given a library, a non-empty model, as many input and output names as
    the operator has inputs and outputs, an even number of initializers, and
    weights by [buildInitializationList]. *)
Theorem constructor_checks_first `{!onnxifi_h} {W Workspace : Type}
    (buildInitializationList :
       Workspace → gmap string string → gset string → option (list onnxTensorDescriptorV1))
    (initOnnxifiLibrary : option (onnxifi_library W))
    (d : OperatorDef) (ws : Workspace) (s : State W) :
  (initOnnxifiLibrary = None ∨ arg_s d !! "onnx_model"%string = None ∨
   arg_s d !! "onnx_model"%string = Some ""%string →
   ∃ msg, OnnxifiOp_new buildInitializationList initOnnxifiLibrary d ws s
          = (EnforceNotMet msg, s)) ∧
  (∀ r s',
     OnnxifiOp_new buildInitializationList initOnnxifiLibrary d ws s = (r, s') →
     (∃ op, r = Ok op) ∨ s' ≠ s →
     is_Some initOnnxifiLibrary ∧
     (∃ model, arg_s d !! "onnx_model"%string = Some model ∧ model ≠ ""%string) ∧
     Z.of_nat (length (GetRepeatedArgument (arg_strings d) "input_names"))
       = Z.of_nat (length (input d)) ∧
     Z.of_nat (length (GetRepeatedArgument (arg_strings d) "output_names"))
       = Z.of_nat (length (output d)) ∧
     Z.of_nat (length (GetRepeatedArgument (arg_strings d) "initializers")) `mod` 2 = 0 ∧
     ∃ input_mapping initializer_set weight_descs,
       initializers_loop (GetRepeatedArgument (arg_strings d) "initializers") ∅ ∅
         = Some (input_mapping, initializer_set) ∧
       buildInitializationList ws input_mapping initializer_set = Some weight_descs).
Proof.
  split.
  - intros Hbad. unfold OnnxifiOp_new.
    destruct initOnnxifiLibrary as [lib|]; [|by eexists].
    rewrite bind_enforce.
    assert (GetSingleArgument (arg_s d) "onnx_model" "" = ""%string) as ->.
    { unfold GetSingleArgument. by destruct Hbad as [?|[-> | ->]]. }
    by eexists.
  - intros r s' Hrun Hchanged.
    assert (Hdone : ∀ msg, (r, s') ≠ (EnforceNotMet msg, s)).
    { intros msg [= -> ->]. by destruct Hchanged as [[op ?]|?]. }
    unfold OnnxifiOp_new in Hrun.
    destruct initOnnxifiLibrary as [lib|]; [|exfalso; eapply Hdone; symmetry; exact Hrun].
    rewrite bind_enforce in Hrun.
    destruct (negb _) eqn:Hmodel; [|exfalso; eapply Hdone; symmetry; exact Hrun].
    rewrite bind_enforce_eq in Hrun. case_bool_decide as Hin; [|exfalso; eapply Hdone; symmetry; exact Hrun].
    rewrite bind_enforce_eq in Hrun. case_bool_decide as Hout; [|exfalso; eapply Hdone; symmetry; exact Hrun].
    destruct (output_loop _ _ _ _ _ _) as [output_desc output_shape_hints].
    rewrite bind_enforce_eq in Hrun. case_bool_decide as Heven; [|exfalso; eapply Hdone; symmetry; exact Hrun].
    destruct (even_length_half _ Heven) as [k Hk].
    rewrite (initializers_loop_pairs k) in Hrun |- * by done.
    destruct (buildInitializationList _ _ _) as [weight_descs|] eqn:Hweights;
      [|exfalso; eapply Hdone; symmetry; exact Hrun].
    split; [done|]. split.
    { apply negb_true_iff, bool_decide_eq_false in Hmodel.
      unfold GetSingleArgument in Hmodel.
      destruct (arg_s d !! "onnx_model"%string) as [model|]; [|done]. by exists model. }
    repeat split; try done. by eexists _, _, _.
Qed.

Lemma constructor_checks_first_witness :
  let d := xyz_def "m" "0" 0 [] ["w"; "w_ws"] in
  let run := @OnnxifiOp_new (onnxifi_v1 true) nat unit no_weights
               (Some (test_library three_backends)) d () fresh_process in
  (∃ msg, @OnnxifiOp_new (onnxifi_v1 true) nat unit no_weights None d () fresh_process
          = (EnforceNotMet msg, fresh_process)) ∧
  (∃ model, arg_s d !! "onnx_model"%string = Some model ∧ model ≠ ""%string) ∧
  ∃ input_mapping initializer_set weight_descs,
    initializers_loop (GetRepeatedArgument (arg_strings d) "initializers") ∅ ∅
      = Some (input_mapping, initializer_set) ∧
    no_weights () input_mapping initializer_set = Some weight_descs.
Proof.
  intros d run. split.
  - apply (proj1 (@constructor_checks_first (onnxifi_v1 true) nat unit no_weights
                    None d () fresh_process)). by left.
  - pose proof (proj2 (@constructor_checks_first (onnxifi_v1 true) nat unit no_weights
                         (Some (test_library three_backends)) d () fresh_process)
                  run.1 run.2 (surjective_pairing _)) as Hvalid.
    destruct Hvalid as (_ & Hmodel & _ & _ & _ & Hweights).
    + right. vm_compute. discriminate.
    + exact (conj Hmodel Hweights).
Defined.

(** ** Output shapes of a constructed operator *)



(** ** The trace only grows *)

Lemma grows_mret {W A} (a : A) : grows (mret a : M W A).
Proof. intros s. reflexivity. Qed.

Lemma grows_throw {W A} (msg : string) : grows (throw msg : M W A).
Proof. intros s. reflexivity. Qed.

Lemma grows_undefined {W A} : grows (undefined : M W A).
Proof. intros s. reflexivity. Qed.

Lemma grows_enforce {W} (c : bool) (msg : string) : grows (CAFFE_ENFORCE c msg : M W unit).
Proof. intros s. by destruct c. Qed.

Lemma grows_abi {W R} (f : W → R * W) (ev : R → event) : grows (abi f ev).
Proof.
  intros s. unfold abi. destruct (f (world s)) as [r w]. cbn. by apply prefix_app_r.
Qed.

Lemma grows_make_shared {W} (o : BackendGraphInfo W) : grows (make_shared o).
Proof. intros s. reflexivity. Qed.

Lemma grows_vector_at {W A} (v : list A) (i : Z) : grows (vector_at v i : M W A).
Proof. intros s. unfold vector_at. by destruct (v !! _). Qed.

Lemma grows_bind {W A B} (m : M W A) (k : A → M W B) :
  grows m → (∀ a, grows (k a)) → grows (m ≫= k).
Proof.
  intros Hm Hk s. unfold mbind, M_bind. specialize (Hm s).
  destruct (m s) as [[a|msg| |what] s1]; cbn in *; [|done..].
  etrans; [exact Hm|apply Hk].
Qed.

Lemma grows_release_unused {W} (lib : onnxifi_library W) (backend_ids : list onnxBackendID)
    (backend_index : Z) (rounds : list Z) :
  grows (release_unused lib backend_ids backend_index rounds).
Proof.
  induction rounds as [|i rounds IH]; [apply grows_mret|].
  cbn [release_unused]. apply grows_bind; [|done].
  case_bool_decide; [apply grows_mret|].
  apply grows_bind; [apply grows_vector_at|]. intros id.
  apply grows_bind; [apply grows_abi|]. intros _. apply grows_mret.
Qed.

(** The part of the creator after [onnxInitBackend] has answered. *)
Lemma grows_creator_tail `{!onnxifi_h} {W} (lib : onnxifi_library W)
    (backend_ids : list onnxBackendID) (backend_index num_backends : Z)
    (backend_id : onnxBackendID) (backend : onnxBackend) (st : onnxStatus)
    (onnx_model_str : string) (weight_descs : list onnxTensorDescriptorV1) :
  grows
    (CAFFE_ENFORCE_EQ st ONNXIFI_STATUS_SUCCESS "";;
     (if bool_decide (INT_MAX < num_backends) then undefined
      else release_unused lib backend_ids backend_index (seqZ 0 num_backends));;
     '(st, graph) ←
       abi (onnxInitGraph lib backend onnx_model_str weight_descs)
           (λ r, EvInitGraph backend onnx_model_str weight_descs r.1 r.2);
     CAFFE_ENFORCE_EQ st ONNXIFI_STATUS_SUCCESS "";;
     make_shared
       {| backend_id := backend_id; backend := backend; graph := graph; lib := lib |}).
Proof.
  apply grows_bind; [apply grows_enforce|]. intros _.
  apply grows_bind.
  { case_bool_decide; [apply grows_undefined|apply grows_release_unused]. }
  intros _. apply grows_bind; [apply grows_abi|]. intros [st' g].
  apply grows_bind; [apply grows_enforce|]. intros _. apply grows_make_shared.
Qed.

(** Rounds that all read inside the vector end; no release is a reason to
    stop. *)
Lemma release_unused_in_range {W} (lib : onnxifi_library W)
    (backend_ids : list onnxBackendID) (backend_index : Z) (rounds : list Z) :
  ∀ s : State W,
  Forall (λ i, 0 ≤ i < 2 ^ 64 ∧
               (i ≠ backend_index → is_Some (backend_ids !! Z.to_nat i))) rounds →
  ∃ s', release_unused lib backend_ids backend_index rounds s = (Ok (), s').
Proof.
  induction rounds as [|i rounds IH]; intros s Hrounds; [by eexists|].
  apply Forall_cons in Hrounds as [[Hi Hin] Hrounds]. cbn [release_unused].
  case_bool_decide as Hidx.
  - rewrite bind_mret. by apply IH.
  - rewrite bind_assoc_at. unfold vector_at. rewrite to_uint64_small by done.
    destruct (Hin Hidx) as [id ->].
    rewrite bind_mret, bind_assoc_at, bind_abi, bind_mret. by apply IH.
Qed.

(** ** When the creator leaves defined behaviour *)

(** X7: the creator runs into undefined behaviour exactly when the count
    query, the fill query and [onnxInitBackend] have all answered as the
    creator insists, the vector of ids could be resized to the count of the
    count query, and the fill query reported a count above that count, for
    which the vector was sized, or above [INT_MAX]: the loop over the unused
    backend ids runs to the later count, so it reads the vector past its end
    or overflows its [int] counter. In every other case the creator returns
    or throws. *)
Theorem creator_undefined_iff `{!onnxifi_h} {W} (lib : onnxifi_library W)
    (property_pointers : list Z) (backend_index : Z) (onnx_model_str : string)
    (weight_descs : list onnxTensorDescriptorV1) (s : State W) :
  (creator lib property_pointers backend_index onnx_model_str weight_descs s).1 = Undefined ↔
  ∃ wr n w1 written n' w2 id be w3,
    onnxGetBackendIDs lib None 0 (world s) = (ONNXIFI_STATUS_FALLBACK, wr, n, w1) ∧
    n > 0 ∧ to_uint64 backend_index < n ∧
    vector_resize_throws n = None ∧
    onnxGetBackendIDs lib (Some (Z.to_nat n)) n w1
      = (ONNXIFI_STATUS_SUCCESS, written, n', w2) ∧
    stored written (replicate (Z.to_nat n) nullptr) !! Z.to_nat (to_uint64 backend_index)
      = Some id ∧
    onnxInitBackend lib id property_pointers w2 = (ONNXIFI_STATUS_SUCCESS, be, w3) ∧
    (n < n' ∨ INT_MAX < n').
Proof.
  unfold creator. rewrite bind_abi.
  destruct (onnxGetBackendIDs lib None 0 (world s)) as [[[st1 wr] n] w1] eqn:Hcount.
  cbn [fst snd]. set (s1 := with_call w1 _ s).
  rewrite bind_enforce_eq. case_bool_decide as Hst1; cycle 1.
  { split; [done|]. intros (?&?&?&?&?&?&?&?&?& [= -> _ _ _] & _). done. }
  rewrite bind_enforce_gt. case_bool_decide as Hgt; cycle 1.
  { split; [done|]. intros (?&?&?&?&?&?&?&?&?& [= _ _ -> _] & ? & _). done. }
  rewrite bind_enforce_lt. case_bool_decide as Hlt; cycle 1.
  { split; [done|]. intros (?&?&?&?&?&?&?&?&?& [= _ _ -> _] & _ & ? & _). done. }
  rewrite bind_resize_nil. destruct (vector_resize_throws n) as [what|] eqn:Hres.
  { split; [done|]. intros (?&?&?&?&?&?&?&?&?& [= _ _ <- _] & _ & _ & Hres' & _).
    congruence. }
  rewrite bind_abi, length_replicate. change (world s1) with w1.
  destruct (onnxGetBackendIDs lib (Some (Z.to_nat n)) n w1)
    as [[[st2 written] n'] w2] eqn:Hfill.
  cbn [fst snd]. set (s2 := with_call w2 _ s1).
  set (backend_ids := stored written (replicate (Z.to_nat n) nullptr)).
  assert (Hlen : length backend_ids = Z.to_nat n).
  { unfold backend_ids. by rewrite length_stored, length_replicate. }
  rewrite bind_enforce_eq. case_bool_decide as Hst2; cycle 1.
  { split; [done|].
    intros (?&?&?&?&?&?&?&?&?& [= _ _ <- <-] & _ & _ & _ & Hfill' & _).
    rewrite Hfill in Hfill'. by injection Hfill' as -> _ _ _. }
  unfold vector_at at 1.
  assert (Hidx_pos : 0 ≤ to_uint64 backend_index).
  { unfold to_uint64. apply Z.mod_pos_bound. lia. }
  destruct (backend_ids !! Z.to_nat (to_uint64 backend_index)) as [id|] eqn:Hid; cycle 1.
  { apply lookup_ge_None_1 in Hid. lia. }
  rewrite bind_mret, bind_abi. change (world s2) with w2.
  destruct (onnxInitBackend lib id property_pointers w2) as [[st3 be] w3] eqn:Hinit.
  cbn [fst snd]. set (s3 := with_call w3 _ s2).
  rewrite bind_enforce_eq. case_bool_decide as Hst3; cycle 1.
  { split; [done|].
    intros (?&?&?&?&?&?&?&?&?& [= _ _ <- <-] & _ & _ & _ & Hfill' & Hid' & Hinit' & _).
    rewrite Hfill in Hfill'. injection Hfill' as _ <- _ <-.
    fold backend_ids in Hid'. rewrite Hid in Hid'. injection Hid' as <-.
    rewrite Hinit in Hinit'. by injection Hinit' as -> _ _. }
  subst st1 st2 st3.
  assert (Hcases : (((if bool_decide (INT_MAX < n') then undefined
                      else release_unused lib backend_ids backend_index (seqZ 0 n'))
                     ≫= λ _ : (),
                       abi (onnxInitGraph lib be onnx_model_str weight_descs)
                         (λ r, EvInitGraph be onnx_model_str weight_descs r.1 r.2)
                       ≫= λ '(st, graph0),
                         CAFFE_ENFORCE_EQ st ONNXIFI_STATUS_SUCCESS ""
                         ≫= λ _ : (),
                           make_shared {| backend_id := id; backend := be;
                                          graph := graph0; lib := lib |}) s3).1 = Undefined
                   ↔ n < n' ∨ INT_MAX < n').
  { case_bool_decide as Hmax; [by split; [right|]|].
    pose proof (release_unused_run lib backend_ids backend_index (seqZ 0 n') s3) as Hrun.
    unfold mbind at 1, M_bind at 1.
    destruct (decide (n' ≤ n)) as [Hn'|Hn'].
    - destruct (release_unused_in_range lib backend_ids backend_index (seqZ 0 n') s3)
        as [s4 ->].
      { apply Forall_forall. intros i Hi. apply elem_of_seqZ in Hi.
        unfold INT_MAX in Hmax. split; [lia|]. intros _.
        apply lookup_lt_is_Some_2. lia. }
      rewrite bind_abi. destruct (onnxInitGraph _ _ _ _ _) as [[st5 g] w5]. cbn [fst snd].
      rewrite bind_enforce_eq. case_bool_decide; (split; [done|lia]).
    - destruct (release_unused lib backend_ids backend_index (seqZ 0 n') s3)
        as [[[]|msg| |what] s4]; [exfalso| |by split; [left; lia|]|].
      + destruct Hrun as (_ & Hin & _).
        { apply seqZ_range. unfold INT_MAX in Hmax. lia. }
        rewrite Forall_forall in Hin. destruct (Hin n) as [x Hx].
        * apply elem_of_seqZ. lia.
        * intros ->. rewrite to_uint64_small in Hlt; unfold INT_MAX in Hmax; lia.
        * apply lookup_lt_Some in Hx. lia.
      + exfalso. apply Hrun, seqZ_range. unfold INT_MAX in Hmax. lia.
      + exfalso. apply Hrun, seqZ_range. unfold INT_MAX in Hmax. lia. }
  rewrite Hcases. split.
  - intros Hbig. by exists wr, n, w1, written, n', w2, id, be, w3.
  - intros (?&?&?&?&?&?&?&?&?& [= _ <- <-] & _ & _ & _ & Hfill' & _ & _ & Hbig).
    rewrite Hfill in Hfill'. by injection Hfill' as _ <- _.
Qed.

Example creator_undefined_example :
  (@creator (onnxifi_v1 true) nat (two_counts 2 [11; 12; 13] 3) [0] 0
     "model bytes" [] fresh_process).1 = Undefined.
Proof. vm_compute. reflexivity. Qed.

(** ** The check of the backend index *)

(** The part of the creator after the fill query has answered. *)
Lemma grows_creator_after_fill `{!onnxifi_h} {W} (lib : onnxifi_library W)
    (property_pointers : list Z) (backend_ids : list onnxBackendID)
    (backend_index num_backends : Z) (st : onnxStatus)
    (onnx_model_str : string) (weight_descs : list onnxTensorDescriptorV1) :
  grows
    (CAFFE_ENFORCE_EQ st ONNXIFI_STATUS_SUCCESS "";;
     backend_id ← vector_at backend_ids backend_index;
     '(st, backend) ←
       abi (onnxInitBackend lib backend_id property_pointers)
           (λ r, EvInitBackend backend_id property_pointers r.1 r.2);
     CAFFE_ENFORCE_EQ st ONNXIFI_STATUS_SUCCESS "";;
     (if bool_decide (INT_MAX < num_backends) then undefined
      else release_unused lib backend_ids backend_index (seqZ 0 num_backends));;
     '(st, graph) ←
       abi (onnxInitGraph lib backend onnx_model_str weight_descs)
           (λ r, EvInitGraph backend onnx_model_str weight_descs r.1 r.2);
     CAFFE_ENFORCE_EQ st ONNXIFI_STATUS_SUCCESS "";;
     make_shared
       {| backend_id := backend_id; backend := backend; graph := graph; lib := lib |}).
Proof.
  apply grows_bind; [apply grows_enforce|]. intros _.
  apply grows_bind; [apply grows_vector_at|]. intros id.
  apply grows_bind; [apply grows_abi|]. intros [st' be].
  apply grows_creator_tail.
Qed.

(** X8: after a count query that reported [n] backends with the fallback
    code, an [int] backend index outside [0, n), a negative one included, makes
    the creator throw with no further call. An index inside makes it resize
    the vector of ids to [n] handles: when the resize goes through, the
    creator goes on to the fill query, with a buffer of [n] handles; when the
    resize throws, the creator ends with that exception and no further call.
    ([n] is a [size_t] a library can report for a list of handles: at most
    2^64 - 2^31.) *)
Theorem backend_index_accepted_iff_in_range `{!onnxifi_h} {W} (lib : onnxifi_library W)
    (property_pointers : list Z) (backend_index : Z) (onnx_model_str : string)
    (weight_descs : list onnxTensorDescriptorV1) (s : State W)
    (wr : list onnxBackendID) (n : Z) (w1 : W) :
  onnxGetBackendIDs lib None 0 (world s) = (ONNXIFI_STATUS_FALLBACK, wr, n, w1) →
  is_int backend_index → n ≤ 2 ^ 64 - 2 ^ 31 →
  let count := EvGetBackendIDs None 0 ONNXIFI_STATUS_FALLBACK wr n in
  let run := creator lib property_pointers backend_index onnx_model_str weight_descs s in
  (¬ 0 ≤ backend_index < n → ∃ msg, run = (EnforceNotMet msg, with_call w1 count s)) ∧
  (0 ≤ backend_index < n → vector_resize_throws n = None →
   ∀ st written n' w2,
     onnxGetBackendIDs lib (Some (Z.to_nat n)) n w1 = (st, written, n', w2) →
     (trace s ++ [count; EvGetBackendIDs (Some (Z.to_nat n)) n st written n'])
       `prefix_of` trace run.2) ∧
  (0 ≤ backend_index < n →
   ∀ what, vector_resize_throws n = Some what →
     run = (StdException what, with_call w1 count s)).
Proof.
  intros Hcount [Hlo Hhi] Hn count run. unfold INT_MAX in Hhi. split; [|split].
  - intros Hout. apply creator_count_refused; [done|]. intros [Hpos Hlt]. apply Hout.
    destruct (decide (0 ≤ backend_index)) as [Hnonneg|Hneg].
    + rewrite to_uint64_small in Hlt; lia.
    + exfalso. unfold to_uint64 in Hlt.
      rewrite <- (Z.mod_add backend_index 1 (2 ^ 64)) in Hlt by lia.
      rewrite Z.mod_small in Hlt; lia.
  - intros Hin Hres st written n' w2 Hfill. unfold run, creator.
    rewrite bind_abi, Hcount. cbn [fst snd].
    rewrite bind_enforce_eq, bool_decide_eq_true_2 by done.
    rewrite bind_enforce_gt, bool_decide_eq_true_2 by lia.
    rewrite bind_enforce_lt, bool_decide_eq_true_2 by (rewrite to_uint64_small; lia).
    rewrite bind_resize_nil, Hres.
    rewrite bind_abi, length_replicate. cbn [with_call world]. rewrite Hfill. cbn [fst snd].
    match goal with |- _ `prefix_of` trace (?m ?s2).2 =>
      assert (Hgrows : grows m) by apply grows_creator_after_fill;
      specialize (Hgrows s2); cbn [with_call trace] in Hgrows
    end.
    rewrite <- app_assoc in Hgrows. exact Hgrows.
  - intros Hin what Hres. unfold run, creator.
    rewrite bind_abi, Hcount. cbn [fst snd].
    rewrite bind_enforce_eq, bool_decide_eq_true_2 by done.
    rewrite bind_enforce_gt, bool_decide_eq_true_2 by lia.
    rewrite bind_enforce_lt, bool_decide_eq_true_2 by (rewrite to_uint64_small; lia).
    by rewrite bind_resize_nil, Hres.
Qed.

Lemma backend_index_accepted_iff_in_range_witness :
  let lib := test_library three_backends in
  let count := EvGetBackendIDs None 0 1 [] 3 in
  let huge := two_counts (2 ^ 61) [] 0 in
  (∃ msg, @creator (onnxifi_v1 true) nat lib [0] (-1) "model bytes" [] fresh_process
          = (EnforceNotMet msg, with_call 0%nat count fresh_process)) ∧
  (trace fresh_process ++ [count; EvGetBackendIDs (Some 3%nat) 3 0 [11; 12; 13] 3])
    `prefix_of`
    trace (@creator (onnxifi_v1 true) nat lib [0] 2 "model bytes" [] fresh_process).2 ∧
  @creator (onnxifi_v1 true) nat huge [0] 2 "model bytes" [] fresh_process
    = (StdException "std::length_error",
       with_call 0%nat (EvGetBackendIDs None 0 1 [] (2 ^ 61)) fresh_process).
Proof.
  intros lib count huge. split; [|split].
  - refine (proj1 (@backend_index_accepted_iff_in_range (onnxifi_v1 true) nat lib [0] (-1)
                     "model bytes" [] fresh_process [] 3 0%nat _ _ _) _).
    + vm_compute. reflexivity.
    + vm_compute. split; discriminate.
    + vm_compute. discriminate.
    + vm_compute. intros [H _]. by apply H.
  - refine (proj1 (proj2 (@backend_index_accepted_iff_in_range (onnxifi_v1 true) nat lib
                            [0] 2 "model bytes" [] fresh_process [] 3 0%nat _ _ _))
                  _ _ 0 [11; 12; 13] 3 0%nat _).
    + vm_compute. reflexivity.
    + vm_compute. split; discriminate.
    + vm_compute. discriminate.
    + vm_compute. split; [discriminate|reflexivity].
    + vm_compute. reflexivity.
    + vm_compute. reflexivity.
  - refine (proj2 (proj2 (@backend_index_accepted_iff_in_range (onnxifi_v1 true) nat huge
                            [0] 2 "model bytes" [] fresh_process [] (2 ^ 61) 0%nat _ _ _))
                  _ "std::length_error"%string _).
    + vm_compute. reflexivity.
    + vm_compute. split; discriminate.
    + vm_compute. discriminate.
    + vm_compute. split; [discriminate|reflexivity].
    + vm_compute. reflexivity.
Defined.

(** X9: the backend index is checked against the count of the count query
    only. When the vector of ids could be resized to that count and the fill
    query then stores no handle at the position of the index, the handle
    there is still the null handle the vector was sized with, and
    [onnxInitBackend] is called with it. *)
Theorem backend_index_not_rechecked `{!onnxifi_h} {W} (lib : onnxifi_library W)
    (property_pointers : list Z) (backend_index : Z) (onnx_model_str : string)
    (weight_descs : list onnxTensorDescriptorV1) (s : State W)
    (wr written : list onnxBackendID) (n n' : Z) (w1 w2 w3 : W)
    (st : onnxStatus) (be : onnxBackend) :
  onnxGetBackendIDs lib None 0 (world s) = (ONNXIFI_STATUS_FALLBACK, wr, n, w1) →
  n > 0 → to_uint64 backend_index < n → vector_resize_throws n = None →
  onnxGetBackendIDs lib (Some (Z.to_nat n)) n w1
    = (ONNXIFI_STATUS_SUCCESS, written, n', w2) →
  (length written ≤ Z.to_nat (to_uint64 backend_index))%nat →
  onnxInitBackend lib nullptr property_pointers w2 = (st, be, w3) →
  (trace s ++
     [EvGetBackendIDs None 0 ONNXIFI_STATUS_FALLBACK wr n;
      EvGetBackendIDs (Some (Z.to_nat n)) n ONNXIFI_STATUS_SUCCESS written n';
      EvInitBackend nullptr property_pointers st be])
    `prefix_of`
    trace (creator lib property_pointers backend_index onnx_model_str weight_descs s).2.
Proof.
  intros Hcount Hn Hidx Hres Hfill Hshort Hinit. unfold creator.
  rewrite bind_abi, Hcount. cbn [fst snd].
  rewrite bind_enforce_eq, bool_decide_eq_true_2 by done.
  rewrite bind_enforce_gt, bool_decide_eq_true_2 by done.
  rewrite bind_enforce_lt, bool_decide_eq_true_2 by done.
  rewrite bind_resize_nil, Hres.
  rewrite bind_abi, length_replicate. cbn [with_call world]. rewrite Hfill. cbn [fst snd].
  rewrite bind_enforce_eq, bool_decide_eq_true_2 by done.
  assert (Hidx_pos : 0 ≤ to_uint64 backend_index).
  { unfold to_uint64. apply Z.mod_pos_bound. lia. }
  assert (Hnull : stored written (replicate (Z.to_nat n) nullptr)
                    !! Z.to_nat (to_uint64 backend_index) = Some nullptr).
  { unfold stored. rewrite length_replicate, take_ge by lia.
    rewrite lookup_app_r by done. rewrite lookup_drop.
    apply lookup_replicate_2. change onnxBackendID with Z in *. lia. }
  unfold vector_at at 1.
  match goal with |- context [match ?l !! ?i with _ => _ end] =>
    replace (l !! i) with (Some nullptr) by (symmetry; exact Hnull)
  end.
  rewrite bind_mret, bind_abi.
  cbn [with_call world]. rewrite Hinit. cbn [fst snd].
  match goal with |- _ `prefix_of` trace (?m ?s3).2 =>
    assert (Hgrows : grows m) by apply grows_creator_tail;
    specialize (Hgrows s3); cbn [with_call trace] in Hgrows
  end.
  rewrite <- !app_assoc in Hgrows. exact Hgrows.
Qed.

Lemma backend_index_not_rechecked_witness :
  let lib := two_counts 3 [11] 1 in
  (trace fresh_process ++
     [EvGetBackendIDs None 0 1 [] 3; EvGetBackendIDs (Some 3%nat) 3 0 [11] 1;
      EvInitBackend nullptr [0] 0 1000])
    `prefix_of`
    trace (@creator (onnxifi_v1 true) nat lib [0] 2 "model bytes" [] fresh_process).2.
Proof.
  intros lib.
  refine (@backend_index_not_rechecked (onnxifi_v1 true) nat lib [0] 2 "model bytes" []
            fresh_process [] [11] 3 1 0%nat 0%nat 1%nat 0 1000 _ _ _ _ _ _ _).
  - vm_compute. reflexivity.
  - vm_compute. reflexivity.
  - vm_compute. reflexivity.
  - vm_compute. reflexivity.
  - vm_compute. reflexivity.
  - vm_compute. lia.
  - vm_compute. reflexivity.
Defined.

(** ** Which backend ids the creator releases *)

Lemma released_ids_releases (ids : list onnxBackendID) : ∀ sts : list onnxStatus,
  length sts = length ids → released_ids (zip_with EvReleaseBackendID ids sts) = ids.
Proof.
  induction ids as [|id ids IH]; intros [|st sts] Hlen; [done..|].
  injection Hlen as Hlen. unfold released_ids in *. cbn. f_equal. by apply IH.
Qed.

Lemma seqZ_snoc (m : nat) : seqZ 0 (Z.of_nat (S m)) = seqZ 0 (Z.of_nat m) ++ [Z.of_nat m].
Proof.
  replace (Z.of_nat (S m)) with (Z.of_nat m + 1) by lia.
  rewrite seqZ_app by lia. f_equal.
Qed.

(** The ids the loop releases are the ids below the count, without the one
    at the backend index. *)
Lemma unused_ids_delete (backend_ids : list onnxBackendID) (backend_index num_backends : Z) :
  0 ≤ backend_index → (Z.to_nat num_backends ≤ length backend_ids)%nat →
  unused_ids backend_ids backend_index num_backends =
    delete (Z.to_nat backend_index) (take (Z.to_nat num_backends) backend_ids).
Proof.
  intros Hidx Hlen. unfold unused_ids. change onnxBackendID with Z in *.
  destruct (decide (num_backends ≤ 0)) as [Hneg|Hpos].
  { rewrite seqZ_nil by done. by replace (Z.to_nat num_backends) with 0%nat by lia. }
  rewrite <- (Z2Nat.id num_backends) at 1 by lia.
  induction (Z.to_nat num_backends) as [|m IH]; [done|].
  destruct (lookup_lt_is_Some_2 backend_ids m) as [x Hx]; [lia|].
  rewrite seqZ_snoc, omap_app, IH, (take_S_r _ _ x), !delete_take_drop by (done || lia).
  cbn [omap list_omap]. rewrite Nat2Z.id, Hx.
  assert (Hm : length (take m backend_ids) = m) by (rewrite length_take; lia).
  case_bool_decide as Hsel.
  - subst backend_index. rewrite Nat2Z.id, app_nil_r.
    rewrite take_app_length', take_ge by lia.
    rewrite !drop_ge by (rewrite ?length_app; cbn; lia). done.
  - destruct (decide (Z.to_nat backend_index < m)%nat) as [Hlt|Hge].
    + rewrite take_app_le, drop_app_le by lia. by rewrite <- app_assoc.
    + rewrite (take_ge (take m backend_ids ++ [x]))
        by (rewrite length_app; cbn [length]; lia).
      rewrite (take_ge (take m backend_ids) (Z.to_nat backend_index)) by lia.
      rewrite !drop_ge by (rewrite ?length_app; cbn [length]; lia).
      by rewrite !app_nil_r.
Qed.

(** X6: when the creator returns for a backend index that is not negative,
    the ids it released are, in order, the ids the fill query left in the
    vector below the count it reported, without the one at the backend index,
    which is the id in the object it returns. So, for an index below that
    count, every id below the count is either kept or released once; and when
    those ids are pairwise different, the id that is kept is not released. *)
Theorem creator_releases_every_other_id `{!onnxifi_h} {W} (lib : onnxifi_library W)
    (property_pointers : list Z) (backend_index : Z) (onnx_model_str : string)
    (weight_descs : list onnxTensorDescriptorV1) (s s' : State W)
    (p : SharedPtrBackendGraphInfo) :
  creator lib property_pointers backend_index onnx_model_str weight_descs s = (Ok p, s') →
  0 ≤ backend_index → is_int backend_index →
  ∃ evs n written n' info,
    let backend_ids := stored written (replicate (Z.to_nat n) nullptr) in
    trace s' = trace s ++ evs ∧
    EvGetBackendIDs (Some (Z.to_nat n)) n ONNXIFI_STATUS_SUCCESS written n' ∈ evs ∧
    heap s' !! p = Some info ∧
    backend_ids !! Z.to_nat backend_index = Some (backend_id info) ∧
    released_ids evs
      = delete (Z.to_nat backend_index) (take (Z.to_nat n') backend_ids) ∧
    (backend_index < n' →
     take (Z.to_nat n') backend_ids ≡ₚ backend_id info :: released_ids evs) ∧
    (backend_index < n' → NoDup (take (Z.to_nat n') backend_ids) →
     backend_id info ∉ released_ids evs).
Proof.
  intros Hrun Hidx [_ Hint]. unfold INT_MAX in Hint.
  destruct (creator_runs lib property_pointers backend_index onnx_model_str weight_descs s)
    as (evs & r & s1 & Hrun' & Htrace & Hshape).
  rewrite Hrun in Hrun'. injection Hrun' as <- <-.
  destruct Htrace as [Htrace _]; [done|].
  destruct Hshape as (id & be & g & Hshape & -> & _ & Hheap).
  inversion Hshape
    as [| | | | |wr n written n' id' be' sts g' Hn Hlt Hres Hn' Hid Hsts|]; subst.
  rewrite to_uint64_small in Hid by lia.
  set (backend_ids := stored written (replicate (Z.to_nat n) nullptr)) in *.
  assert (Hlen : length backend_ids = Z.to_nat n).
  { unfold backend_ids. by rewrite length_stored, length_replicate. }
  assert (Hreleased :
    released_ids
      ([EvGetBackendIDs None 0 ONNXIFI_STATUS_FALLBACK wr n;
        EvGetBackendIDs (Some (Z.to_nat n)) n ONNXIFI_STATUS_SUCCESS written n';
        EvInitBackend id property_pointers ONNXIFI_STATUS_SUCCESS be] ++
       zip_with EvReleaseBackendID (unused_ids backend_ids backend_index n') sts ++
       [EvInitGraph be onnx_model_str weight_descs ONNXIFI_STATUS_SUCCESS g])
    = delete (Z.to_nat backend_index) (take (Z.to_nat n') backend_ids)).
  { unfold released_ids. rewrite !omap_app. cbn [omap list_omap app].
    rewrite app_nil_r. fold (released_ids
      (zip_with EvReleaseBackendID (unused_ids backend_ids backend_index n') sts)).
    rewrite released_ids_releases by done. apply unused_ids_delete; [done|lia]. }
  eexists _, n, written, n', _. cbv zeta. fold backend_ids.
  rewrite Hheap, lookup_insert_eq, Hreleased. cbn [backend_id].
  split; [exact Htrace|]. split.
  { apply elem_of_app. left. apply elem_of_cons. right. apply elem_of_cons. by left. }
  split; [done|]. split; [done|]. split; [done|].
  assert (Hperm : backend_index < n' →
    take (Z.to_nat n') backend_ids
      ≡ₚ id :: delete (Z.to_nat backend_index) (take (Z.to_nat n') backend_ids)).
  { intros Hbelow. apply delete_Permutation. rewrite lookup_take_lt by lia. done. }
  split; [done|]. intros Hbelow Hnodup.
  rewrite (Hperm Hbelow) in Hnodup. by apply NoDup_cons in Hnodup as [? _].
Qed.

Lemma creator_releases_every_other_id_witness :
  let run := @creator (onnxifi_v1 true) nat (test_library three_backends) [0] 1
               "model bytes" [] fresh_process in
  run.1 = Ok 0%nat ∧
  ∃ evs n written n' info,
    let backend_ids := stored written (replicate (Z.to_nat n) nullptr) in
    trace run.2 = trace fresh_process ++ evs ∧
    EvGetBackendIDs (Some (Z.to_nat n)) n 0 written n' ∈ evs ∧
    heap run.2 !! 0%nat = Some info ∧
    backend_ids !! Z.to_nat 1 = Some (backend_id info) ∧
    released_ids evs = delete (Z.to_nat 1) (take (Z.to_nat n') backend_ids) ∧
    (1 < n' → take (Z.to_nat n') backend_ids ≡ₚ backend_id info :: released_ids evs) ∧
    (1 < n' → NoDup (take (Z.to_nat n') backend_ids) →
     backend_id info ∉ released_ids evs).
Proof.
  split; [vm_compute; reflexivity|].
  refine (@creator_releases_every_other_id (onnxifi_v1 true) nat
            (test_library three_backends) [0] 1 "model bytes" [] fresh_process _ 0%nat
            _ _ _).
  - vm_compute. reflexivity.
  - vm_compute. discriminate.
  - vm_compute. split; discriminate.
Defined.

(** ** What a construction hands to the backend *)

Lemma elem_of_releases (e : event) (ids : list onnxBackendID) (sts : list onnxStatus) :
  e ∈ zip_with EvReleaseBackendID ids sts → ∃ id st, e = EvReleaseBackendID id st.
Proof.
  intros He.
  pose proof (Forall_releases (λ e, ∃ id st, e = EvReleaseBackendID id st) ids sts) as Hall.
  rewrite Forall_forall in Hall. apply Hall; eauto.
Qed.

(** In a run of the creator every [onnxInitBackend] is called with the id at
    the backend index of the vector the fill query filled and with the
    property list, and every [onnxInitGraph] with the backend an
    [onnxInitBackend] before it gave, the model and the weights. *)
Lemma creator_run_arguments `{!onnxifi_h} (property_pointers : list Z) (backend_index : Z)
    (onnx_model_str : string) (weight_descs : list onnxTensorDescriptorV1)
    (evs : list event) (r : result (onnxBackendID * onnxBackend * onnxGraph)) :
  creator_run property_pointers backend_index onnx_model_str weight_descs evs r →
  r ≠ Undefined →
  (∀ id props st be, EvInitBackend id props st be ∈ evs →
     props = property_pointers ∧
     ∃ n written n',
       EvGetBackendIDs (Some (Z.to_nat n)) n ONNXIFI_STATUS_SUCCESS written n' ∈ evs ∧
       stored written (replicate (Z.to_nat n) nullptr) !! Z.to_nat (to_uint64 backend_index)
         = Some id) ∧
  (∀ be model weights st g, EvInitGraph be model weights st g ∈ evs →
     model = onnx_model_str ∧ weights = weight_descs ∧
     ∃ id, EvInitBackend id property_pointers ONNXIFI_STATUS_SUCCESS be ∈ evs).
Proof.
  intros Hrun Hdef.
  assert (Hfront : ∀ (e e1 e2 e3 elast : event) ids sts,
    e ∈ [e1; e2; e3] ++ zip_with EvReleaseBackendID ids sts ++ [elast] →
    e = e1 ∨ e = e2 ∨ e = e3 ∨ (∃ id st, e = EvReleaseBackendID id st) ∨ e = elast).
  { intros e e1 e2 e3 elast ids sts He.
    apply elem_of_app in He as [He|He].
    - apply elem_of_cons in He as [->|He]; [by left|].
      apply elem_of_cons in He as [->|He]; [by right; left|].
      apply elem_of_cons in He as [->|He]; [by right; right; left|].
      by apply elem_of_nil in He.
    - apply elem_of_app in He as [He|He].
      + right. right. right. left. by eapply elem_of_releases.
      + apply elem_of_cons in He as [->|He]; [by repeat right|].
        by apply elem_of_nil in He. }
  destruct Hrun as
    [st wr n msg Hbad
    |wr n what Hn Hidx Hres
    |wr n st written n' msg Hn Hidx Hres Hst
    |wr n written n' id st be msg Hn Hidx Hres Hid Hst
    |wr n written n' id be sts st g msg Hn Hidx Hres Hn' Hid Hsts Hst
    |wr n written n' id be sts g Hn Hidx Hres Hn' Hid Hsts
    |evs]; [| | | | | |done].
  - split; intros ? ? ? ? ; [|intros ?]; intros He;
      apply elem_of_cons in He as [[=]|He]; by apply elem_of_nil in He.
  - split; intros ? ? ? ? ; [|intros ?]; intros He;
      apply elem_of_cons in He as [[=]|He]; by apply elem_of_nil in He.
  - split; intros ? ? ? ? ; [|intros ?]; intros He;
      apply elem_of_cons in He as [[=]|He];
      apply elem_of_cons in He as [[=]|He]; by apply elem_of_nil in He.
  - split.
    + intros id0 props st0 be0 He.
      apply elem_of_cons in He as [[=]|He].
      apply elem_of_cons in He as [[=]|He].
      apply elem_of_cons in He as [[= -> -> -> ->]|He]; [|by apply elem_of_nil in He].
      split; [done|]. exists n, written, n'. split; [|done].
      apply elem_of_cons. right. apply elem_of_cons. by left.
    + intros be0 model weights st0 g He.
      apply elem_of_cons in He as [[=]|He].
      apply elem_of_cons in He as [[=]|He].
      apply elem_of_cons in He as [[=]|He]. by apply elem_of_nil in He.
  - split.
    + intros id0 props st0 be0 He.
      apply Hfront in He as [[=]|[[=]|[[= -> -> -> ->]|[(? & ? & [=])|[=]]]]].
      split; [done|]. exists n, written, n'. split; [|done].
      apply elem_of_app. left. apply elem_of_cons. right. apply elem_of_cons. by left.
    + intros be0 model weights st0 g0 He.
      apply Hfront in He as [[=]|[[=]|[[=]|[(? & ? & [=])|[= -> -> -> -> ->]]]]].
      split; [done|]. split; [done|]. exists id.
      apply elem_of_app. left. do 2 (apply elem_of_cons; right). apply elem_of_cons. by left.
  - split.
    + intros id0 props st0 be0 He.
      apply Hfront in He as [[=]|[[=]|[[= -> -> -> ->]|[(? & ? & [=])|[=]]]]].
      split; [done|]. exists n, written, n'. split; [|done].
      apply elem_of_app. left. apply elem_of_cons. right. apply elem_of_cons. by left.
    + intros be0 model weights st0 g0 He.
      apply Hfront in He as [[=]|[[=]|[[=]|[(? & ? & [=])|[= -> -> -> -> ->]]]]].
      split; [done|]. split; [done|]. exists id.
      apply elem_of_app. left. do 2 (apply elem_of_cons; right). apply elem_of_cons. by left.
Qed.

(** The calls of a construction: none, or those of one run of the creator
    for the property list of [BuildPropertyList], the [backend_id] argument,
    the [onnx_model] argument and the weights of [buildInitializationList];
    then at most the probe. *)
Lemma OnnxifiOp_new_calls `{!onnxifi_h} {W Workspace : Type}
    (buildInitializationList :
       Workspace → gmap string string → gset string → option (list onnxTensorDescriptorV1))
    (initOnnxifiLibrary : option (onnxifi_library W))
    (d : OperatorDef) (ws : Workspace) (s s' : State W) (r : result (OnnxifiOp W)) :
  OnnxifiOp_new buildInitializationList initOnnxifiLibrary d ws s = (r, s') →
  r ≠ Undefined →
  ∃ made probed,
    trace s' = trace s ++ made ++ probed ∧ Forall is_probe probed ∧
    (made = [] ∨
     ∃ input_mapping initializer_set weight_descs r',
       initializers_loop (GetRepeatedArgument (arg_strings d) "initializers") ∅ ∅
         = Some (input_mapping, initializer_set) ∧
       buildInitializationList ws input_mapping initializer_set = Some weight_descs ∧
       creator_run [ONNXIFI_BACKEND_PROPERTY_NONE]
         (GetSingleArgument (arg_i d) "backend_id" 0)
         (GetSingleArgument (arg_s d) "onnx_model" "") weight_descs made r' ∧
       r' ≠ Undefined).
Proof.
  intros Hrun Hdef.
  assert (Hnone : ∀ msg, (EnforceNotMet msg, s) = (r, s') →
    ∃ made probed, trace s' = trace s ++ made ++ probed ∧ Forall is_probe probed ∧
      (made = [] ∨
       ∃ input_mapping initializer_set weight_descs r',
         initializers_loop (GetRepeatedArgument (arg_strings d) "initializers") ∅ ∅
           = Some (input_mapping, initializer_set) ∧
         buildInitializationList ws input_mapping initializer_set = Some weight_descs ∧
         creator_run [ONNXIFI_BACKEND_PROPERTY_NONE]
           (GetSingleArgument (arg_i d) "backend_id" 0)
           (GetSingleArgument (arg_s d) "onnx_model" "") weight_descs made r' ∧
         r' ≠ Undefined)).
  { intros msg [= <- <-]. exists [], []. rewrite !app_nil_r. by repeat split; [|left]. }
  unfold OnnxifiOp_new in Hrun.
  destruct initOnnxifiLibrary as [lib|]; [|by eapply Hnone].
  rewrite bind_enforce in Hrun. destruct (negb _); [|by eapply Hnone].
  rewrite bind_enforce_eq in Hrun. case_bool_decide; [|by eapply Hnone].
  rewrite bind_enforce_eq in Hrun. case_bool_decide; [|by eapply Hnone].
  destruct (output_loop _ _ _ _ _ _) as [output_desc output_shape_hints].
  rewrite bind_enforce_eq in Hrun. case_bool_decide; [|by eapply Hnone].
  destruct (initializers_loop _ _ _) as [[input_mapping initializer_set]|] eqn:Hloop;
    [|by injection Hrun as <- _].
  destruct (buildInitializationList _ _ _) as [weight_descs|] eqn:Hweights;
    [|by eapply Hnone].
  clear Hnone. unfold BuildBackendAndGraph, BuildPropertyList in Hrun.
  cbn [lib_ app] in Hrun.
  unfold mbind at 1, M_bind at 1, backend_graph_map_insert in Hrun.
  assert (Hrest : ∀ (p : SharedPtrBackendGraphInfo) (s1 : State W) made,
    trace s1 = trace s ++ made →
    (info ← deref p;
     let this := set_graph_members
       {| lib_ := lib; op_id_string_ := ""; backend_id_ := nullptr; backend_ := nullptr;
          graph_ := nullptr; backend_graph_shared_ptr_ := None;
          input_desc_ := input_loop (GetRepeatedArgument (arg_strings d) "input_names") 0 [];
          output_desc_ := output_desc; onnxSetIOAndRunGraphPointer_ := None;
          input_names_ := GetRepeatedArgument (arg_strings d) "input_names";
          output_names_ := GetRepeatedArgument (arg_strings d) "output_names";
          output_shape_hints_ := output_shape_hints |} (op_id_string_of d) p info in
     if ONNXIFI_ENABLE_EXT then
       '(st, fp) ←
         abi (onnxGetExtensionFunctionAddress (lib_ this) (backend_id_ this)
                "onnxSetIOAndRunGraphFunction")
             (λ r, EvGetExtensionFunctionAddress (backend_id_ this)
                     "onnxSetIOAndRunGraphFunction" r.1 r.2);
       if bool_decide (st ≠ ONNXIFI_STATUS_SUCCESS) then
         mret (set_onnxSetIOAndRunGraphPointer this nullptr)
       else mret (set_onnxSetIOAndRunGraphPointer this fp)
     else mret this) s1 = (r, s') →
    ∃ probed, trace s' = trace s ++ made ++ probed ∧ Forall is_probe probed).
  { intros p s1 made Htr Hrest.
    unfold mbind at 1, M_bind at 1, deref in Hrest.
    destruct (heap s1 !! p) as [info|]; [|by injection Hrest as <- _].
    destruct ONNXIFI_ENABLE_EXT.
    - rewrite bind_abi in Hrest.
      destruct (onnxGetExtensionFunctionAddress _ _ _ _) as [[st fp] w].
      cbn [fst snd] in Hrest. eexists [_].
      assert (s' = with_call w
                (EvGetExtensionFunctionAddress (backend_id info)
                   "onnxSetIOAndRunGraphFunction" st fp) s1) as ->.
      { by case_bool_decide; injection Hrest as _ <-. }
      cbn [with_call trace]. rewrite Htr, <- app_assoc. split; [done|].
      repeat constructor. by eexists _, _, _, _.
    - injection Hrest as _ <-. exists []. by rewrite Htr, app_nil_r. }
  destruct (backend_graph_map s !! op_id_string_of d) as [[p refs]|].
  - assert (∃ probed, trace s' = trace s ++ [] ++ probed ∧ Forall is_probe probed)
      as (probed & Htr & Hprobed).
    { eapply (Hrest p _ []); [|exact Hrun]. cbn. by rewrite app_nil_r. }
    exists [], probed. by repeat split; [..|left].
  - match type of Hrun with context [creator ?l ?pp ?bi ?m ?wd s] =>
      destruct (creator_runs l pp bi m wd s) as (made & rc & s0 & Hcr & Hsame & Hshape)
    end.
    rewrite Hcr in Hrun. destruct rc as [p|msg| |what]; [| |by injection Hrun as <- _|].
    + destruct Hsame as [Htr0 _]; [done|].
      destruct Hshape as (id & be & g & Hshape & _).
      assert (∃ probed, trace s' = trace s ++ made ++ probed ∧ Forall is_probe probed)
        as (probed & Htr & Hprobed).
      { eapply (Hrest p _ made); [|exact Hrun]. exact Htr0. }
      exists made, probed. repeat split; [done..|]. right.
      by exists input_mapping, initializer_set, weight_descs, (Ok (id, be, g)).
    + injection Hrun as <- <-. destruct Hsame as [Htr0 _]; [done|].
      destruct Hshape as (Hshape & _).
      exists made, []. rewrite app_nil_r. repeat split; [done..|]. right.
      by exists input_mapping, initializer_set, weight_descs, (EnforceNotMet msg).
    + injection Hrun as <- <-. destruct Hsame as [Htr0 _]; [done|].
      destruct Hshape as (Hshape & _).
      exists made, []. rewrite app_nil_r. repeat split; [done..|]. right.
      by exists input_mapping, initializer_set, weight_descs, (StdException what).
Qed.

(** X5: in a construction that does not end in undefined behaviour, every
    call of [onnxInitBackend] carries the one-element property list
    [ONNXIFI_BACKEND_PROPERTY_NONE], whatever arguments the operator
    definition has, and the id at the position of the [backend_id] argument
    (the first id when the argument is absent) in the vector the fill query
    filled; and every call of [onnxInitGraph] carries the [onnx_model]
    argument, the weights [buildInitializationList] made for the rename map
    and the set of the initializers, and the backend [onnxInitBackend]
    returned with the success code. *)
Theorem constructor_backend_arguments `{!onnxifi_h} {W Workspace : Type}
    (buildInitializationList :
       Workspace → gmap string string → gset string → option (list onnxTensorDescriptorV1))
    (initOnnxifiLibrary : option (onnxifi_library W))
    (d : OperatorDef) (ws : Workspace) (s s' : State W) (r : result (OnnxifiOp W)) :
  OnnxifiOp_new buildInitializationList initOnnxifiLibrary d ws s = (r, s') →
  r ≠ Undefined →
  ∃ evs, trace s' = trace s ++ evs ∧
    (∀ id props st be, EvInitBackend id props st be ∈ evs →
       props = [ONNXIFI_BACKEND_PROPERTY_NONE] ∧
       ∃ n written n',
         EvGetBackendIDs (Some (Z.to_nat n)) n ONNXIFI_STATUS_SUCCESS written n' ∈ evs ∧
         stored written (replicate (Z.to_nat n) nullptr)
           !! Z.to_nat (to_uint64 (default 0 (arg_i d !! "backend_id"%string))) = Some id) ∧
    (∀ be model weights st g, EvInitGraph be model weights st g ∈ evs →
       arg_s d !! "onnx_model"%string = Some model ∧
       (∃ input_mapping initializer_set,
          initializers_loop (default [] (arg_strings d !! "initializers"%string)) ∅ ∅
            = Some (input_mapping, initializer_set) ∧
          buildInitializationList ws input_mapping initializer_set = Some weights) ∧
       ∃ id, EvInitBackend id [ONNXIFI_BACKEND_PROPERTY_NONE] ONNXIFI_STATUS_SUCCESS be
             ∈ evs).
Proof.
  intros Hrun Hdef.
  assert (Hmodel : (∃ op, r = Ok op) ∨ s' ≠ s →
    ∃ model, arg_s d !! "onnx_model"%string = Some model ∧
             GetSingleArgument (arg_s d) "onnx_model" "" = model).
  { intros Hchanged. unfold OnnxifiOp_new in Hrun.
    destruct initOnnxifiLibrary as [lib|].
    2:{ injection Hrun as <- <-. by destruct Hchanged as [[? ?]|?]. }
    rewrite bind_enforce in Hrun. destruct (negb _) eqn:Hnonempty.
    2:{ injection Hrun as <- <-. by destruct Hchanged as [[? ?]|?]. }
    apply negb_true_iff, bool_decide_eq_false in Hnonempty.
    unfold GetSingleArgument in *.
    destruct (arg_s d !! "onnx_model"%string) as [model|]; [|done]. by exists model. }
  destruct (OnnxifiOp_new_calls _ _ _ _ _ _ _ Hrun Hdef)
    as (made & probed & Htr & Hprobed & Hmade).
  exists (made ++ probed). split; [done|].
  assert (Hnot_probe : ∀ e, e ∈ probed →
    (∀ id props st be, e ≠ EvInitBackend id props st be) ∧
    (∀ be model weights st g, e ≠ EvInitGraph be model weights st g)).
  { intros e He. rewrite Forall_forall in Hprobed.
    destruct (Hprobed e He) as (? & ? & ? & ? & ->). done. }
  destruct Hmade as [->|(input_mapping & initializer_set & weight_descs & r' &
                         Hloop & Hweights & Hshape & Hdef')].
  - split.
    + intros id props st be He. by destruct (proj1 (Hnot_probe _ He) id props st be).
    + intros be model weights st g He.
      by destruct (proj2 (Hnot_probe _ He) be model weights st g).
  - destruct (creator_run_arguments _ _ _ _ _ _ Hshape Hdef') as [Hinit Hgraph].
    assert (Hchanged : s' ≠ s ∨ made = []).
    { destruct made as [|e made]; [by right|left]. intros ->.
      apply (f_equal length) in Htr. rewrite !length_app in Htr. cbn in Htr. lia. }
    split.
    + intros id props st be He. apply elem_of_app in He as [He|He];
        [|by destruct (proj1 (Hnot_probe _ He) id props st be)].
      destruct (Hinit _ _ _ _ He) as (-> & n & written & n' & Hfill & Hid).
      split; [done|]. exists n, written, n'. split; [|done].
      apply elem_of_app. by left.
    + intros be model weights st g He. apply elem_of_app in He as [He|He];
        [|by destruct (proj2 (Hnot_probe _ He) be model weights st g)].
      destruct (Hgraph _ _ _ _ _ He) as (-> & -> & id & Hid).
      destruct Hchanged as [Hchanged| ->]; [|by apply elem_of_nil in He].
      destruct Hmodel as (model & Hmodel & <-); [by right|].
      split; [done|]. split; [by exists input_mapping, initializer_set|].
      exists id. apply elem_of_app. by left.
Qed.

Lemma constructor_backend_arguments_witness :
  let d := xyz_def "m" "0" 1 [] ["w"; "w_ws"] in
  let run := @OnnxifiOp_new (onnxifi_v1 true) nat unit no_weights
               (Some (test_library three_backends)) d () fresh_process in
  EvInitBackend 12 [0] 0 1000 ∈ trace run.2 ∧
  EvInitGraph 1000 "model bytes" [] 0 2001 ∈ trace run.2 ∧
  ∃ evs, trace run.2 = trace fresh_process ++ evs ∧
    (∀ id props st be, EvInitBackend id props st be ∈ evs →
       props = [@ONNXIFI_BACKEND_PROPERTY_NONE (onnxifi_v1 true)] ∧
       ∃ n written n',
         EvGetBackendIDs (Some (Z.to_nat n)) n 0 written n' ∈ evs ∧
         stored written (replicate (Z.to_nat n) nullptr)
           !! Z.to_nat (to_uint64 (default 0 (arg_i d !! "backend_id"%string))) = Some id) ∧
    (∀ be model weights st g, EvInitGraph be model weights st g ∈ evs →
       arg_s d !! "onnx_model"%string = Some model ∧
       (∃ input_mapping initializer_set,
          initializers_loop (default [] (arg_strings d !! "initializers"%string)) ∅ ∅
            = Some (input_mapping, initializer_set) ∧
          no_weights () input_mapping initializer_set = Some weights) ∧
       ∃ id, EvInitBackend id [@ONNXIFI_BACKEND_PROPERTY_NONE (onnxifi_v1 true)] 0 be ∈ evs).
Proof.
  intros d run.
  split; [vm_compute; do 2 (apply elem_of_cons; right); apply elem_of_cons; by left|].
  split; [vm_compute; do 5 (apply elem_of_cons; right); apply elem_of_cons; by left|].
  refine (@constructor_backend_arguments (onnxifi_v1 true) nat unit no_weights
            (Some (test_library three_backends)) d () fresh_process run.2 run.1 _ _).
  - apply surjective_pairing.
  - vm_compute. discriminate.
Defined.
